(** * TechDocs generator: repository ingestion and staged pipeline

    A shallow embedding of the TypeScript sources
    [src/repository-analyzer.ts], [src/agents/coordinator-agent.ts],
    [src/agents/email-agent-graph.ts] and [src/index.ts], followed by the
    properties of the design document that were checked against them.

    Conventions of the embedding:
    - a JavaScript string is the list of its UTF-16 code units ([list N]);
      [s.length] is the length of that list;
    - integer-valued JavaScript numbers (lengths, sizes, scores, HTTP
      statuses) are [Z]; the two places where the source multiplies by a
      fraction ([content.length * 0.1] and [progress * 0.9]) use Rocq's
      primitive binary64 floats, which are the IEEE 754 doubles of
      JavaScript;
    - [toLowerCase] is the lowering of the Unicode case tables, on code
      points;
    - [T | null] and [T | undefined] are [option T];
    - a [Promise] that may reject is a computation in an error monad;
      [await] is its bind. *)

From Stdlib Require Import List ZArith NArith String Ascii Bool Lia.
From Stdlib Require Import DecimalString PrimFloat Uint63 Sorted Permutation.
Import ListNotations.

Set Warnings "-inexact-float,-abstract-large-number,-register-all".

(* ================================================================== *)
(** ** Unicode case data *)
(* ================================================================== *)

(** [String.prototype.toLowerCase] works by the case tables of the Unicode
    Character Database.  The tables below are those of version 14.0:
    the simple lower-case mappings of [UnicodeData.txt], and the
    properties [Cased] and [Case_Ignorable] of
    [DerivedCoreProperties.txt], each as the list of its runs of code
    points. *)
Module Unicode.

(** A run of simple lower-case mappings: [Shift first last target] maps
    the code points [first], [first + 1], ..., [last] to [target],
    [target + 1], ...; [Pairs first last] maps [first], [first + 2],
    ..., [last] each to its successor (capital and small letters
    alternate in such a run). *)
Inductive CaseRun : Type :=
| Shift (first last target : N)
| Pairs (first last : N).

Definition lowerRuns : list CaseRun :=
  [
   Shift 0x41 0x5A 0x61; Shift 0xC0 0xD6 0xE0; Shift 0xD8 0xDE 0xF8;
   Pairs 0x100 0x12E; Shift 0x130 0x130 0x69; Pairs 0x132 0x136;
   Pairs 0x139 0x147; Pairs 0x14A 0x176; Shift 0x178 0x178 0xFF;
   Pairs 0x179 0x17D; Shift 0x181 0x181 0x253; Pairs 0x182 0x184;
   Shift 0x186 0x186 0x254; Shift 0x187 0x187 0x188; Shift 0x189 0x18A 0x256;
   Shift 0x18B 0x18B 0x18C; Shift 0x18E 0x18E 0x1DD; Shift 0x18F 0x18F 0x259;
   Shift 0x190 0x190 0x25B; Shift 0x191 0x191 0x192; Shift 0x193 0x193 0x260;
   Shift 0x194 0x194 0x263; Shift 0x196 0x196 0x269; Shift 0x197 0x197 0x268;
   Shift 0x198 0x198 0x199; Shift 0x19C 0x19C 0x26F; Shift 0x19D 0x19D 0x272;
   Shift 0x19F 0x19F 0x275; Pairs 0x1A0 0x1A4; Shift 0x1A6 0x1A6 0x280;
   Shift 0x1A7 0x1A7 0x1A8; Shift 0x1A9 0x1A9 0x283; Shift 0x1AC 0x1AC 0x1AD;
   Shift 0x1AE 0x1AE 0x288; Shift 0x1AF 0x1AF 0x1B0; Shift 0x1B1 0x1B2 0x28A;
   Pairs 0x1B3 0x1B5; Shift 0x1B7 0x1B7 0x292; Shift 0x1B8 0x1B8 0x1B9;
   Shift 0x1BC 0x1BC 0x1BD; Shift 0x1C4 0x1C4 0x1C6; Shift 0x1C5 0x1C5 0x1C6;
   Shift 0x1C7 0x1C7 0x1C9; Shift 0x1C8 0x1C8 0x1C9; Shift 0x1CA 0x1CA 0x1CC;
   Pairs 0x1CB 0x1DB; Pairs 0x1DE 0x1EE; Shift 0x1F1 0x1F1 0x1F3;
   Pairs 0x1F2 0x1F4; Shift 0x1F6 0x1F6 0x195; Shift 0x1F7 0x1F7 0x1BF;
   Pairs 0x1F8 0x21E; Shift 0x220 0x220 0x19E; Pairs 0x222 0x232;
   Shift 0x23A 0x23A 0x2C65; Shift 0x23B 0x23B 0x23C; Shift 0x23D 0x23D 0x19A;
   Shift 0x23E 0x23E 0x2C66; Shift 0x241 0x241 0x242; Shift 0x243 0x243 0x180;
   Shift 0x244 0x244 0x289; Shift 0x245 0x245 0x28C; Pairs 0x246 0x24E;
   Pairs 0x370 0x372; Shift 0x376 0x376 0x377; Shift 0x37F 0x37F 0x3F3;
   Shift 0x386 0x386 0x3AC; Shift 0x388 0x38A 0x3AD; Shift 0x38C 0x38C 0x3CC;
   Shift 0x38E 0x38F 0x3CD; Shift 0x391 0x3A1 0x3B1; Shift 0x3A3 0x3AB 0x3C3;
   Shift 0x3CF 0x3CF 0x3D7; Pairs 0x3D8 0x3EE; Shift 0x3F4 0x3F4 0x3B8;
   Shift 0x3F7 0x3F7 0x3F8; Shift 0x3F9 0x3F9 0x3F2; Shift 0x3FA 0x3FA 0x3FB;
   Shift 0x3FD 0x3FF 0x37B; Shift 0x400 0x40F 0x450; Shift 0x410 0x42F 0x430;
   Pairs 0x460 0x480; Pairs 0x48A 0x4BE; Shift 0x4C0 0x4C0 0x4CF;
   Pairs 0x4C1 0x4CD; Pairs 0x4D0 0x52E; Shift 0x531 0x556 0x561;
   Shift 0x10A0 0x10C5 0x2D00; Shift 0x10C7 0x10C7 0x2D27; Shift 0x10CD 0x10CD 0x2D2D;
   Shift 0x13A0 0x13EF 0xAB70; Shift 0x13F0 0x13F5 0x13F8; Shift 0x1C90 0x1CBA 0x10D0;
   Shift 0x1CBD 0x1CBF 0x10FD; Pairs 0x1E00 0x1E94; Shift 0x1E9E 0x1E9E 0xDF;
   Pairs 0x1EA0 0x1EFE; Shift 0x1F08 0x1F0F 0x1F00; Shift 0x1F18 0x1F1D 0x1F10;
   Shift 0x1F28 0x1F2F 0x1F20; Shift 0x1F38 0x1F3F 0x1F30; Shift 0x1F48 0x1F4D 0x1F40;
   Shift 0x1F59 0x1F59 0x1F51; Shift 0x1F5B 0x1F5B 0x1F53; Shift 0x1F5D 0x1F5D 0x1F55;
   Shift 0x1F5F 0x1F5F 0x1F57; Shift 0x1F68 0x1F6F 0x1F60; Shift 0x1F88 0x1F8F 0x1F80;
   Shift 0x1F98 0x1F9F 0x1F90; Shift 0x1FA8 0x1FAF 0x1FA0; Shift 0x1FB8 0x1FB9 0x1FB0;
   Shift 0x1FBA 0x1FBB 0x1F70; Shift 0x1FBC 0x1FBC 0x1FB3; Shift 0x1FC8 0x1FCB 0x1F72;
   Shift 0x1FCC 0x1FCC 0x1FC3; Shift 0x1FD8 0x1FD9 0x1FD0; Shift 0x1FDA 0x1FDB 0x1F76;
   Shift 0x1FE8 0x1FE9 0x1FE0; Shift 0x1FEA 0x1FEB 0x1F7A; Shift 0x1FEC 0x1FEC 0x1FE5;
   Shift 0x1FF8 0x1FF9 0x1F78; Shift 0x1FFA 0x1FFB 0x1F7C; Shift 0x1FFC 0x1FFC 0x1FF3;
   Shift 0x2126 0x2126 0x3C9; Shift 0x212A 0x212A 0x6B; Shift 0x212B 0x212B 0xE5;
   Shift 0x2132 0x2132 0x214E; Shift 0x2160 0x216F 0x2170; Shift 0x2183 0x2183 0x2184;
   Shift 0x24B6 0x24CF 0x24D0; Shift 0x2C00 0x2C2F 0x2C30; Shift 0x2C60 0x2C60 0x2C61;
   Shift 0x2C62 0x2C62 0x26B; Shift 0x2C63 0x2C63 0x1D7D; Shift 0x2C64 0x2C64 0x27D;
   Pairs 0x2C67 0x2C6B; Shift 0x2C6D 0x2C6D 0x251; Shift 0x2C6E 0x2C6E 0x271;
   Shift 0x2C6F 0x2C6F 0x250; Shift 0x2C70 0x2C70 0x252; Shift 0x2C72 0x2C72 0x2C73;
   Shift 0x2C75 0x2C75 0x2C76; Shift 0x2C7E 0x2C7F 0x23F; Pairs 0x2C80 0x2CE2;
   Pairs 0x2CEB 0x2CED; Shift 0x2CF2 0x2CF2 0x2CF3; Pairs 0xA640 0xA66C;
   Pairs 0xA680 0xA69A; Pairs 0xA722 0xA72E; Pairs 0xA732 0xA76E;
   Pairs 0xA779 0xA77B; Shift 0xA77D 0xA77D 0x1D79; Pairs 0xA77E 0xA786;
   Shift 0xA78B 0xA78B 0xA78C; Shift 0xA78D 0xA78D 0x265; Pairs 0xA790 0xA792;
   Pairs 0xA796 0xA7A8; Shift 0xA7AA 0xA7AA 0x266; Shift 0xA7AB 0xA7AB 0x25C;
   Shift 0xA7AC 0xA7AC 0x261; Shift 0xA7AD 0xA7AD 0x26C; Shift 0xA7AE 0xA7AE 0x26A;
   Shift 0xA7B0 0xA7B0 0x29E; Shift 0xA7B1 0xA7B1 0x287; Shift 0xA7B2 0xA7B2 0x29D;
   Shift 0xA7B3 0xA7B3 0xAB53; Pairs 0xA7B4 0xA7C2; Shift 0xA7C4 0xA7C4 0xA794;
   Shift 0xA7C5 0xA7C5 0x282; Shift 0xA7C6 0xA7C6 0x1D8E; Pairs 0xA7C7 0xA7C9;
   Shift 0xA7D0 0xA7D0 0xA7D1; Pairs 0xA7D6 0xA7D8; Shift 0xA7F5 0xA7F5 0xA7F6;
   Shift 0xFF21 0xFF3A 0xFF41; Shift 0x10400 0x10427 0x10428; Shift 0x104B0 0x104D3 0x104D8;
   Shift 0x10570 0x1057A 0x10597; Shift 0x1057C 0x1058A 0x105A3; Shift 0x1058C 0x10592 0x105B3;
   Shift 0x10594 0x10595 0x105BB; Shift 0x10C80 0x10CB2 0x10CC0; Shift 0x118A0 0x118BF 0x118C0;
   Shift 0x16E40 0x16E5F 0x16E60; Shift 0x1E900 0x1E921 0x1E922
  ]%N.

Definition casedRuns : list (N * N) :=
  [
   (0x41, 0x5A); (0x61, 0x7A); (0xAA, 0xAA); (0xB5, 0xB5);
   (0xBA, 0xBA); (0xC0, 0xD6); (0xD8, 0xF6); (0xF8, 0x1BA);
   (0x1BC, 0x1BF); (0x1C4, 0x293); (0x295, 0x2B8); (0x2C0, 0x2C1);
   (0x2E0, 0x2E4); (0x345, 0x345); (0x370, 0x373); (0x376, 0x377);
   (0x37A, 0x37D); (0x37F, 0x37F); (0x386, 0x386); (0x388, 0x38A);
   (0x38C, 0x38C); (0x38E, 0x3A1); (0x3A3, 0x3F5); (0x3F7, 0x481);
   (0x48A, 0x52F); (0x531, 0x556); (0x560, 0x588); (0x10A0, 0x10C5);
   (0x10C7, 0x10C7); (0x10CD, 0x10CD); (0x10D0, 0x10FA); (0x10FD, 0x10FF);
   (0x13A0, 0x13F5); (0x13F8, 0x13FD); (0x1C80, 0x1C88); (0x1C90, 0x1CBA);
   (0x1CBD, 0x1CBF); (0x1D00, 0x1DBF); (0x1E00, 0x1F15); (0x1F18, 0x1F1D);
   (0x1F20, 0x1F45); (0x1F48, 0x1F4D); (0x1F50, 0x1F57); (0x1F59, 0x1F59);
   (0x1F5B, 0x1F5B); (0x1F5D, 0x1F5D); (0x1F5F, 0x1F7D); (0x1F80, 0x1FB4);
   (0x1FB6, 0x1FBC); (0x1FBE, 0x1FBE); (0x1FC2, 0x1FC4); (0x1FC6, 0x1FCC);
   (0x1FD0, 0x1FD3); (0x1FD6, 0x1FDB); (0x1FE0, 0x1FEC); (0x1FF2, 0x1FF4);
   (0x1FF6, 0x1FFC); (0x2071, 0x2071); (0x207F, 0x207F); (0x2090, 0x209C);
   (0x2102, 0x2102); (0x2107, 0x2107); (0x210A, 0x2113); (0x2115, 0x2115);
   (0x2119, 0x211D); (0x2124, 0x2124); (0x2126, 0x2126); (0x2128, 0x2128);
   (0x212A, 0x212D); (0x212F, 0x2134); (0x2139, 0x2139); (0x213C, 0x213F);
   (0x2145, 0x2149); (0x214E, 0x214E); (0x2160, 0x217F); (0x2183, 0x2184);
   (0x24B6, 0x24E9); (0x2C00, 0x2CE4); (0x2CEB, 0x2CEE); (0x2CF2, 0x2CF3);
   (0x2D00, 0x2D25); (0x2D27, 0x2D27); (0x2D2D, 0x2D2D); (0xA640, 0xA66D);
   (0xA680, 0xA69D); (0xA722, 0xA787); (0xA78B, 0xA78E); (0xA790, 0xA7CA);
   (0xA7D0, 0xA7D1); (0xA7D3, 0xA7D3); (0xA7D5, 0xA7D9); (0xA7F5, 0xA7F6);
   (0xA7F8, 0xA7FA); (0xAB30, 0xAB5A); (0xAB5C, 0xAB68); (0xAB70, 0xABBF);
   (0xFB00, 0xFB06); (0xFB13, 0xFB17); (0xFF21, 0xFF3A); (0xFF41, 0xFF5A);
   (0x10400, 0x1044F); (0x104B0, 0x104D3); (0x104D8, 0x104FB); (0x10570, 0x1057A);
   (0x1057C, 0x1058A); (0x1058C, 0x10592); (0x10594, 0x10595); (0x10597, 0x105A1);
   (0x105A3, 0x105B1); (0x105B3, 0x105B9); (0x105BB, 0x105BC); (0x10780, 0x10780);
   (0x10783, 0x10785); (0x10787, 0x107B0); (0x107B2, 0x107BA); (0x10C80, 0x10CB2);
   (0x10CC0, 0x10CF2); (0x118A0, 0x118DF); (0x16E40, 0x16E7F); (0x1D400, 0x1D454);
   (0x1D456, 0x1D49C); (0x1D49E, 0x1D49F); (0x1D4A2, 0x1D4A2); (0x1D4A5, 0x1D4A6);
   (0x1D4A9, 0x1D4AC); (0x1D4AE, 0x1D4B9); (0x1D4BB, 0x1D4BB); (0x1D4BD, 0x1D4C3);
   (0x1D4C5, 0x1D505); (0x1D507, 0x1D50A); (0x1D50D, 0x1D514); (0x1D516, 0x1D51C);
   (0x1D51E, 0x1D539); (0x1D53B, 0x1D53E); (0x1D540, 0x1D544); (0x1D546, 0x1D546);
   (0x1D54A, 0x1D550); (0x1D552, 0x1D6A5); (0x1D6A8, 0x1D6C0); (0x1D6C2, 0x1D6DA);
   (0x1D6DC, 0x1D6FA); (0x1D6FC, 0x1D714); (0x1D716, 0x1D734); (0x1D736, 0x1D74E);
   (0x1D750, 0x1D76E); (0x1D770, 0x1D788); (0x1D78A, 0x1D7A8); (0x1D7AA, 0x1D7C2);
   (0x1D7C4, 0x1D7CB); (0x1DF00, 0x1DF09); (0x1DF0B, 0x1DF1E); (0x1E900, 0x1E943);
   (0x1F130, 0x1F149); (0x1F150, 0x1F169); (0x1F170, 0x1F189)
  ]%N.

Definition caseIgnorableRuns : list (N * N) :=
  [
   (0x27, 0x27); (0x2E, 0x2E); (0x3A, 0x3A); (0x5E, 0x5E);
   (0x60, 0x60); (0xA8, 0xA8); (0xAD, 0xAD); (0xAF, 0xAF);
   (0xB4, 0xB4); (0xB7, 0xB8); (0x2B0, 0x36F); (0x374, 0x375);
   (0x37A, 0x37A); (0x384, 0x385); (0x387, 0x387); (0x483, 0x489);
   (0x559, 0x559); (0x55F, 0x55F); (0x591, 0x5BD); (0x5BF, 0x5BF);
   (0x5C1, 0x5C2); (0x5C4, 0x5C5); (0x5C7, 0x5C7); (0x5F4, 0x5F4);
   (0x600, 0x605); (0x610, 0x61A); (0x61C, 0x61C); (0x640, 0x640);
   (0x64B, 0x65F); (0x670, 0x670); (0x6D6, 0x6DD); (0x6DF, 0x6E8);
   (0x6EA, 0x6ED); (0x70F, 0x70F); (0x711, 0x711); (0x730, 0x74A);
   (0x7A6, 0x7B0); (0x7EB, 0x7F5); (0x7FA, 0x7FA); (0x7FD, 0x7FD);
   (0x816, 0x82D); (0x859, 0x85B); (0x888, 0x888); (0x890, 0x891);
   (0x898, 0x89F); (0x8C9, 0x902); (0x93A, 0x93A); (0x93C, 0x93C);
   (0x941, 0x948); (0x94D, 0x94D); (0x951, 0x957); (0x962, 0x963);
   (0x971, 0x971); (0x981, 0x981); (0x9BC, 0x9BC); (0x9C1, 0x9C4);
   (0x9CD, 0x9CD); (0x9E2, 0x9E3); (0x9FE, 0x9FE); (0xA01, 0xA02);
   (0xA3C, 0xA3C); (0xA41, 0xA42); (0xA47, 0xA48); (0xA4B, 0xA4D);
   (0xA51, 0xA51); (0xA70, 0xA71); (0xA75, 0xA75); (0xA81, 0xA82);
   (0xABC, 0xABC); (0xAC1, 0xAC5); (0xAC7, 0xAC8); (0xACD, 0xACD);
   (0xAE2, 0xAE3); (0xAFA, 0xAFF); (0xB01, 0xB01); (0xB3C, 0xB3C);
   (0xB3F, 0xB3F); (0xB41, 0xB44); (0xB4D, 0xB4D); (0xB55, 0xB56);
   (0xB62, 0xB63); (0xB82, 0xB82); (0xBC0, 0xBC0); (0xBCD, 0xBCD);
   (0xC00, 0xC00); (0xC04, 0xC04); (0xC3C, 0xC3C); (0xC3E, 0xC40);
   (0xC46, 0xC48); (0xC4A, 0xC4D); (0xC55, 0xC56); (0xC62, 0xC63);
   (0xC81, 0xC81); (0xCBC, 0xCBC); (0xCBF, 0xCBF); (0xCC6, 0xCC6);
   (0xCCC, 0xCCD); (0xCE2, 0xCE3); (0xD00, 0xD01); (0xD3B, 0xD3C);
   (0xD41, 0xD44); (0xD4D, 0xD4D); (0xD62, 0xD63); (0xD81, 0xD81);
   (0xDCA, 0xDCA); (0xDD2, 0xDD4); (0xDD6, 0xDD6); (0xE31, 0xE31);
   (0xE34, 0xE3A); (0xE46, 0xE4E); (0xEB1, 0xEB1); (0xEB4, 0xEBC);
   (0xEC6, 0xEC6); (0xEC8, 0xECD); (0xF18, 0xF19); (0xF35, 0xF35);
   (0xF37, 0xF37); (0xF39, 0xF39); (0xF71, 0xF7E); (0xF80, 0xF84);
   (0xF86, 0xF87); (0xF8D, 0xF97); (0xF99, 0xFBC); (0xFC6, 0xFC6);
   (0x102D, 0x1030); (0x1032, 0x1037); (0x1039, 0x103A); (0x103D, 0x103E);
   (0x1058, 0x1059); (0x105E, 0x1060); (0x1071, 0x1074); (0x1082, 0x1082);
   (0x1085, 0x1086); (0x108D, 0x108D); (0x109D, 0x109D); (0x10FC, 0x10FC);
   (0x135D, 0x135F); (0x1712, 0x1714); (0x1732, 0x1733); (0x1752, 0x1753);
   (0x1772, 0x1773); (0x17B4, 0x17B5); (0x17B7, 0x17BD); (0x17C6, 0x17C6);
   (0x17C9, 0x17D3); (0x17D7, 0x17D7); (0x17DD, 0x17DD); (0x180B, 0x180F);
   (0x1843, 0x1843); (0x1885, 0x1886); (0x18A9, 0x18A9); (0x1920, 0x1922);
   (0x1927, 0x1928); (0x1932, 0x1932); (0x1939, 0x193B); (0x1A17, 0x1A18);
   (0x1A1B, 0x1A1B); (0x1A56, 0x1A56); (0x1A58, 0x1A5E); (0x1A60, 0x1A60);
   (0x1A62, 0x1A62); (0x1A65, 0x1A6C); (0x1A73, 0x1A7C); (0x1A7F, 0x1A7F);
   (0x1AA7, 0x1AA7); (0x1AB0, 0x1ACE); (0x1B00, 0x1B03); (0x1B34, 0x1B34);
   (0x1B36, 0x1B3A); (0x1B3C, 0x1B3C); (0x1B42, 0x1B42); (0x1B6B, 0x1B73);
   (0x1B80, 0x1B81); (0x1BA2, 0x1BA5); (0x1BA8, 0x1BA9); (0x1BAB, 0x1BAD);
   (0x1BE6, 0x1BE6); (0x1BE8, 0x1BE9); (0x1BED, 0x1BED); (0x1BEF, 0x1BF1);
   (0x1C2C, 0x1C33); (0x1C36, 0x1C37); (0x1C78, 0x1C7D); (0x1CD0, 0x1CD2);
   (0x1CD4, 0x1CE0); (0x1CE2, 0x1CE8); (0x1CED, 0x1CED); (0x1CF4, 0x1CF4);
   (0x1CF8, 0x1CF9); (0x1D2C, 0x1D6A); (0x1D78, 0x1D78); (0x1D9B, 0x1DFF);
   (0x1FBD, 0x1FBD); (0x1FBF, 0x1FC1); (0x1FCD, 0x1FCF); (0x1FDD, 0x1FDF);
   (0x1FED, 0x1FEF); (0x1FFD, 0x1FFE); (0x200B, 0x200F); (0x2018, 0x2019);
   (0x2024, 0x2024); (0x2027, 0x2027); (0x202A, 0x202E); (0x2060, 0x2064);
   (0x2066, 0x206F); (0x2071, 0x2071); (0x207F, 0x207F); (0x2090, 0x209C);
   (0x20D0, 0x20F0); (0x2C7C, 0x2C7D); (0x2CEF, 0x2CF1); (0x2D6F, 0x2D6F);
   (0x2D7F, 0x2D7F); (0x2DE0, 0x2DFF); (0x2E2F, 0x2E2F); (0x3005, 0x3005);
   (0x302A, 0x302D); (0x3031, 0x3035); (0x303B, 0x303B); (0x3099, 0x309E);
   (0x30FC, 0x30FE); (0xA015, 0xA015); (0xA4F8, 0xA4FD); (0xA60C, 0xA60C);
   (0xA66F, 0xA672); (0xA674, 0xA67D); (0xA67F, 0xA67F); (0xA69C, 0xA69F);
   (0xA6F0, 0xA6F1); (0xA700, 0xA721); (0xA770, 0xA770); (0xA788, 0xA78A);
   (0xA7F2, 0xA7F4); (0xA7F8, 0xA7F9); (0xA802, 0xA802); (0xA806, 0xA806);
   (0xA80B, 0xA80B); (0xA825, 0xA826); (0xA82C, 0xA82C); (0xA8C4, 0xA8C5);
   (0xA8E0, 0xA8F1); (0xA8FF, 0xA8FF); (0xA926, 0xA92D); (0xA947, 0xA951);
   (0xA980, 0xA982); (0xA9B3, 0xA9B3); (0xA9B6, 0xA9B9); (0xA9BC, 0xA9BD);
   (0xA9CF, 0xA9CF); (0xA9E5, 0xA9E6); (0xAA29, 0xAA2E); (0xAA31, 0xAA32);
   (0xAA35, 0xAA36); (0xAA43, 0xAA43); (0xAA4C, 0xAA4C); (0xAA70, 0xAA70);
   (0xAA7C, 0xAA7C); (0xAAB0, 0xAAB0); (0xAAB2, 0xAAB4); (0xAAB7, 0xAAB8);
   (0xAABE, 0xAABF); (0xAAC1, 0xAAC1); (0xAADD, 0xAADD); (0xAAEC, 0xAAED);
   (0xAAF3, 0xAAF4); (0xAAF6, 0xAAF6); (0xAB5B, 0xAB5F); (0xAB69, 0xAB6B);
   (0xABE5, 0xABE5); (0xABE8, 0xABE8); (0xABED, 0xABED); (0xFB1E, 0xFB1E);
   (0xFBB2, 0xFBC2); (0xFE00, 0xFE0F); (0xFE13, 0xFE13); (0xFE20, 0xFE2F);
   (0xFE52, 0xFE52); (0xFE55, 0xFE55); (0xFEFF, 0xFEFF); (0xFF07, 0xFF07);
   (0xFF0E, 0xFF0E); (0xFF1A, 0xFF1A); (0xFF3E, 0xFF3E); (0xFF40, 0xFF40);
   (0xFF70, 0xFF70); (0xFF9E, 0xFF9F); (0xFFE3, 0xFFE3); (0xFFF9, 0xFFFB);
   (0x101FD, 0x101FD); (0x102E0, 0x102E0); (0x10376, 0x1037A); (0x10780, 0x10785);
   (0x10787, 0x107B0); (0x107B2, 0x107BA); (0x10A01, 0x10A03); (0x10A05, 0x10A06);
   (0x10A0C, 0x10A0F); (0x10A38, 0x10A3A); (0x10A3F, 0x10A3F); (0x10AE5, 0x10AE6);
   (0x10D24, 0x10D27); (0x10EAB, 0x10EAC); (0x10F46, 0x10F50); (0x10F82, 0x10F85);
   (0x11001, 0x11001); (0x11038, 0x11046); (0x11070, 0x11070); (0x11073, 0x11074);
   (0x1107F, 0x11081); (0x110B3, 0x110B6); (0x110B9, 0x110BA); (0x110BD, 0x110BD);
   (0x110C2, 0x110C2); (0x110CD, 0x110CD); (0x11100, 0x11102); (0x11127, 0x1112B);
   (0x1112D, 0x11134); (0x11173, 0x11173); (0x11180, 0x11181); (0x111B6, 0x111BE);
   (0x111C9, 0x111CC); (0x111CF, 0x111CF); (0x1122F, 0x11231); (0x11234, 0x11234);
   (0x11236, 0x11237); (0x1123E, 0x1123E); (0x112DF, 0x112DF); (0x112E3, 0x112EA);
   (0x11300, 0x11301); (0x1133B, 0x1133C); (0x11340, 0x11340); (0x11366, 0x1136C);
   (0x11370, 0x11374); (0x11438, 0x1143F); (0x11442, 0x11444); (0x11446, 0x11446);
   (0x1145E, 0x1145E); (0x114B3, 0x114B8); (0x114BA, 0x114BA); (0x114BF, 0x114C0);
   (0x114C2, 0x114C3); (0x115B2, 0x115B5); (0x115BC, 0x115BD); (0x115BF, 0x115C0);
   (0x115DC, 0x115DD); (0x11633, 0x1163A); (0x1163D, 0x1163D); (0x1163F, 0x11640);
   (0x116AB, 0x116AB); (0x116AD, 0x116AD); (0x116B0, 0x116B5); (0x116B7, 0x116B7);
   (0x1171D, 0x1171F); (0x11722, 0x11725); (0x11727, 0x1172B); (0x1182F, 0x11837);
   (0x11839, 0x1183A); (0x1193B, 0x1193C); (0x1193E, 0x1193E); (0x11943, 0x11943);
   (0x119D4, 0x119D7); (0x119DA, 0x119DB); (0x119E0, 0x119E0); (0x11A01, 0x11A0A);
   (0x11A33, 0x11A38); (0x11A3B, 0x11A3E); (0x11A47, 0x11A47); (0x11A51, 0x11A56);
   (0x11A59, 0x11A5B); (0x11A8A, 0x11A96); (0x11A98, 0x11A99); (0x11C30, 0x11C36);
   (0x11C38, 0x11C3D); (0x11C3F, 0x11C3F); (0x11C92, 0x11CA7); (0x11CAA, 0x11CB0);
   (0x11CB2, 0x11CB3); (0x11CB5, 0x11CB6); (0x11D31, 0x11D36); (0x11D3A, 0x11D3A);
   (0x11D3C, 0x11D3D); (0x11D3F, 0x11D45); (0x11D47, 0x11D47); (0x11D90, 0x11D91);
   (0x11D95, 0x11D95); (0x11D97, 0x11D97); (0x11EF3, 0x11EF4); (0x13430, 0x13438);
   (0x16AF0, 0x16AF4); (0x16B30, 0x16B36); (0x16B40, 0x16B43); (0x16F4F, 0x16F4F);
   (0x16F8F, 0x16F9F); (0x16FE0, 0x16FE1); (0x16FE3, 0x16FE4); (0x1AFF0, 0x1AFF3);
   (0x1AFF5, 0x1AFFB); (0x1AFFD, 0x1AFFE); (0x1BC9D, 0x1BC9E); (0x1BCA0, 0x1BCA3);
   (0x1CF00, 0x1CF2D); (0x1CF30, 0x1CF46); (0x1D167, 0x1D169); (0x1D173, 0x1D182);
   (0x1D185, 0x1D18B); (0x1D1AA, 0x1D1AD); (0x1D242, 0x1D244); (0x1DA00, 0x1DA36);
   (0x1DA3B, 0x1DA6C); (0x1DA75, 0x1DA75); (0x1DA84, 0x1DA84); (0x1DA9B, 0x1DA9F);
   (0x1DAA1, 0x1DAAF); (0x1E000, 0x1E006); (0x1E008, 0x1E018); (0x1E01B, 0x1E021);
   (0x1E023, 0x1E024); (0x1E026, 0x1E02A); (0x1E130, 0x1E13D); (0x1E2AE, 0x1E2AE);
   (0x1E2EC, 0x1E2EF); (0x1E8D0, 0x1E8D6); (0x1E944, 0x1E94B); (0x1F3FB, 0x1F3FF);
   (0xE0001, 0xE0001); (0xE0020, 0xE007F); (0xE0100, 0xE01EF)
  ]%N.

Definition within (c : N) (run : N * N) : bool :=
  ((fst run <=? c) && (c <=? snd run))%N.

(** The property [Cased]. *)
Definition cased (c : N) : bool := existsb (within c) casedRuns.

(** The property [Case_Ignorable]. *)
Definition caseIgnorable (c : N) : bool := existsb (within c) caseIgnorableRuns.

Definition lowerIn (c : N) (run : CaseRun) : option N :=
  match run with
  | Shift first last target =>
      if ((first <=? c) && (c <=? last))%N then Some (target + (c - first))%N
      else None
  | Pairs first last =>
      if ((first <=? c) && (c <=? last) && N.even (c - first))%N
      then Some (c + 1)%N
      else None
  end.

Fixpoint lowerAmong (runs : list CaseRun) (c : N) : N :=
  match runs with
  | [] => c
  | run :: runs' =>
      match lowerIn c run with
      | Some l => l
      | None => lowerAmong runs' c
      end
  end.

(** The simple lower-case mapping of a code point; a code point without
    one is mapped to itself. *)
Definition simpleLower (c : N) : N := lowerAmong lowerRuns c.

End Unicode.

(* ================================================================== *)
(** ** JavaScript strings and the built-ins the sources call *)
(* ================================================================== *)

Module JS.

Definition jsstring : Type := list N.

(** A string literal of the source, as code units. *)
Definition js (s : string) : jsstring :=
  map N_of_ascii (list_ascii_of_string s).

(** [s.length] *)
Definition length (s : jsstring) : Z := Z.of_nat (List.length s).

(** [s.substring(0, n)] for a non-negative integer [n]. *)
Definition substring0 (s : jsstring) (n : Z) : jsstring :=
  firstn (Z.to_nat n) s.

(** [s.startsWith(p)] *)
Fixpoint startsWith (s p : jsstring) {struct p} : bool :=
  match p, s with
  | [], _ => true
  | _ :: _, [] => false
  | a :: p', b :: s' => N.eqb a b && startsWith s' p'
  end.

(** [s.includes(p)] *)
Fixpoint includes (s p : jsstring) {struct s} : bool :=
  startsWith s p ||
  match s with
  | [] => false
  | _ :: s' => includes s' p
  end.

(** The first occurrence of [sep] in [s]: the text before it and the text
    after it ([s.indexOf(sep)] and the two slices around the match). *)
Fixpoint breakOn (s sep : jsstring) {struct s} : option (jsstring * jsstring) :=
  if startsWith s sep then Some ([], skipn (List.length sep) s)
  else match s with
       | [] => None
       | c :: s' =>
           match breakOn s' sep with
           | Some (before, after) => Some (c :: before, after)
           | None => None
           end
       end.

(** [s.split(sep)] with a string separator: the pieces between the
    successive, non-overlapping occurrences of [sep], found left to right.
    The recursion is on the text after each match, which is strictly
    shorter when [sep] is not empty; [fuel] counts that down. *)
Fixpoint splitFrom (fuel : nat) (s sep : jsstring) : list jsstring :=
  match fuel, breakOn s sep with
  | S fuel', Some (before, after) => before :: splitFrom fuel' after sep
  | _, _ => [s]
  end.

Definition split (s sep : jsstring) : list jsstring :=
  match sep with
  | [] => map (fun c => [c]) s
  | _ :: _ => splitFrom (List.length s) s sep
  end.

(** [s.replace(pat, repl)] with a string pattern: only the first
    occurrence is replaced.  ([repl] is a text without [$] patterns; the
    sources only pass the empty string.) *)
Definition replace (s pat repl : jsstring) : jsstring :=
  match breakOn s pat with
  | Some (before, after) => before ++ repl ++ after
  | None => s
  end.

(** White space and line terminators of ECMAScript, the code units that
    [trim] strips. *)
Definition isWhiteSpace (c : N) : bool :=
  ((9 <=? c) && (c <=? 13) || (c =? 32) || (c =? 160) || (c =? 5760)
   || (8192 <=? c) && (c <=? 8202) || (c =? 8232) || (c =? 8233)
   || (c =? 8239) || (c =? 8287) || (c =? 12288) || (c =? 65279))%N.

Fixpoint trimStart (s : jsstring) : jsstring :=
  match s with
  | c :: s' => if isWhiteSpace c then trimStart s' else s
  | [] => []
  end.

Definition trimEnd (s : jsstring) : jsstring := rev (trimStart (rev s)).

(** [s.trim()] *)
Definition trim (s : jsstring) : jsstring := trimEnd (trimStart s).

(** [s.toLowerCase()]: the string is read as code points (a lead
    surrogate followed by a trail surrogate is one code point, any other
    code unit stands for itself), each code point is replaced by its
    lower-case mapping, and the result is written back as code units.

    The mapping of a code point is its simple mapping, with the two
    exceptions that [SpecialCasing.txt] makes independently of the
    locale: [U+0130] becomes [U+0069 U+0307], and capital sigma [U+03A3]
    becomes final sigma [U+03C2] instead of [U+03C3] where it ends a
    word.  Sigma ends a word when, passing over case-ignorable
    characters, a cased letter comes before it and none comes after it. *)
Definition isLeadSurrogate (c : N) : bool := ((0xD800 <=? c) && (c <=? 0xDBFF))%N.
Definition isTrailSurrogate (c : N) : bool := ((0xDC00 <=? c) && (c <=? 0xDFFF))%N.

Fixpoint codePoints (s : jsstring) : list N :=
  match s with
  | [] => []
  | first :: rest =>
      match rest with
      | second :: rest' =>
          if isLeadSurrogate first && isTrailSurrogate second
          then (0x10000 + (first - 0xD800) * 0x400 + (second - 0xDC00))%N
               :: codePoints rest'
          else first :: codePoints rest
      | [] => [first]
      end
  end.

Definition codeUnits (cp : N) : jsstring :=
  if (cp <? 0x10000)%N then [cp]
  else [0xD800 + (cp - 0x10000) / 0x400; 0xDC00 + (cp - 0x10000) mod 0x400]%N.

(** Whether the first character of [l] that is not case-ignorable is a
    cased letter. *)
Fixpoint meetsCased (l : list N) : bool :=
  match l with
  | [] => false
  | c :: l' => if Unicode.caseIgnorable c then meetsCased l' else Unicode.cased c
  end.

(** [before] holds the code points in front of the sigma, the nearest
    first; [after] those behind it. *)
Definition finalSigma (before after : list N) : bool :=
  meetsCased before && negb (meetsCased after).

Definition lowerMapping (before : list N) (c : N) (after : list N) : list N :=
  if (c =? 0x3A3)%N then [if finalSigma before after then 0x3C2 else 0x3C3]%N
  else if (c =? 0x130)%N then [0x69; 0x307]%N
  else [Unicode.simpleLower c].

Fixpoint lowerFrom (before cps : list N) : list N :=
  match cps with
  | [] => []
  | c :: after => lowerMapping before c after ++ lowerFrom (c :: before) after
  end.

Definition toLowerCase (s : jsstring) : jsstring :=
  flat_map codeUnits (lowerFrom [] (codePoints s)).

(** Equality of strings, [a === b]. *)
Fixpoint eqb (a b : jsstring) : bool :=
  match a, b with
  | [], [] => true
  | x :: a', y :: b' => N.eqb x y && eqb a' b'
  | _, _ => false
  end.

(** [v || d] where [v] is a string or [undefined]: the empty string and
    [undefined] are falsy. *)
Definition orElse (v : option jsstring) (d : jsstring) : jsstring :=
  match v with
  | Some (c :: t) => c :: t
  | _ => d
  end.

(** [String(n)] for a non-negative integer [n]: its decimal digits. *)
Definition digitsOfPos (p : positive) : jsstring :=
  js (NilEmpty.string_of_uint (Pos.to_uint p)).

Definition ofNumber (n : Z) : jsstring :=
  match n with
  | Zpos p => digitsOfPos p
  | Z0 => js "0"
  | Zneg p => js "-" ++ digitsOfPos p
  end.

(** A non-negative integer as a JavaScript number (exact below 2^53). *)
Definition toFloat (n : Z) : float := PrimFloat.of_uint63 (Uint63.of_Z n).

End JS.

Import JS.

(* ================================================================== *)
(** ** Node's [path] module (POSIX flavour) *)
(* ================================================================== *)

Module Path.

Definition slash : N := 47.
Definition dot : N := 46.

(** Trailing slashes are not part of the last portion of a path. *)
Fixpoint dropSlashes (s : jsstring) : jsstring :=
  match s with
  | c :: s' => if N.eqb c slash then dropSlashes s' else s
  | [] => []
  end.

(** The code units of [s] up to its first slash. *)
Fixpoint upToSlash (s : jsstring) : jsstring :=
  match s with
  | c :: s' => if N.eqb c slash then [] else c :: upToSlash s'
  | [] => []
  end.

(** [path.basename(p)]: the last portion of [p], trailing slashes ignored. *)
Definition basename (p : jsstring) : jsstring :=
  rev (upToSlash (dropSlashes (rev p))).

(** The text from the last dot of [s] on, given [s] read right to left:
    [None] when [s] has no dot. *)
Fixpoint fromLastDot (reversed acc : jsstring) : option (jsstring * jsstring) :=
  match reversed with
  | c :: r => if N.eqb c dot then Some (rev r, c :: acc)
              else fromLastDot r (c :: acc)
  | [] => None
  end.

(** [path.extname(p)]: from the last dot of the last portion of [p] to its
    end; empty when there is no dot, when the only dot is the first
    character of the portion, and for the portion [..]. *)
Definition extname (p : jsstring) : jsstring :=
  let part := basename p in
  match fromLastDot (rev part) [] with
  | None => []
  | Some (stem, ext) =>
      match stem with
      | [] => []
      | _ :: _ => if JS.eqb part [dot; dot] then [] else ext
      end
  end.

End Path.

(* ================================================================== *)
(** ** agents/base-agent.ts: the records that flow through the pipeline *)
(* ================================================================== *)

Record FileInfo : Type := mkFileInfo {
  path : jsstring;
  content : jsstring;
  language : jsstring;
  size : Z
}.

Record Metadata : Type := mkMetadata {
  filesAnalyzed : Z;
  codeLanguages : list jsstring;
  frameworks : list jsstring;
  architecture : jsstring
}.

Record AnalysisResult : Type := mkAnalysisResult {
  technicalSpec : jsstring;
  functionalSpec : jsstring;
  metadata : Metadata
}.

(** A thrown [Error]: its message. *)
Record Error : Type := mkError { message : jsstring }.

(** [Array.prototype.some] *)
Definition some {A : Type} (f : A -> bool) (l : list A) : bool := existsb f l.

(** [Array.prototype.sort] with a comparator.  ECMAScript (2019 on) makes
    the sort stable, so with a consistent comparator the outcome is fixed:
    [a] is placed after [b] exactly when [b] has to come first
    ([cmp a b > 0]), and elements that compare equal keep their order.
    Insertion from the right end realises that. *)
Section Sort.
Context {A : Type} (cmp : A -> A -> Z).

Fixpoint sortInsert (a : A) (l : list A) : list A :=
  match l with
  | [] => [a]
  | b :: l' => if (0 <? cmp a b)%Z then b :: sortInsert a l' else a :: b :: l'
  end.

Fixpoint sort (l : list A) : list A :=
  match l with
  | [] => []
  | a :: l' => sortInsert a (sort l')
  end.

End Sort.

(** The outcome of an awaited call: a value, or a thrown error. *)
Inductive Outcome (A : Type) : Type :=
| Ok (a : A)
| Throw (e : Error).
Arguments Ok {A} a.
Arguments Throw {A} e.

(* ================================================================== *)
(** ** repository-analyzer.ts *)
(* ================================================================== *)

Module RepositoryAnalyzer.

Definition supportedExtensions : list jsstring :=
  map js
    [".js"; ".ts"; ".jsx"; ".tsx"; ".py"; ".java"; ".cs"; ".cpp"; ".c"; ".h";
     ".php"; ".rb"; ".go"; ".rs"; ".swift"; ".kt"; ".scala"; ".clj"; ".hs";
     ".md"; ".txt"; ".json"; ".yml"; ".yaml"; ".xml"; ".html"; ".css"; ".scss";
     ".sql"; ".sh"; ".bat"; ".ps1"; ".dockerfile"; ".tf"]%string.

(** [set.has(x)] and [array.includes(x)] *)
Definition has (l : list jsstring) (x : jsstring) : bool := existsb (JS.eqb x) l.

Definition skipPatterns : list jsstring :=
  map js
    ["node_modules"; ".git"; ".vscode"; ".idea"; "dist"; "build"; "target";
     "bin"; "obj"; "__pycache__"; ".pytest_cache"; "coverage"; ".nyc_output";
     "logs"; "tmp"; "temp"; ".DS_Store"; "Thumbs.db"]%string.

Definition shouldSkipPath (relativePath : jsstring) : bool :=
  some (fun pattern =>
          includes relativePath pattern || startsWith relativePath (js "."))
       skipPatterns.

Definition importantFiles : list jsstring :=
  map js
    ["readme"; "license"; "changelog"; "contributing"; "dockerfile";
     "makefile"; "rakefile"; "gemfile"; "package.json"; "composer.json";
     "requirements.txt"; "setup.py"; "pom.xml"; "build.gradle"]%string.

Definition maxFileSize : Z := 1024 * 1024.

Definition shouldIncludeFile (filename : jsstring) (size : Z) : bool :=
  let ext := toLowerCase (Path.extname filename) in
  if (size >? maxFileSize)%Z then false
  else if has supportedExtensions ext then true
  else some (fun important => includes (toLowerCase filename) important)
            importantFiles.

Definition shouldIncludeGithubFile (filePath : jsstring) (size : Z) : bool :=
  if (size >? maxFileSize)%Z then false
  else if shouldSkipPath filePath then false
  else
    let filename := Path.basename filePath in
    let ext := toLowerCase (Path.extname filename) in
    if has supportedExtensions ext then true
    else some (fun important => includes (toLowerCase filename) important)
              importantFiles.

(** The character class [[\x00-\x08\x0E-\x1F\x7F]]. *)
Definition isControlUnit (c : N) : bool :=
  ((c <=? 8) || (14 <=? c) && (c <=? 31) || (c =? 127))%N.

(** [content.match(/.../g)] is [null] when nothing matches, and the array
    of matches otherwise. *)
Definition isBinaryContent (content : jsstring) : bool :=
  match filter isControlUnit content with
  | [] => false
  | nonPrintableChars =>
      PrimFloat.ltb (toFloat (JS.length content) * 0.1)%float
                    (toFloat (JS.length nonPrintableChars))
  end.

Definition truncateAt : Z := 50000.
Definition truncationMarker : jsstring := [10%N] ++ js "... [truncated]".

(** The longest content either path can return. *)
Definition contentBound : Z := truncateAt + JS.length truncationMarker.

(** [readFileContent]: [read] is what [fs.readFile(filePath, 'utf-8')]
    gives for the file, the decoded text or an error. *)
Definition readFileContent (read : Outcome jsstring) : option jsstring :=
  match read with
  | Throw _ => None
  | Ok content =>
      if (JS.length content >? truncateAt)%Z
      then Some (substring0 content truncateAt ++ truncationMarker)
      else if isBinaryContent content then None
      else Some content
  end.

Definition languageMap : list (jsstring * jsstring) :=
  map (fun kv => (js (fst kv), js (snd kv)))
    [(".js", "javascript"); (".jsx", "javascript"); (".ts", "typescript");
     (".tsx", "typescript"); (".py", "python"); (".java", "java");
     (".cs", "csharp"); (".cpp", "cpp"); (".c", "c"); (".h", "c");
     (".php", "php"); (".rb", "ruby"); (".go", "go"); (".rs", "rust");
     (".swift", "swift"); (".kt", "kotlin"); (".scala", "scala");
     (".clj", "clojure"); (".hs", "haskell"); (".md", "markdown");
     (".html", "html"); (".css", "css"); (".scss", "scss"); (".sql", "sql");
     (".json", "json"); (".yml", "yaml"); (".yaml", "yaml"); (".xml", "xml");
     (".sh", "shell"); (".bat", "batch"); (".ps1", "powershell")]%string.

Fixpoint lookup (m : list (jsstring * jsstring)) (k : jsstring) : option jsstring :=
  match m with
  | [] => None
  | (k', v) :: m' => if JS.eqb k k' then Some v else lookup m' k
  end.

Definition detectLanguage (filename : jsstring) : jsstring :=
  let ext := toLowerCase (Path.extname filename) in
  orElse (lookup languageMap ext) (js "unknown").

Definition codeExts : list jsstring :=
  map js [".js"; ".ts"; ".py"; ".java"; ".cs"; ".cpp"; ".go"; ".rs"]%string.

Definition getFileImportanceScore (filePath : jsstring) : Z :=
  let filename := toLowerCase (Path.basename filePath) in
  if includes filename (js "readme") then 100
  else if includes filename (js "package.json") then 95
  else if includes filename (js "dockerfile") then 90
  else if includes filename (js "main.") || includes filename (js "index.") then 85
  else if includes filename (js "app.") || includes filename (js "server.") then 80
  else if JS.eqb (Path.extname filename) (js ".md") then 70
  else if includes filename (js "config") then 65
  else if includes filename (js "setup") || includes filename (js "install") then 60
  else if has codeExts (Path.extname filename) then 50
  else 30.

(** The comparator both ingestion paths sort with. *)
Definition byImportance (a b : FileInfo) : Z :=
  let aScore := getFileImportanceScore (path a) in
  let bScore := getFileImportanceScore (path b) in
  bScore - aScore.

(** *** Local ingestion *)

(** What the file system shows at a path: [fs.stat] fails, or reports a
    regular file (with its size, and what reading it gives), a directory
    (with what [fs.readdir] gives: its entries by name, or an error), or
    something that is neither. *)
Inductive FsNode : Type :=
| FsFile (size : Z) (data : Outcome jsstring)
| FsDir (listing : Outcome (list (jsstring * FsNode)))
| FsOther
| FsNoStat (e : Error).

(** [path.relative(basePath, path.join(currentPath, item))], where [rel]
    is [currentPath] relative to [basePath] (empty at the root). *)
Definition relativeTo (rel item : jsstring) : jsstring :=
  match rel with
  | [] => item
  | _ :: _ => rel ++ [Path.slash] ++ item
  end.

(** [walkDirectory]: [node] is what lies at [currentPath]; [files] is the
    array the walk pushes to, passed in and returned.  An error thrown by
    [fs.readdir] or [fs.stat] leaves the [for] loop through the enclosing
    [catch], with the records pushed so far. *)
Fixpoint walkDirectory (depth : nat) (rel : jsstring) (node : FsNode)
    (files : list FileInfo) {struct node} : list FileInfo :=
  if (10 <? depth)%nat then files
  else
    match node with
    | FsDir (Ok items) =>
        (fix loop (items : list (jsstring * FsNode)) (files : list FileInfo)
           {struct items} : list FileInfo :=
           match items with
           | [] => files
           | (item, child) :: rest =>
               let relativePath := relativeTo rel item in
               if shouldSkipPath relativePath then loop rest files
               else
                 match child with
                 | FsNoStat _ => files
                 | FsDir _ =>
                     loop rest (walkDirectory (S depth) relativePath child files)
                 | FsFile size data =>
                     if shouldIncludeFile item size then
                       match readFileContent data with
                       | Some content =>
                           loop rest
                             (files ++ [mkFileInfo relativePath content
                                          (detectLanguage item) size])
                       | None => loop rest files
                       end
                     else loop rest files
                 | FsOther => loop rest files
                 end
           end) items files
    | _ => files
    end.

Definition analyzeLocalFolder (root : FsNode) : list FileInfo :=
  let files := walkDirectory 0 [] root [] in
  sort byImportance files.

(** *** Remote ingestion *)

(** One entry of the recursive tree listing; [size] is absent for entries
    that are not blobs. *)
Record TreeItem : Type := mkTreeItem {
  item_path : jsstring;
  item_type : jsstring;
  item_sha : jsstring;
  item_size : option Z
}.

(** The response to the tree request: status line, and what
    [(await response.json()).tree] gives (an error when the body is not
    JSON or carries no array). *)
Record TreeResponse : Type := mkTreeResponse {
  tree_status : Z;
  tree_statusText : jsstring;
  tree : Outcome (list TreeItem)
}.

(** The body of a blob response: [data.encoding], and for [text] the value
    of [Buffer.from(data.content, 'base64').toString('utf-8')]. *)
Record BlobData : Type := mkBlobData {
  encoding : jsstring;
  text : jsstring
}.

Record BlobResponse : Type := mkBlobResponse {
  blob_status : Z;
  blob_data : Outcome BlobData
}.

Definition Headers : Type := list (jsstring * jsstring).

(** [fetch(url, { headers })] as the two requests the analyzer makes; a
    rejected promise is a [Throw]. *)
Record Network : Type := mkNetwork {
  fetchTree : jsstring -> Headers -> Outcome TreeResponse;
  fetchBlob : jsstring -> Headers -> Outcome BlobResponse
}.

(** [response.ok]: the status is in the range 200..299. *)
Definition ok (status : Z) : bool := ((200 <=? status) && (status <=? 299))%Z.

(** [n || d] for a number or [undefined]: zero and [undefined] are falsy. *)
Definition numOr (n : option Z) (d : Z) : Z :=
  match n with
  | Some 0%Z | None => d
  | Some v => v
  end.

Definition requestHeaders (pat : option jsstring) : Headers :=
  [(js "Accept", js "application/vnd.github.v3+json");
   (js "User-Agent", js "TechDocs-Generator")]
  ++ match pat with
     | Some (c :: t) => [(js "Authorization", js "token " ++ c :: t)]
     | _ => []
     end.

(** The two URL templates. *)
Definition contentUrl (owner repo sha : jsstring) : jsstring :=
  js "https://api.github.com/repos/" ++ owner ++ js "/" ++ repo
  ++ js "/git/blobs/" ++ sha.

Definition treeUrl (owner repo : jsstring) : jsstring :=
  js "https://api.github.com/repos/" ++ owner ++ js "/" ++ repo
  ++ js "/git/trees/HEAD?recursive=1".

Definition fetchGithubFileContent (net : Network)
    (owner repo sha : jsstring) (pat : option jsstring) : option jsstring :=
  match fetchBlob net (contentUrl owner repo sha) (requestHeaders pat) with
  | Throw _ => None
  | Ok response =>
      if negb (ok (blob_status response)) then None
      else
        match blob_data response with
        | Throw _ => None
        | Ok data =>
            if JS.eqb (encoding data) (js "base64") then
              let content := text data in
              if isBinaryContent content then None
              else if (JS.length content >? truncateAt)%Z
              then Some (substring0 content truncateAt ++ truncationMarker)
              else Some content
            else None
        end
  end.

(** The non-null results of the per-file requests, in the order of the
    listing ([Promise.all] keeps the order of its input). *)
Fixpoint nonNull {A : Type} (results : list (option A)) : list A :=
  match results with
  | [] => []
  | Some a :: r => a :: nonNull r
  | None :: r => nonNull r
  end.

Definition fetchGithubRepoContents (net : Network)
    (owner repo : jsstring) (pat : option jsstring) : Outcome (list FileInfo) :=
  match fetchTree net (treeUrl owner repo) (requestHeaders pat) with
  | Throw error => Throw error
  | Ok treeResponse =>
      if negb (ok (tree_status treeResponse)) then
        Throw (mkError (js "GitHub API error: "
                        ++ ofNumber (tree_status treeResponse)
                        ++ js " " ++ tree_statusText treeResponse))
      else
        match tree treeResponse with
        | Throw error => Throw error
        | Ok items =>
            let selected :=
              firstn 100
                (filter (fun item =>
                           JS.eqb (item_type item) (js "blob")
                           && shouldIncludeGithubFile (item_path item)
                                (numOr (item_size item) 0))
                        items) in
            let results :=
              map (fun item =>
                     match fetchGithubFileContent net owner repo
                             (item_sha item) pat with
                     | Some content =>
                         Some (mkFileInfo (item_path item) content
                                 (detectLanguage (item_path item))
                                 (numOr (item_size item) (JS.length content)))
                     | None => None
                     end)
                  selected in
            Ok (sort byImportance (nonNull results))
        end
  end.

(** The regular expression [/github\.com\/([^\/]+)\/([^\/]+)/]: the
    leftmost place where [github.com/] is followed by a non-empty run
    without slash, a slash, and another non-empty run without slash. *)
Fixpoint matchRepoUrl (s : jsstring) : option (jsstring * jsstring) :=
  let here :=
    if startsWith s (js "github.com/") then
      let rest := skipn 11 s in
      let owner := Path.upToSlash rest in
      match owner, skipn (List.length owner) rest with
      | _ :: _, _ :: afterSlash =>
          match Path.upToSlash afterSlash with
          | [] => None
          | repo => Some (owner, repo)
          end
      | _, _ => None
      end
    else None in
  match here, s with
  | Some m, _ => Some m
  | None, [] => None
  | None, _ :: s' => matchRepoUrl s'
  end.

Definition notFoundError : Error :=
  mkError (js "Repository not found or access denied. Please check the URL and ensure you have proper permissions.").

Definition authenticationError : Error :=
  mkError (js "Authentication failed. Please provide a valid GitHub Personal Access Token for private repositories.").

Definition analyzeGithubRepo (net : Network)
    (repoUrl : jsstring) (pat : option jsstring) : Outcome (list FileInfo) :=
  let attempt :=
    match matchRepoUrl repoUrl with
    | None => Throw (mkError (js "Invalid GitHub repository URL format"))
    | Some (owner, repo) =>
        let repoName := replace repo (js ".git") [] in
        fetchGithubRepoContents net owner repoName pat
    end in
  match attempt with
  | Ok files => Ok files
  | Throw error =>
      let errorMessage := message error in
      if includes errorMessage (js "404") then Throw notFoundError
      else if includes errorMessage (js "401") || includes errorMessage (js "403")
      then Throw authenticationError
      else Throw error
  end.

End RepositoryAnalyzer.

(* ================================================================== *)
(** ** Asynchronous computations that report progress *)
(* ================================================================== *)

(** A run reports progress by calling the callback its caller passed in.
    The calls that reach the caller's callback are kept, in order, as the
    state of the computation; a rejected promise is a [Throw]. *)
Module Async.

Definition ProgressEvent : Type := (jsstring * float)%type.
Definition Trace : Type := list ProgressEvent.

Definition M (A : Type) : Type := Trace -> Trace * Outcome A.

Definition ret {A : Type} (a : A) : M A := fun tr => (tr, Ok a).

Definition throw {A : Type} (e : Error) : M A := fun tr => (tr, Throw e).

Definition bind {A B : Type} (c : M A) (k : A -> M B) : M B :=
  fun tr =>
    match c tr with
    | (tr', Ok a) => k a tr'
    | (tr', Throw e) => (tr', Throw e)
    end.

(** [await] of a call whose outcome the environment decides. *)
Definition await {A : Type} (o : Outcome A) : M A := fun tr => (tr, o).

(** [try { c } catch (error) { h error }] *)
Definition tryCatch {A : Type} (c : M A) (h : Error -> M A) : M A :=
  fun tr =>
    match c tr with
    | (tr', Ok a) => (tr', Ok a)
    | (tr', Throw e) => h e tr'
    end.

(** A progress callback, [(stage, progress) => void]. *)
Definition Callback : Type := jsstring -> float -> M unit.

(** The callback of the outermost caller: it receives the event. *)
Definition observer : Callback := fun stage progress tr => (tr ++ [(stage, progress)], Ok tt).

(** [onProgress?.(stage, progress)] *)
Definition notify (onProgress : option Callback) (stage : jsstring) (progress : float) : M unit :=
  match onProgress with
  | Some f => f stage progress
  | None => ret tt
  end.

End Async.

Import Async.

Notation "x <- c ;; k" := (bind c (fun x => k))
  (at level 61, c at next level, right associativity).
Notation "c ;;; k" := (bind c (fun _ => k))
  (at level 61, right associativity).

(* ================================================================== *)
(** ** agents/email-agent-graph.ts *)
(* ================================================================== *)

Module EmailAgent.

Record EmailAttachment : Type := mkEmailAttachment {
  filename : jsstring;
  attachment_content : jsstring;
  contentType : jsstring
}.

Record EmailOptions : Type := mkEmailOptions {
  to : jsstring;
  subject : jsstring;
  htmlContent : jsstring;
  textContent : jsstring;
  attachments : list EmailAttachment
}.

Record EmailContent : Type := mkEmailContent {
  content_subject : jsstring;
  content_html : jsstring;
  content_text : jsstring
}.

(** What the agent relies on from outside: the text the language model
    returns for the e-mail prompt built from the context, the reading of
    that text as JSON with the fields [subject], [htmlContent] and
    [textContent], and the Graph client ([null] when it was not set up)
    posting the message built from the options. *)
Record Services : Type := mkServices {
  analyze : jsstring -> jsstring -> option Metadata -> Outcome jsstring;
  parseJson : jsstring -> Outcome EmailContent;
  graphClient : option (EmailOptions -> Outcome unit)
}.

Definition createFallbackEmailContent (projectName : jsstring) : EmailContent :=
  let subject := js "Technical Documentation - " ++ projectName in
  let html :=
    js "
      <h2>Technical Documentation Delivery</h2>
      <p>Dear Team,</p>
      
      <p>I hope this email finds you well. Please find attached the comprehensive technical documentation for <strong>"
    ++ projectName
    ++ js "</strong>.</p>
      
      <h3>Attached Documents:</h3>
      <ul>
        <li><strong>Technical Specification (MD)</strong> - Detailed technical architecture and implementation details</li>
        <li><strong>Functional Specification (HTML)</strong> - Business requirements and functional overview</li>
      </ul>
      
      <p>These documents provide a complete analysis of the codebase and include:</p>
      <ul>
        <li>System architecture overview</li>
        <li>Technology stack analysis</li>
        <li>Component structure</li>
        <li>Implementation recommendations</li>
      </ul>
      
      <p>Please review the documents and feel free to reach out if you have any questions or need clarification on any aspect of the documentation.</p>
      
      <p>Best regards,<br>TechDocs Generator</p>
    " in
  let text :=
    js "Technical Documentation Delivery

Dear Team,

Please find attached the comprehensive technical documentation for "
    ++ projectName
    ++ js ".

Attached Documents:
- Technical Specification (MD) - Detailed technical architecture and implementation details
- Functional Specification (HTML) - Business requirements and functional overview

These documents provide a complete analysis of the codebase and include system architecture overview, technology stack analysis, component structure, and implementation recommendations.

Please review the documents and feel free to reach out if you have any questions.

Best regards,
TechDocs Generator" in
  mkEmailContent subject html text.

Definition generateEmailContent (svc : Services)
    (projectName recipientEmail : jsstring) (metadata : option Metadata)
    : M EmailContent :=
  tryCatch
    (response <- await (analyze svc projectName recipientEmail metadata) ;;
     tryCatch (await (parseJson svc response))
              (fun parseError => ret (createFallbackEmailContent projectName)))
    (fun error => ret (createFallbackEmailContent projectName)).

(** [projectName.replace(/[^a-zA-Z0-9]/g, '_')] *)
Definition isAlphaNumeric (c : N) : bool :=
  ((97 <=? c) && (c <=? 122) || (65 <=? c) && (c <=? 90)
   || (48 <=? c) && (c <=? 57))%N.

Definition sanitize (s : jsstring) : jsstring :=
  map (fun c => if isAlphaNumeric c then c else 95%N) s.

Definition createAttachments (projectName technicalSpec functionalSpec : jsstring)
    : M (list EmailAttachment) :=
  ret [mkEmailAttachment (sanitize projectName ++ js "_technical_spec.md")
         technicalSpec (js "text/markdown");
       mkEmailAttachment (sanitize projectName ++ js "_functional_spec.html")
         functionalSpec (js "text/html")].

Definition sendEmailViaGraph (svc : Services) (options : EmailOptions) : M unit :=
  match graphClient svc with
  | None => throw (mkError (js "Graph client not initialized"))
  | Some post => await (post options)
  end.

Definition sendDocumentation (svc : Services)
    (recipientEmail projectName technicalSpec functionalSpec : jsstring)
    (metadata : option Metadata) : M bool :=
  tryCatch
    (emailContent <- generateEmailContent svc projectName recipientEmail metadata ;;
     attachments <- createAttachments projectName technicalSpec functionalSpec ;;
     let emailOptions :=
       mkEmailOptions recipientEmail (content_subject emailContent)
         (content_html emailContent) (content_text emailContent) attachments in
     sendEmailViaGraph svc emailOptions ;;;
     ret true)
    (fun error => ret false).

End EmailAgent.

(* ================================================================== *)
(** ** agents/coordinator-agent.ts *)
(* ================================================================== *)

Module CoordinatorAgent.

Record DocumentationOptions : Type := mkOptions {
  sendEmail : option bool;
  recipientEmail : option jsstring
}.

Record ProjectInfo : Type := mkProjectInfo {
  name : jsstring;
  description : option jsstring
}.

(** The text-generation capabilities the coordinator sequences.  Each
    specialised agent is taken at its [analyze] interface; the language
    model behind [aiClient.generateText] is a function of the two prompts. *)
Record Agents : Type := mkAgents {
  codeAnalyzer : list FileInfo -> Outcome jsstring;
  docAnalyzer : list FileInfo -> Outcome jsstring;
  generateText : jsstring -> jsstring -> Outcome jsstring;
  specGenerator : jsstring -> jsstring -> ProjectInfo -> Outcome jsstring;
  emailAgent : EmailAgent.Services
}.

Definition functionalSpecMarker : jsstring := js "<!-- FUNCTIONAL_SPEC_START -->".
Definition documentationLabel : jsstring := js "DOCUMENTATION ANALYSIS:".
Definition codeLabel : jsstring := js "CODE ANALYSIS:".

Record Reviewed : Type := mkReviewed {
  codeAnalysis : jsstring;
  docAnalysis : jsstring
}.

Definition reviewPrompt (codeAnalysis docAnalysis : jsstring) : jsstring :=
  js "As a senior technical lead, review and enhance the following analysis:

CODE ANALYSIS:
"
    ++ codeAnalysis
    ++ js "

DOCUMENTATION ANALYSIS:
"
    ++ docAnalysis
    ++ js "

Please:
1. Identify any gaps or inconsistencies
2. Synthesize the information from both analyses
3. Provide additional insights that might have been missed
4. Ensure the analysis is comprehensive and accurate

Return the enhanced analysis maintaining the same structure but with improved insights.".

Definition reviewSystemPrompt : jsstring :=
  js "You are a senior technical lead responsible for reviewing and enhancing technical analysis. 
    Your goal is to ensure comprehensive, accurate, and insightful analysis that bridges technical implementation with business requirements.".

(** The parsing step of [reviewAnalysis], on the text the model returned. *)
Definition parseReview (enhancedAnalysis codeAnalysis docAnalysis : jsstring) : Reviewed :=
  let parts := split enhancedAnalysis documentationLabel in
  mkReviewed
    (orElse (option_map (fun p => trim (replace p codeLabel [])) (nth_error parts 0))
            codeAnalysis)
    (orElse (option_map trim (nth_error parts 1)) docAnalysis).

Definition reviewAnalysis (agents : Agents) (codeAnalysis docAnalysis : jsstring)
    : M Reviewed :=
  enhancedAnalysis <-
    await (generateText agents reviewSystemPrompt
             (reviewPrompt codeAnalysis docAnalysis)) ;;
  ret (parseReview enhancedAnalysis codeAnalysis docAnalysis).

Definition generateFallbackFunctionalSpec : jsstring :=
  js "<!DOCTYPE html>
<html>
<head>
    <title>Functional Specification</title>
    <style>
        body { font-family: Arial, sans-serif; line-height: 1.6; margin: 20px; }
        h1 { color: #2c3e50; border-bottom: 2px solid #3498db; padding-bottom: 10px; }
        h2 { color: #34495e; margin-top: 30px; }
        .requirement { background: #ecf0f1; padding: 15px; border-left: 4px solid #3498db; margin: 10px 0; }
    </style>
</head>
<body>
    <h1>Functional Specification</h1>
    <h2>Overview</h2>
    <p>This document outlines the functional requirements and specifications for the analyzed system.</p>

    <div class=" ++ [34%N] ++ js "requirement" ++ [34%N] ++ js ">
        <h3>Core Functionality</h3>
        <p>The system provides core functionality based on the analyzed codebase.</p>
    </div>

    <h2>Requirements</h2>
    <p>Detailed functional requirements based on code analysis.</p>
</body>
</html>".

(** [[...new Set(l)]]: the distinct elements, by first occurrence. *)
Fixpoint distinct (seen l : list jsstring) : list jsstring :=
  match l with
  | [] => []
  | x :: r =>
      if existsb (JS.eqb x) seen then distinct seen r
      else x :: distinct (x :: seen) r
  end.

(** [pieces.join(' ')] *)
Fixpoint join (pieces : list jsstring) : jsstring :=
  match pieces with
  | [] => []
  | [p] => p
  | p :: rest => p ++ js " " ++ join rest
  end.

Definition frameworkTable : list (jsstring * jsstring) :=
  map (fun kv => (js (fst kv), js (snd kv)))
    [("react", "React"); ("angular", "Angular"); ("vue", "Vue.js");
     ("express", "Express.js"); ("django", "Django"); ("flask", "Flask");
     ("spring", "Spring"); (".net", ".NET"); ("fastapi", "FastAPI");
     ("next", "Next.js"); ("nuxt", "Nuxt.js")]%string.

Definition extractFrameworks (files : list FileInfo) : list jsstring :=
  let content := toLowerCase (join (map content files)) in
  let frameworks :=
    map snd (filter (fun kv => includes content (fst kv)) frameworkTable) in
  distinct [] frameworks.

Definition parseSpecifications (specifications : jsstring) (files : list FileInfo)
    : AnalysisResult :=
  let parts := split specifications functionalSpecMarker in
  let technicalSpec :=
    orElse (option_map trim (nth_error parts 0)) specifications in
  let functionalSpec :=
    orElse (option_map trim (nth_error parts 1)) generateFallbackFunctionalSpec in
  let languages :=
    distinct []
      (filter (fun l => negb (JS.eqb l (js "unknown"))) (map language files)) in
  let frameworks := extractFrameworks files in
  mkAnalysisResult technicalSpec functionalSpec
    (mkMetadata (Z.of_nat (List.length files)) languages frameworks
       (js "Multi-tier")).

(** [options.sendEmail && options.recipientEmail], as a condition. *)
Definition deliveryRequested (options : DocumentationOptions) : option jsstring :=
  match sendEmail options, recipientEmail options with
  | Some true, Some (c :: t) => Some (c :: t)
  | _, _ => None
  end.

Definition generateDocumentation (agents : Agents) (files : list FileInfo)
    (projectInfo : ProjectInfo) (options : DocumentationOptions)
    (onProgress : option Callback) : M AnalysisResult :=
  tryCatch
    (notify onProgress (js "Analyzing code structure and architecture...") 15 ;;;
     codeAnalysis <- await (codeAnalyzer agents files) ;;
     notify onProgress (js "Analyzing existing documentation...") 30 ;;;
     docAnalysis <- await (docAnalyzer agents files) ;;
     notify onProgress (js "Reviewing and synthesizing analysis...") 50 ;;;
     reviewedAnalysis <- reviewAnalysis agents codeAnalysis docAnalysis ;;
     notify onProgress (js "Generating technical specifications...") 70 ;;;
     specifications <-
       await (specGenerator agents (CoordinatorAgent.codeAnalysis reviewedAnalysis)
                (CoordinatorAgent.docAnalysis reviewedAnalysis) projectInfo) ;;
     notify onProgress (js "Finalizing documentation...") 85 ;;;
     let result := parseSpecifications specifications files in
     match deliveryRequested options with
     | Some recipient =>
         notify onProgress (js "Sending documentation via email...") 95 ;;;
         EmailAgent.sendDocumentation (emailAgent agents) recipient
           (name projectInfo) (technicalSpec result) (functionalSpec result)
           (Some (metadata result)) ;;;
         ret tt
     | None => ret tt
     end ;;;
     notify onProgress (js "Documentation generation complete!") 100 ;;;
     ret result)
    (fun error => throw error).

End CoordinatorAgent.

(* ================================================================== *)
(** ** index.ts *)
(* ================================================================== *)

Module TechDocsGenerator.

Import CoordinatorAgent.

(** The callback handed to the coordinator: the caller's callback with the
    percentage rescaled. *)
Definition rescaled (onProgress : option Callback) : Callback :=
  fun stage progress => notify onProgress stage (10 + progress * 0.9)%float.

Definition generateFromGithub (agents : Agents) (net : RepositoryAnalyzer.Network)
    (repoUrl : jsstring) (pat : option jsstring)
    (projectName : jsstring) (description : option jsstring)
    (options : DocumentationOptions) (onProgress : option Callback)
    : M AnalysisResult :=
  tryCatch
    (notify onProgress (js "Cloning repository...") 5 ;;;
     files <- await (RepositoryAnalyzer.analyzeGithubRepo net repoUrl pat) ;;
     notify onProgress (js "Starting analysis...") 10 ;;;
     result <-
       generateDocumentation agents files (mkProjectInfo projectName description)
         options (Some (rescaled onProgress)) ;;
     ret result)
    (fun error => throw error).

Definition generateFromLocal (agents : Agents) (folder : RepositoryAnalyzer.FsNode)
    (projectName : jsstring) (description : option jsstring)
    (options : DocumentationOptions) (onProgress : option Callback)
    : M AnalysisResult :=
  tryCatch
    (notify onProgress (js "Analyzing local files...") 5 ;;;
     files <- ret (RepositoryAnalyzer.analyzeLocalFolder folder) ;;
     notify onProgress (js "Starting analysis...") 10 ;;;
     result <-
       generateDocumentation agents files (mkProjectInfo projectName description)
         options (Some (rescaled onProgress)) ;;
     ret result)
    (fun error => throw error).

End TechDocsGenerator.

(** The form handler of [WebInterface]: the entry point of a run.  The
    world it runs in is the agents, the network and the file system (what
    lies at each path). *)
Module WebInterface.

Import CoordinatorAgent.

Inductive SourceType : Type := github | local.

Record FormData : Type := mkFormData {
  sourceType : SourceType;
  repoUrl : option jsstring;
  pat : option jsstring;
  localPath : option jsstring;
  projectName : jsstring;
  description : option jsstring;
  form_sendEmail : option bool;
  form_recipientEmail : option jsstring
}.

Record World : Type := mkWorld {
  agents : Agents;
  network : RepositoryAnalyzer.Network;
  fileSystem : jsstring -> RepositoryAnalyzer.FsNode
}.

Definition handleFormSubmission (world : World)
    (progressCallback : option Callback) (formData : FormData)
    : M AnalysisResult :=
  tryCatch
    (let options :=
       mkOptions (Some (match form_sendEmail formData with
                        | Some true => true
                        | _ => false
                        end))
                 (form_recipientEmail formData) in
     match sourceType formData, repoUrl formData, localPath formData with
     | github, Some (c :: u), _ =>
         TechDocsGenerator.generateFromGithub (agents world) (network world)
           (c :: u) (pat formData) (projectName formData)
           (description formData) options progressCallback
     | local, _, Some (c :: l) =>
         TechDocsGenerator.generateFromLocal (agents world)
           (fileSystem world (c :: l)) (projectName formData)
           (description formData) options progressCallback
     | _, _, _ => throw (mkError (js "Invalid form data"))
     end)
    (fun error => throw error).

End WebInterface.

(* ================================================================== *)
(** ** Vocabulary of the properties *)
(* ================================================================== *)

(** Descending order of a score. *)
Definition descending {A : Type} (score : A -> Z) (a b : A) : Prop :=
  (score b <= score a)%Z.

(** The importance of a record: the score of its path. *)
Definition importance (f : FileInfo) : Z :=
  RepositoryAnalyzer.getFileImportanceScore (path f).

(** A callback that returns normally whenever it is called. *)
Definition neverThrows (onProgress : option Callback) : Prop :=
  forall stage progress tr,
    exists tr', notify onProgress stage progress tr = (tr', Ok tt).

(** The percentages the coordinator reports in a run that completes. *)
Definition waypoints (delivery : bool) : list float :=
  [15; 30; 50; 70; 85]%float ++ (if delivery then [95]%float else [])
  ++ [100]%float.

(** The percentages the caller of [generateFromGithub] or
    [generateFromLocal] is sent in a run that completes. *)
Definition reported (delivery : bool) : list float :=
  [5; 10]%float ++ map (fun p => (10 + p * 0.9)%float) (waypoints delivery).

(** Whether the options ask for a delivery. *)
Definition requested (options : CoordinatorAgent.DocumentationOptions) : bool :=
  match CoordinatorAgent.deliveryRequested options with
  | Some _ => true
  | None => false
  end.

(** The percentages of a sequence of progress events. *)
Definition percentages (tr : Trace) : list float := map snd tr.

(** Non-decreasing order of JavaScript numbers, [a <= b]. *)
Definition nonDecreasing (a b : float) : Prop := PrimFloat.leb a b = true.

(** The relative paths of the entries the walk visits below [rel]: each
    is reached through entries that [shouldSkipPath] lets pass. *)
Inductive Visited (rel : jsstring) : jsstring -> Prop :=
| visited_entry (item : jsstring) :
    RepositoryAnalyzer.shouldSkipPath (RepositoryAnalyzer.relativeTo rel item) = false ->
    Visited rel (RepositoryAnalyzer.relativeTo rel item)
| visited_below (item p : jsstring) :
    RepositoryAnalyzer.shouldSkipPath (RepositoryAnalyzer.relativeTo rel item) = false ->
    Visited (RepositoryAnalyzer.relativeTo rel item) p ->
    Visited rel p.

(* ================================================================== *)
(** ** Concrete environments, used to run the definitions *)
(* ================================================================== *)

Module Fixtures.

Import RepositoryAnalyzer CoordinatorAgent.

(** An e-mail service whose model and JSON reading fail (so the fallback
    e-mail is composed) and whose Graph client accepts the message. *)
Definition silentMail : EmailAgent.Services :=
  EmailAgent.mkServices (fun _ _ _ => Throw (mkError (js "model unavailable")))
    (fun _ => Throw (mkError (js "not JSON")))
    (Some (fun _ => Ok tt)).

(** The same, with a Graph client that rejects every message. *)
Definition failingMail : EmailAgent.Services :=
  EmailAgent.mkServices (fun _ _ _ => Throw (mkError (js "model unavailable")))
    (fun _ => Throw (mkError (js "not JSON")))
    (Some (fun _ => Throw (mkError (js "Graph API: 503 Service Unavailable")))).

(** Agents that always answer; the reviewer's answer has no
    [DOCUMENTATION ANALYSIS:] part. *)
Definition answering (mail : EmailAgent.Services) : Agents :=
  mkAgents (fun _ => Ok (js "code analysis")) (fun _ => Ok (js "doc analysis"))
    (fun _ _ => Ok (js "CODE ANALYSIS: improved"))
    (fun code doc _ =>
       Ok (js "# " ++ code ++ functionalSpecMarker ++ js "<p>" ++ doc ++ js "</p>"))
    mail.

Definition plainReviewer : Agents := answering silentMail.

(** A text of 50,001 NUL characters: what reading a file of 50,001 zero
    bytes as UTF-8 gives. *)
Definition nulText : jsstring := repeat 0%N (Z.to_nat 50001).

(** A network whose blob requests are answered 200 with [content] as the
    decoded base64 payload, and whose tree request is answered with
    [treeResponse]. *)
Definition serving (treeResponse : TreeResponse) (content : jsstring) : Network :=
  mkNetwork (fun _ _ => Ok treeResponse)
    (fun _ _ => Ok (mkBlobResponse 200 (Ok (mkBlobData (js "base64") content)))).

Definition emptyTree (status : Z) (statusText : jsstring) : TreeResponse :=
  mkTreeResponse status statusText (Ok []).

End Fixtures.

Import Fixtures.

(* ================================================================== *)
(** ** Concrete runs *)
(* ================================================================== *)

Module Runs.

Import CoordinatorAgent Fixtures.

Definition demoProject : ProjectInfo := mkProjectInfo (js "demo") None.

Definition withDelivery : DocumentationOptions :=
  mkOptions (Some true) (Some (js "team@example.com")).

(** One run of the coordinator with delivery requested, on the given
    e-mail service. *)
Definition demoRun (mail : EmailAgent.Services) : Trace * Outcome AnalysisResult :=
  generateDocumentation (answering mail) [] demoProject withDelivery
    (Some observer) [].

(** The text the generation stage returns in these runs. *)
Definition demoSpecifications : jsstring :=
  js "# improved" ++ functionalSpecMarker ++ js "<p>doc analysis</p>".

(** A form asking for the documentation of a local folder, with delivery,
    and a world in which that folder holds a README. *)
Definition localForm : WebInterface.FormData :=
  WebInterface.mkFormData WebInterface.local None None (Some (js "/work/demo"))
    (js "demo") None (Some true) (Some (js "team@example.com")).

Definition demoWorld : WebInterface.World :=
  WebInterface.mkWorld (answering failingMail)
    (serving (emptyTree 200 []) [])
    (fun _ => RepositoryAnalyzer.FsDir
                (Ok [(js "README.md", RepositoryAnalyzer.FsFile 7 (Ok (js "# demo")))])).

End Runs.

Import Runs.

(* ================================================================== *)
(** ** Ingestion from either source *)
(* ================================================================== *)

(** The two sources of a run, and what ingesting each gives: local
    ingestion always returns, remote ingestion may fail. *)
Inductive Source : Type :=
| FromFolder (root : RepositoryAnalyzer.FsNode)
| FromGithub (net : RepositoryAnalyzer.Network) (repoUrl : jsstring)
    (pat : option jsstring).

Definition ingest (source : Source) : Outcome (list FileInfo) :=
  match source with
  | FromFolder root => Ok (RepositoryAnalyzer.analyzeLocalFolder root)
  | FromGithub net repoUrl pat => RepositoryAnalyzer.analyzeGithubRepo net repoUrl pat
  end.

(** A network that answers the tree request with the listing [items]
    (status 200) and each blob request, by URL, as [blobs] says. *)
Definition listing (items : list RepositoryAnalyzer.TreeItem)
    (blobs : jsstring -> Outcome RepositoryAnalyzer.BlobResponse)
    : RepositoryAnalyzer.Network :=
  RepositoryAnalyzer.mkNetwork
    (fun _ _ => Ok (RepositoryAnalyzer.mkTreeResponse 200 (js "OK") (Ok items)))
    (fun url _ => blobs url).

(** A blob answered 200 with [content] as its decoded payload. *)
Definition blobOf (content : jsstring) : Outcome RepositoryAnalyzer.BlobResponse :=
  Ok (RepositoryAnalyzer.mkBlobResponse 200
        (Ok (RepositoryAnalyzer.mkBlobData (js "base64") content))).

(** A small folder: a README, a source file in [src], a file that cannot
    be read, and a directory that cannot be listed. *)
Definition sampleFolder : RepositoryAnalyzer.FsNode :=
  RepositoryAnalyzer.FsDir
    (Ok [(js "src",
          RepositoryAnalyzer.FsDir
            (Ok [(js "main.ts", RepositoryAnalyzer.FsFile 12 (Ok (js "let x = 1;")));
                 (js "broken.ts",
                  RepositoryAnalyzer.FsFile 9 (Throw (mkError (js "EACCES"))))]));
         (js "locked", RepositoryAnalyzer.FsDir (Throw (mkError (js "EACCES"))));
         (js "README.md", RepositoryAnalyzer.FsFile 7 (Ok (js "# demo")))]).

(** A listing of three blobs and a tree entry; the second blob request is
    answered 500. *)
Definition sampleListing : list RepositoryAnalyzer.TreeItem :=
  [RepositoryAnalyzer.mkTreeItem (js "src") (js "tree") (js "t0") None;
   RepositoryAnalyzer.mkTreeItem (js "src/app.ts") (js "blob") (js "b1") (Some 11%Z);
   RepositoryAnalyzer.mkTreeItem (js "src/util.ts") (js "blob") (js "b2") (Some 20%Z);
   RepositoryAnalyzer.mkTreeItem (js "README.md") (js "blob") (js "b3") (Some 7%Z)].

Definition sampleNetwork : RepositoryAnalyzer.Network :=
  listing sampleListing
    (fun url =>
       if JS.eqb url (RepositoryAnalyzer.contentUrl (js "octocat") (js "demo") (js "b2"))
       then Ok (RepositoryAnalyzer.mkBlobResponse 500 (Throw (mkError (js "no body"))))
       else blobOf (js "content")).

Definition sampleUrl : jsstring := js "https://github.com/octocat/demo".

(** An entry from which the walk gets nothing although it is looked at:
    a directory that cannot be listed, something that is neither file nor
    directory, and a file whose content is not returned (it cannot be
    read, or is classified as binary). *)
Definition yieldsNothing (child : RepositoryAnalyzer.FsNode) : bool :=
  match child with
  | RepositoryAnalyzer.FsDir (Throw _) => true
  | RepositoryAnalyzer.FsOther => true
  | RepositoryAnalyzer.FsFile _ data =>
      match RepositoryAnalyzer.readFileContent data with
      | None => true
      | Some _ => false
      end
  | _ => false
  end.

(** [entryAt node names target]: following the entry names [names], one
    directory listing after the other, leads from the directory [node] to
    [target]. *)
Inductive entryAt : RepositoryAnalyzer.FsNode -> list jsstring ->
    RepositoryAnalyzer.FsNode -> Prop :=
| entry_here (items : list (jsstring * RepositoryAnalyzer.FsNode))
    (item : jsstring) (child : RepositoryAnalyzer.FsNode) :
    In (item, child) items ->
    entryAt (RepositoryAnalyzer.FsDir (Ok items)) [item] child
| entry_below (items : list (jsstring * RepositoryAnalyzer.FsNode))
    (item : jsstring) (child : RepositoryAnalyzer.FsNode)
    (names : list jsstring) (target : RepositoryAnalyzer.FsNode) :
    In (item, child) items ->
    entryAt child names target ->
    entryAt (RepositoryAnalyzer.FsDir (Ok items)) (item :: names) target.

(** A regular file under a chain of [levels] directories, each the only
    entry of the one above. *)
Fixpoint nested (levels : nat) : RepositoryAnalyzer.FsNode :=
  match levels with
  | O => RepositoryAnalyzer.FsFile 12 (Ok (js "let x = 1;"))
  | S levels' =>
      RepositoryAnalyzer.FsDir
        (Ok [(match levels' with O => js "main.ts" | S _ => js "d" end,
              nested levels')])
  end.

(** The records of an outcome; none when it is an error. *)
Definition filesOf (outcome : Outcome (list FileInfo)) : list FileInfo :=
  match outcome with
  | Ok files => files
  | Throw _ => []
  end.

(** A listing of 150 eligible blobs, each answered with a small text. *)
Definition wideNetwork : RepositoryAnalyzer.Network :=
  listing
    (map (fun k =>
            RepositoryAnalyzer.mkTreeItem
              (js "src/f" ++ ofNumber (Z.of_nat k) ++ js ".ts")
              (js "blob") (js "sha") (Some 10%Z))
         (seq 0 150))
    (fun _ => blobOf (js "x")).

(** The entries of a listing whose content is requested, and the record
    made of one of them. *)
Definition eligible (item : RepositoryAnalyzer.TreeItem) : bool :=
  JS.eqb (RepositoryAnalyzer.item_type item) (js "blob")
  && RepositoryAnalyzer.shouldIncludeGithubFile (RepositoryAnalyzer.item_path item)
       (RepositoryAnalyzer.numOr (RepositoryAnalyzer.item_size item) 0).

Definition selected (items : list RepositoryAnalyzer.TreeItem)
    : list RepositoryAnalyzer.TreeItem :=
  firstn 100 (filter eligible items).

Definition recordOf (net : RepositoryAnalyzer.Network) (owner repo : jsstring)
    (pat : option jsstring) (item : RepositoryAnalyzer.TreeItem) : option FileInfo :=
  match RepositoryAnalyzer.fetchGithubFileContent net owner repo
          (RepositoryAnalyzer.item_sha item) pat with
  | Some content =>
      Some (mkFileInfo (RepositoryAnalyzer.item_path item) content
              (RepositoryAnalyzer.detectLanguage (RepositoryAnalyzer.item_path item))
              (RepositoryAnalyzer.numOr (RepositoryAnalyzer.item_size item)
                 (JS.length content)))
  | None => None
  end.

(** A record whose file name contains [readme], in any case. *)
Definition isReadme (f : FileInfo) : bool :=
  includes (toLowerCase (Path.basename (path f))) (js "readme").

(** Two code units that are the same, or the two forms of one of the
    letters [A] to [Z]; and two names that are so unit by unit. *)
Definition sameLetter (x y : N) : bool :=
  ((x =? y) || (65 <=? x) && (x <=? 90) && (y =? x + 32)
   || (65 <=? y) && (y <=? 90) && (x =? y + 32))%N.

Fixpoint sameLetters (a b : jsstring) : bool :=
  match a, b with
  | [], [] => true
  | x :: a', y :: b' => sameLetter x y && sameLetters a' b'
  | _, _ => false
  end.

(** A text without slash. *)
Definition slashFree (s : jsstring) : bool :=
  forallb (fun c => negb (N.eqb c Path.slash)) s.

(** A text none of whose characters is in the class that
    [isBinaryContent] counts. *)
Definition controlFree (s : jsstring) : bool :=
  forallb (fun c => negb (RepositoryAnalyzer.isControlUnit c)) s.

(** The stage at which a run of the coordinator fails: how many stages
    were started when the error was thrown, and the error. *)
Inductive FailsAt (agents : CoordinatorAgent.Agents) (files : list FileInfo)
    (projectInfo : CoordinatorAgent.ProjectInfo) : nat -> Error -> Prop :=
| fails_in_code_analysis (e : Error) :
    CoordinatorAgent.codeAnalyzer agents files = Throw e ->
    FailsAt agents files projectInfo 1 e
| fails_in_doc_analysis (code : jsstring) (e : Error) :
    CoordinatorAgent.codeAnalyzer agents files = Ok code ->
    CoordinatorAgent.docAnalyzer agents files = Throw e ->
    FailsAt agents files projectInfo 2 e
| fails_in_review (code doc : jsstring) (e : Error) :
    CoordinatorAgent.codeAnalyzer agents files = Ok code ->
    CoordinatorAgent.docAnalyzer agents files = Ok doc ->
    CoordinatorAgent.generateText agents CoordinatorAgent.reviewSystemPrompt
      (CoordinatorAgent.reviewPrompt code doc) = Throw e ->
    FailsAt agents files projectInfo 3 e
| fails_in_generation (code doc enhanced : jsstring) (e : Error) :
    CoordinatorAgent.codeAnalyzer agents files = Ok code ->
    CoordinatorAgent.docAnalyzer agents files = Ok doc ->
    CoordinatorAgent.generateText agents CoordinatorAgent.reviewSystemPrompt
      (CoordinatorAgent.reviewPrompt code doc) = Ok enhanced ->
    CoordinatorAgent.specGenerator agents
      (CoordinatorAgent.codeAnalysis (CoordinatorAgent.parseReview enhanced code doc))
      (CoordinatorAgent.docAnalysis (CoordinatorAgent.parseReview enhanced code doc))
      projectInfo = Throw e ->
    FailsAt agents files projectInfo 4 e.

(** Agents whose documentation analysis fails. *)
Definition failingDocAnalysis : CoordinatorAgent.Agents :=
  CoordinatorAgent.mkAgents (fun _ => Ok (js "code analysis"))
    (fun _ => Throw (mkError (js "rate limit exceeded")))
    (fun _ _ => Ok (js "CODE ANALYSIS: improved"))
    (fun code doc _ => Ok (code ++ doc))
    silentMail.

(** No copy of [p] starts inside [x], whatever follows [x]. *)
Fixpoint overlapFree (x p : jsstring) : bool :=
  match x with
  | [] => true
  | _ :: x' => negb (startsWith x p) && negb (startsWith p x) && overlapFree x' p
  end.

(** Agents whose reviewer answers in the two labelled parts. *)
Definition structuredReviewer : CoordinatorAgent.Agents :=
  CoordinatorAgent.mkAgents (fun _ => Ok (js "code analysis"))
    (fun _ => Ok (js "doc analysis"))
    (fun _ _ =>
       Ok (CoordinatorAgent.codeLabel ++ js " better code "
           ++ CoordinatorAgent.documentationLabel ++ js " better docs "))
    (fun code doc _ => Ok (code ++ doc))
    silentMail.

(* ================================================================== *)
(** ** Testing the e-mail connection *)
(* ================================================================== *)

(** [EmailAgent.testConnection] and the methods that pass it on
    ([CoordinatorAgent], [TechDocsGenerator] and [WebInterface]
    [.testEmailConnection]). *)
Module EmailConnection.

(** What the test relies on: the answer of
    [acquireTokenByClientCredential] (a response, possibly [null], with
    its access token), and the Graph client ([null] when it was not set
    up) fetching the sender's profile. *)
Record Connection : Type := mkConnection {
  acquireTokenByClientCredential : Outcome (option jsstring);
  profile : option (Outcome unit)
}.

(** [GraphAuthProvider.getAccessToken]: [response?.accessToken || ''] *)
Definition getAccessToken (conn : Connection) : M jsstring :=
  response <- await (acquireTokenByClientCredential conn) ;;
  ret (orElse response []).

Definition testConnection (conn : Connection) : M bool :=
  tryCatch
    (token <- getAccessToken conn ;;
     match token with
     | [] => throw (mkError (js "Failed to get access token"))
     | _ :: _ =>
         match profile conn with
         | None => throw (mkError (js "Graph client not initialized"))
         | Some get => await get ;;; ret true
         end
     end)
    (fun error => ret false).

(** [CoordinatorAgent.testEmailConnection] *)
Definition testEmailConnection (conn : Connection) : M bool :=
  tryCatch (testConnection conn) (fun error => ret false).

(** [TechDocsGenerator.testEmailConnection] and
    [WebInterface.testEmailConnection] await the method below them. *)
Definition generatorTestEmailConnection (conn : Connection) : M bool :=
  testEmailConnection conn.

Definition webTestEmailConnection (conn : Connection) : M bool :=
  generatorTestEmailConnection conn.

End EmailConnection.

(** The characters of a sanitized file name: letters and digits of
    ASCII, the underscore and the dot. *)
Definition safeUnit (c : N) : bool :=
  EmailAgent.isAlphaNumeric c || N.eqb c 95 || N.eqb c 46.

(** A form that names no place to read from: a GitHub form without URL,
    or a local form without path. *)
Definition lacksLocator (formData : WebInterface.FormData) : bool :=
  match WebInterface.sourceType formData with
  | WebInterface.github =>
      match WebInterface.repoUrl formData with
      | Some (_ :: _) => false
      | _ => true
      end
  | WebInterface.local =>
      match WebInterface.localPath formData with
      | Some (_ :: _) => false
      | _ => true
      end
  end.

(** A form asking for the documentation of a GitHub repository. *)
Definition githubForm : WebInterface.FormData :=
  WebInterface.mkFormData WebInterface.github
    (Some (js "https://github.com/octocat/private")) None None
    (js "demo") None None None.

(** A world whose listing request is answered 404. *)
Definition notFoundWorld : WebInterface.World :=
  WebInterface.mkWorld (answering silentMail)
    (serving (emptyTree 404 (js "Not Found")) [])
    (fun _ => RepositoryAnalyzer.FsOther).

(* ================================================================== *)
(** ** The prompts of the agents *)
(* ================================================================== *)

(** [formatInput] of [CodeAnalyzerAgent] (agents/coordinator-agent.ts,
    second part) and of [SpecificationGeneratorAgent]. *)
Module Prompts.

Import CoordinatorAgent.

Definition contentLimit : Z := 2000.

(** One turn of the [forEach] of [CodeAnalyzerAgent.formatInput]. *)
Definition addFile (input : jsstring) (file : FileInfo) : jsstring :=
  let input := input ++ (js "--- " ++ path file ++ js " (" ++ language file
                         ++ js ") ---" ++ [10%N]) in
  let input := input ++ substring0 (content file) contentLimit in
  input ++ [10%N; 10%N].

Definition codeAnalyzerFormatInput (files : list FileInfo) : jsstring :=
  let input := js "Analyze the following codebase:" ++ [10%N; 10%N] in
  let input := fold_left addFile files input in
  input ++ ([10%N] ++ js "Provide a comprehensive technical analysis of this codebase.").

Definition specificationFormatInput (codeAnalysis docAnalysis : jsstring)
    (projectInfo : ProjectInfo) : jsstring :=
  js "Generate comprehensive technical and functional specifications based on this analysis:

PROJECT INFORMATION:
Name: "
    ++ name projectInfo
    ++ js "
Description: "
    ++ orElse (description projectInfo) (js "Not provided")
    ++ js "

CODE ANALYSIS:
"
    ++ codeAnalysis
    ++ js "

DOCUMENTATION ANALYSIS:
"
    ++ docAnalysis
    ++ js "

Please generate:
1. A comprehensive Technical Specification in Markdown format
2. A Functional Specification in HTML format suitable for Confluence

TECHNICAL SPECIFICATION REQUIREMENTS:
- Must include a Class Diagram in Markdown format using text-based representation
- Show all major classes, their properties, methods, and relationships
- Use inheritance arrows (extends), composition (has-a), and associations
- Include interfaces and abstract classes if applicable

Example Class Diagram format in Markdown:
```
ClassA
|-- property1: string
|-- property2: number  
|-- method1(): void
+-- method2(param: string): boolean

ClassB extends ClassA
|-- additionalProp: Date
+-- specificMethod(): void

ClassA --> ClassC (uses)
ClassB --> ClassD (has-a)
```

FUNCTIONAL SPECIFICATION REQUIREMENTS:
- Replace user stories with comprehensive Test Cases in business user terms
- Test cases should cover happy path, edge cases, and error scenarios
- Format: Test Case ID, Description, Pre-conditions, Steps, Expected Result
- Include both positive and negative test scenarios

CRITICAL: The functional specification MUST include a visual flow diagram created with inline SVG showing the complete user journey from initial action to final output. This diagram is mandatory.

Required diagram elements with STRICT TEXT SIZE LIMITS:
- User actions (buttons, forms, API calls) - rounded rectangles with blue color (#4A90E2)
- System processing steps - rectangles with gray color (#9B9B9B)  
- Decision points and conditional flows - diamond shapes with yellow color (#F5A623) - **TEXT MAX 6 CHARACTERS**
- External system interactions - circles with green color (#7ED321) - **TEXT MAX 8 CHARACTERS**
- Data transformations - rectangles with orange color (#F39C12)
- Final results and outputs - rounded rectangles with purple color (#9013FE)

MANDATORY SVG TEXT RULES - Text must be properly sized for shapes:
1. **Diamonds: Maximum 6 characters total (e.g., " ++ [34%N] ++ js "Valid?" ++ [34%N] ++ js ", " ++ [34%N] ++ js "OK?" ++ [34%N] ++ js ", " ++ [34%N] ++ js "Error?" ++ [34%N] ++ js ")**
2. **Circles: Maximum 8 characters (e.g., " ++ [34%N] ++ js "API" ++ [34%N] ++ js ", " ++ [34%N] ++ js "DB" ++ [34%N] ++ js ", " ++ [34%N] ++ js "Email" ++ [34%N] ++ js ")**
3. **Rectangles: Use multi-line with <tspan> for longer text**
4. Always use text-anchor=" ++ [34%N] ++ js "middle" ++ [34%N] ++ js " and dominant-baseline=" ++ [34%N] ++ js "middle" ++ [34%N] ++ js " for centering
5. Font sizes: 9px for diamonds, 10px for circles, 11px for rectangles
6. Use abbreviations aggressively to fit text within shapes
7. If text still doesn't fit, make the shape bigger

Example proper text positioning for diamonds:
<polygon points=" ++ [34%N] ++ js "300,70 350,90 300,110 250,90" ++ [34%N] ++ js " fill=" ++ [34%N] ++ js "#F5A623" ++ [34%N] ++ js "/>
<text x=" ++ [34%N] ++ js "300" ++ [34%N] ++ js " y=" ++ [34%N] ++ js "90" ++ [34%N] ++ js " text-anchor=" ++ [34%N] ++ js "middle" ++ [34%N] ++ js " dominant-baseline=" ++ [34%N] ++ js "middle" ++ [34%N] ++ js " fill=" ++ [34%N] ++ js "black" ++ [34%N] ++ js " font-size=" ++ [34%N] ++ js "9" ++ [34%N] ++ js ">Valid?</text>

The functional specification must include:
- Business overview and use cases
- **Test Cases in business user terms (not user stories)**
- Functional requirements with detailed descriptions
- Business rules and validation logic
- Integration requirements
- **A professional SVG flow diagram with properly sized text**

Ensure both documents are professional, well-structured, and comprehensive.
Use the marker <!-- FUNCTIONAL_SPEC_START --> to separate the two specifications.".

End Prompts.

(* ================================================================== *)
(** ** config/index.ts *)
(* ================================================================== *)

Module ConfigManager.

(** [process.env]: the value of a variable, or [undefined]. *)
Definition Env : Type := jsstring -> option jsstring.

Record OpenaiConfig : Type := mkOpenaiConfig {
  apiKey : jsstring;
  baseURL : jsstring;
  model : jsstring;
  maxCompletionTokens : option Z;
  apiVersion : jsstring
}.

Record EmailConfig : Type := mkEmailConfig {
  microsoftClientId : jsstring;
  microsoftClientSecret : jsstring;
  microsoftTenantId : jsstring;
  fromEmail : jsstring
}.

Record AppSection : Type := mkAppSection {
  app_name : jsstring;
  version : jsstring;
  nodeEnv : jsstring;
  logLevel : jsstring
}.

Record AppConfig : Type := mkAppConfig {
  openai : OpenaiConfig;
  email : EmailConfig;
  app : AppSection;
  github : option jsstring
}.

(** [parseInt(s, 10)]: leading white space is skipped, a sign is read,
    then the longest run of decimal digits; [NaN] ([None]) when there is
    no digit.  (The value is exact below 2^53.) *)
Definition isDigit (c : N) : bool := ((48 <=? c) && (c <=? 57))%N.

Fixpoint digitsValue (acc : Z) (s : jsstring) : Z :=
  match s with
  | c :: s' =>
      if isDigit c then digitsValue (10 * acc + (Z.of_N c - 48)) s' else acc
  | [] => acc
  end.

Definition parseDigits (s : jsstring) : option Z :=
  match s with
  | c :: _ => if isDigit c then Some (digitsValue 0 s) else None
  | [] => None
  end.

Definition parseInt (s : jsstring) : option Z :=
  match trimStart s with
  | 45%N :: rest => option_map Z.opp (parseDigits rest)
  | 43%N :: rest => parseDigits rest
  | rest => parseDigits rest
  end.

Definition loadConfig (env : Env) : AppConfig :=
  mkAppConfig
    (mkOpenaiConfig
       (orElse (env (js "OPENAI_API_KEY")) [])
       (orElse (env (js "OPENAI_BASE_URL")) [])
       (orElse (env (js "LLM_MODEL")) (js "o1-2024-12-17"))
       (parseInt (orElse (env (js "LLM_MAX_COMPLETION_TOKENS")) (js "4000")))
       (orElse (env (js "OPENAI_API_VERSION")) (js "2025-04-01-preview")))
    (mkEmailConfig
       (orElse (env (js "MICROSOFT_CLIENT_ID")) [])
       (orElse (env (js "MICROSOFT_CLIENT_SECRET")) [])
       (orElse (env (js "MICROSOFT_TENANT_ID")) [])
       (orElse (env (js "EMAIL_FROM")) []))
    (mkAppSection
       (orElse (env (js "APP_NAME")) (js "TechDocs Generator"))
       (orElse (env (js "APP_VERSION")) (js "1.0.0"))
       (orElse (env (js "NODE_ENV")) (js "development"))
       (orElse (env (js "LOG_LEVEL")) (js "info")))
    (match env (js "GITHUB_TOKEN") with
     | Some (c :: t) => Some (c :: t)
     | _ => None
     end).

(** [pieces.join(sep)] *)
Fixpoint joinWith (sep : jsstring) (pieces : list jsstring) : jsstring :=
  match pieces with
  | [] => []
  | [p] => p
  | p :: rest => p ++ sep ++ joinWith sep rest
  end.

Definition requiredFields (config : AppConfig) : list (jsstring * jsstring) :=
  [(js "openai.apiKey", apiKey (openai config));
   (js "email.microsoftClientId", microsoftClientId (email config));
   (js "email.microsoftClientSecret", microsoftClientSecret (email config));
   (js "email.microsoftTenantId", microsoftTenantId (email config));
   (js "email.fromEmail", fromEmail (email config))].

Definition validateConfig (config : AppConfig) : Outcome unit :=
  let missingFields :=
    map fst
      (filter (fun field => match snd field with [] => true | _ :: _ => false end)
              (requiredFields config)) in
  match missingFields with
  | _ :: _ =>
      Throw (mkError (js "Missing required environment variables: "
                      ++ joinWith (js ", ") missingFields))
  | [] => Ok tt
  end.

(** [new ConfigManager()]: the configuration, or the error of the
    validation. *)
Definition construct (env : Env) : Outcome AppConfig :=
  let config := loadConfig env in
  match validateConfig config with
  | Ok _ => Ok config
  | Throw e => Throw e
  end.

End ConfigManager.

(** The variables without which the configuration is refused. *)
Definition requiredVariables : list jsstring :=
  map js ["OPENAI_API_KEY"; "MICROSOFT_CLIENT_ID"; "MICROSOFT_CLIENT_SECRET";
          "MICROSOFT_TENANT_ID"; "EMAIL_FROM"]%string.

(** A variable that is set to a non-empty text. *)
Definition isSet (env : ConfigManager.Env) (variable : jsstring) : bool :=
  match env variable with
  | Some (_ :: _) => true
  | _ => false
  end.

(** An environment that sets the five required variables and nothing
    else. *)
Definition minimalEnv : ConfigManager.Env :=
  fun variable =>
    if existsb (JS.eqb variable) requiredVariables then Some (js "set") else None.

(** What one file adds to the prompt of the code analyzer. *)
Definition fileShare (file : FileInfo) : Z :=
  JS.length (path file) + JS.length (language file)
  + Z.min (JS.length (content file)) 2000 + 14.

Definition totalShare (files : list FileInfo) : Z :=
  fold_right (fun file total => fileShare file + total)%Z 0%Z files.

(* ================================================================== *)
(** * Properties *)
(* ================================================================== *)

(** ** Strings: prefixes, occurrences and splitting *)

Lemma startsWith_nil (s : jsstring) : startsWith s [] = true.
Proof. destruct s; reflexivity. Qed.

Lemma startsWith_app (p r : jsstring) : startsWith (p ++ r) p = true.
Proof.
  induction p as [|a p IH]; simpl.
  - reflexivity.
  - now rewrite N.eqb_refl, IH.
Qed.

Lemma includes_eq (s p : jsstring) :
  includes s p =
  startsWith s p || match s with [] => false | _ :: s' => includes s' p end.
Proof. destruct s; reflexivity. Qed.

Lemma breakOn_eq (s sep : jsstring) :
  breakOn s sep =
  if startsWith s sep then Some ([], skipn (List.length sep) s)
  else match s with
       | [] => None
       | c :: s' =>
           match breakOn s' sep with
           | Some (before, after) => Some (c :: before, after)
           | None => None
           end
       end.
Proof. destruct s; reflexivity. Qed.

(** When a prefix test succeeds on [x ++ y], either the pattern lies
    within [x], or [x] is its beginning and the rest starts [y]. *)
Lemma startsWith_app_inv (p x y : jsstring) :
  startsWith (x ++ y) p = true ->
  startsWith x p = true \/ exists p2, p = x ++ p2 /\ startsWith y p2 = true.
Proof.
  revert x; induction p as [|a p IH]; intros x H.
  - left; apply startsWith_nil.
  - destruct x as [|b x]; simpl in *.
    + right; exists (a :: p); auto.
    + apply andb_true_iff in H as [Hab H].
      apply N.eqb_eq in Hab; subst b.
      destruct (IH _ H) as [Hx | (p2 & -> & Hy)].
      * left; now rewrite N.eqb_refl.
      * right; exists p2; auto.
Qed.

(** A pattern whose first code unit does not occur again in it cannot
    overlap a later copy of itself. *)
Lemma startsWith_no_overlap (c : N) (m x b : jsstring) :
  existsb (N.eqb c) m = false ->
  x <> [] ->
  startsWith (x ++ (c :: m) ++ b) (c :: m) = true ->
  startsWith x (c :: m) = true.
Proof.
  intros Hc Hx H.
  destruct (startsWith_app_inv _ _ _ H) as [Hin | (p2 & Heq & Hp2)]; [exact Hin|].
  destruct x as [|x0 x]; [congruence|].
  simpl in Heq; injection Heq as <- Hm.
  destruct p2 as [|q p2].
  - rewrite app_nil_r in Hm; subst m. simpl.
    rewrite N.eqb_refl. pose proof (startsWith_app x []) as E.
    rewrite app_nil_r in E. exact E.
  - simpl in Hp2. apply andb_true_iff in Hp2 as [Hq _].
    apply N.eqb_eq in Hq; subst q.
    exfalso. subst m. rewrite existsb_app in Hc. simpl in Hc.
    rewrite N.eqb_refl, orb_true_r in Hc. discriminate.
Qed.

Lemma breakOn_absent (s sep : jsstring) :
  includes s sep = false -> breakOn s sep = None.
Proof.
  induction s as [|c s IH]; intros H; rewrite includes_eq in H;
    apply orb_false_iff in H as [Hp Hrest]; rewrite breakOn_eq, Hp.
  - reflexivity.
  - now rewrite (IH Hrest).
Qed.

Lemma breakOn_present (s sep before after : jsstring) :
  breakOn s sep = Some (before, after) -> includes s sep = true.
Proof.
  revert before; induction s as [|c s IH]; intros before H;
    rewrite breakOn_eq in H; rewrite includes_eq;
    destruct (startsWith _ sep) eqn:Hp; simpl; auto; try discriminate.
  destruct (breakOn s sep) as [[b a]|] eqn:Hb; [|discriminate].
  injection H as _ <-. now rewrite (IH _ eq_refl).
Qed.

(** The first occurrence of the separator in [a ++ sep ++ b] is the one
    written there, when [a] holds none. *)
Lemma breakOn_first (c : N) (m a b : jsstring) :
  existsb (N.eqb c) m = false ->
  includes a (c :: m) = false ->
  breakOn (a ++ (c :: m) ++ b) (c :: m) = Some (a, b).
Proof.
  intros Hc. induction a as [|x a IH]; intros Ha.
  - rewrite breakOn_eq.
    change ([] ++ (c :: m) ++ b) with ((c :: m) ++ b).
    rewrite startsWith_app.
    now rewrite skipn_app, skipn_all, Nat.sub_diag.
  - rewrite includes_eq in Ha. apply orb_false_iff in Ha as [Hp Hrest].
    rewrite breakOn_eq.
    destruct (startsWith ((x :: a) ++ (c :: m) ++ b) (c :: m)) eqn:Hs.
    + apply startsWith_no_overlap in Hs; [congruence | assumption | discriminate].
    + cbn [app] in *. cbn [app] in IH. now rewrite (IH Hrest).
Qed.

Lemma startsWith_length (p s : jsstring) :
  startsWith s p = true -> (List.length p <= List.length s)%nat.
Proof.
  revert s; induction p as [|q p IH]; intros s H; simpl; [lia|].
  destruct s as [|y s]; [discriminate|]. simpl in H.
  apply andb_true_iff in H as [_ H]. specialize (IH _ H). simpl. lia.
Qed.

Lemma breakOn_shorter (s sep before after : jsstring) :
  breakOn s sep = Some (before, after) ->
  (List.length before + List.length sep <= List.length s)%nat /\
  List.length after = (List.length s - (List.length before + List.length sep))%nat.
Proof.
  revert before; induction s as [|c s IH]; intros before H;
    rewrite breakOn_eq in H; destruct (startsWith _ sep) eqn:Hp.
  - injection H as <- <-. destruct sep; [|discriminate].
    simpl; split; lia.
  - discriminate.
  - injection H as <- <-. rewrite length_skipn.
    apply startsWith_length in Hp. cbn [List.length] in *. split; lia.
  - destruct (breakOn s sep) as [[b0 a0]|] eqn:Hb; [|discriminate].
    injection H as <- <-. destruct (IH _ eq_refl) as [H1 H2].
    cbn [List.length]; split; lia.
Qed.

(** The fuel of [splitFrom] is never exhausted: with a non-empty
    separator [split] satisfies the equation of the ECMAScript loop. *)
Lemma splitFrom_enough (sep : jsstring) (n : nat) :
  sep <> [] ->
  forall s m, (List.length s <= n)%nat -> (List.length s <= m)%nat ->
  splitFrom n s sep = splitFrom m s sep.
Proof.
  intros Hsep. induction n as [|n IH]; intros s m Hn Hm.
  - destruct s; [|simpl in Hn; lia].
    destruct sep; [congruence|]. destruct m; reflexivity.
  - destruct m as [|m].
    + destruct s; [|simpl in Hm; lia].
      destruct sep; [congruence|reflexivity].
    + simpl. destruct (breakOn s sep) as [[b a]|] eqn:Hb; [|reflexivity].
      f_equal. destruct (breakOn_shorter _ _ _ _ Hb) as [H1 H2].
      assert (0 < List.length sep)%nat by (destruct sep; [congruence|simpl; lia]).
      apply IH; lia.
Qed.

Lemma split_eq (s sep : jsstring) :
  sep <> [] ->
  split s sep =
  match breakOn s sep with
  | Some (before, after) => before :: split after sep
  | None => [s]
  end.
Proof.
  intros Hsep. unfold split. destruct sep as [|q sep]; [congruence|].
  destruct s as [|c s].
  - reflexivity.
  - cbn [List.length splitFrom].
    destruct (breakOn (c :: s) (q :: sep)) as [[b a]|] eqn:Hb; [|reflexivity].
    f_equal. destruct (breakOn_shorter _ _ _ _ Hb) as [H1 H2].
    cbn [List.length] in H1, H2. apply splitFrom_enough; [discriminate | lia | lia].
Qed.

Lemma split_absent (s sep : jsstring) :
  sep <> [] -> includes s sep = false -> split s sep = [s].
Proof.
  intros Hsep H. now rewrite split_eq, (breakOn_absent _ _ H).
Qed.

Lemma split_around (c : N) (m a b : jsstring) :
  existsb (N.eqb c) m = false ->
  includes a (c :: m) = false ->
  includes b (c :: m) = false ->
  split (a ++ (c :: m) ++ b) (c :: m) = [a; b].
Proof.
  intros Hc Ha Hb.
  rewrite split_eq by discriminate.
  rewrite (breakOn_first _ _ _ _ Hc Ha).
  now rewrite (split_absent b) by (discriminate || assumption).
Qed.

Lemma orElse_some (t d : jsstring) : t <> [] -> orElse (Some t) d = t.
Proof. destruct t; [congruence | reflexivity]. Qed.


(** ** Splitting the combined generation result *)

Import CoordinatorAgent RepositoryAnalyzer.

(** The separator starts with [<], which does not occur again in it. *)
Lemma functionalSpecMarker_shape :
  functionalSpecMarker = 60%N :: tl functionalSpecMarker /\
  existsb (N.eqb 60) (tl functionalSpecMarker) = false.
Proof. split; reflexivity. Qed.

Lemma functionalSpecMarker_split_around (a b : jsstring) :
  includes a functionalSpecMarker = false ->
  includes b functionalSpecMarker = false ->
  split (a ++ functionalSpecMarker ++ b) functionalSpecMarker = [a; b].
Proof.
  destruct functionalSpecMarker_shape as [-> Hc].
  now apply split_around.
Qed.

Lemma functionalSpecMarker_split_absent (s : jsstring) :
  includes s functionalSpecMarker = false ->
  split s functionalSpecMarker = [s].
Proof. apply split_absent. discriminate. Qed.

(** C3, as amended.  When neither [text_before] nor [text_after] contains
    the separator and neither is blank, parsing
    [text_before + marker + text_after] gives [trim(text_before)] as the
    technical document and [trim(text_after)] as the functional one. *)
Theorem parseSpecifications_around_marker
    (text_before text_after : jsstring) (files : list FileInfo) :
  includes text_before functionalSpecMarker = false ->
  includes text_after functionalSpecMarker = false ->
  trim text_before <> [] ->
  trim text_after <> [] ->
  let result :=
    parseSpecifications (text_before ++ functionalSpecMarker ++ text_after) files in
  technicalSpec result = trim text_before /\
  functionalSpec result = trim text_after.
Proof.
  intros Hb Ha Tb Ta. cbv zeta. unfold parseSpecifications. cbn [technicalSpec functionalSpec].
  rewrite (functionalSpecMarker_split_around _ _ Hb Ha). cbn [nth_error option_map].
  split; now apply orElse_some.
Qed.

Lemma parseSpecifications_around_marker_witness :
  let text_before := js "  # Technical specification " in
  let text_after := js " <html>Functional</html>  " in
  let result :=
    parseSpecifications (text_before ++ functionalSpecMarker ++ text_after) [] in
  technicalSpec result = js "# Technical specification" /\
  functionalSpec result = js "<html>Functional</html>".
Proof.
  apply (parseSpecifications_around_marker
           (js "  # Technical specification ") (js " <html>Functional</html>  ") []);
    vm_compute; congruence.
Defined.

(** C3 as stated fails: with nothing before the separator the technical
    document is the whole combined text, not the empty [trim(text_before)]. *)
Lemma parseSpecifications_blank_before :
  let text_before := [] in
  let text_after := js "<html>Functional</html>" in
  let result :=
    parseSpecifications (text_before ++ functionalSpecMarker ++ text_after) [] in
  ~ (technicalSpec result = trim text_before /\
     functionalSpec result = trim text_after).
Proof. vm_compute. intros [H _]. discriminate H. Qed.

(** The other ways in which the statement of C3 is too wide: a blank
    [text_after] yields the fallback document, and a separator inside
    [text_before] or [text_after] moves the cut. *)
Example parseSpecifications_blank_after :
  functionalSpec (parseSpecifications (js "tech" ++ functionalSpecMarker ++ js "  ") [])
  = generateFallbackFunctionalSpec.
Proof. reflexivity. Qed.

Example parseSpecifications_marker_before :
  technicalSpec
    (parseSpecifications
       ((js "one" ++ functionalSpecMarker ++ js "two") ++ functionalSpecMarker ++ js "func") [])
  = js "one".
Proof. reflexivity. Qed.

Example parseSpecifications_second_marker :
  functionalSpec
    (parseSpecifications
       (js "tech" ++ functionalSpecMarker ++ js "one" ++ functionalSpecMarker ++ js "two") [])
  = js "one".
Proof. reflexivity. Qed.

(** C4, as amended.  For a combined text without the separator the
    functional document is the fixed fallback document; the technical
    document is [trim(combined)] when that is not empty, and the combined
    text itself, untrimmed, when it is blank. *)
Theorem parseSpecifications_without_marker
    (combined : jsstring) (files : list FileInfo) :
  includes combined functionalSpecMarker = false ->
  let result := parseSpecifications combined files in
  functionalSpec result = generateFallbackFunctionalSpec /\
  (trim combined <> [] -> technicalSpec result = trim combined) /\
  (trim combined = [] -> technicalSpec result = combined).
Proof.
  intros H. cbv zeta. unfold parseSpecifications. cbn [technicalSpec functionalSpec].
  rewrite (functionalSpecMarker_split_absent _ H). cbn [nth_error option_map].
  split; [reflexivity|]. split; intros T.
  - now apply orElse_some.
  - rewrite T. reflexivity.
Qed.

Lemma parseSpecifications_without_marker_witness :
  let combined := js " # Only a technical part " in
  let result := parseSpecifications combined [] in
  functionalSpec result = generateFallbackFunctionalSpec /\
  (trim combined <> [] -> technicalSpec result = trim combined) /\
  (trim combined = [] -> technicalSpec result = combined).
Proof.
  apply (parseSpecifications_without_marker (js " # Only a technical part ") []).
  vm_compute. reflexivity.
Defined.

(** C4 as stated fails on a blank text: the technical document is the
    text as it came, not its (empty) trimmed form. *)
Lemma parseSpecifications_blank_combined :
  let combined := js " " in
  includes combined functionalSpecMarker = false /\
  technicalSpec (parseSpecifications combined []) <> trim combined.
Proof. split; vm_compute; congruence. Qed.

(** ** Review stage *)

Lemma documentationLabel_split_absent (s : jsstring) :
  includes s documentationLabel = false ->
  split s documentationLabel = [s].
Proof. apply split_absent. discriminate. Qed.

(** C7, as amended.  When the reviewer's response lacks the label
    [DOCUMENTATION ANALYSIS:], the documentation analysis is the original
    input, and the code analysis is the response itself, its first
    [CODE ANALYSIS:] removed and trimmed; the original code analysis is
    used only when that text is empty. *)
Theorem reviewAnalysis_without_label
    (agents : Agents) (code doc enhanced : jsstring) (tr : Trace) :
  generateText agents reviewSystemPrompt (reviewPrompt code doc) = Ok enhanced ->
  includes enhanced documentationLabel = false ->
  let cleaned := trim (replace enhanced codeLabel []) in
  reviewAnalysis agents code doc tr =
  (tr, Ok (mkReviewed (match cleaned with [] => code | _ :: _ => cleaned end) doc)).
Proof.
  intros Hgen Hlabel. cbv zeta.
  unfold reviewAnalysis, bind, await, ret. rewrite Hgen.
  unfold parseReview. rewrite (documentationLabel_split_absent _ Hlabel).
  cbn [nth_error option_map orElse].
  destruct (trim (replace enhanced codeLabel [])); reflexivity.
Qed.

Lemma reviewAnalysis_without_label_witness :
  reviewAnalysis plainReviewer (js "code analysis") (js "doc analysis") [] =
  ([], Ok (mkReviewed (js "improved") (js "doc analysis"))).
Proof.
  apply (reviewAnalysis_without_label plainReviewer
           (js "code analysis") (js "doc analysis") (js "CODE ANALYSIS: improved") []);
    reflexivity.
Defined.

(** C7 as stated fails: the response replaces the code analysis although
    the label is absent. *)
Lemma reviewAnalysis_keeps_response :
  let code := js "code analysis" in
  let doc := js "doc analysis" in
  generateText plainReviewer reviewSystemPrompt (reviewPrompt code doc)
  = Ok (js "CODE ANALYSIS: improved") /\
  includes (js "CODE ANALYSIS: improved") documentationLabel = false /\
  reviewAnalysis plainReviewer code doc [] <> ([], Ok (mkReviewed code doc)).
Proof.
  split; [reflexivity|]. split; [reflexivity|].
  vm_compute. intros H. discriminate H.
Qed.

(** ** Ranking *)

Section Ranking.

Context {A : Type} (score : A -> Z).

(** The comparator [(a, b) => score(b) - score(a)]. *)
Let cmp (a b : A) : Z := (score b - score a)%Z.

Lemma sortInsert_perm (a : A) (l : list A) :
  Permutation (a :: l) (sortInsert cmp a l).
Proof.
  induction l as [|b l IH]; simpl; [reflexivity|].
  destruct (0 <? cmp a b)%Z; [|reflexivity].
  rewrite perm_swap. now apply perm_skip.
Qed.

Lemma sort_perm (l : list A) : Permutation l (sort cmp l).
Proof.
  induction l as [|a l IH]; simpl; [reflexivity|].
  rewrite <- sortInsert_perm. now apply perm_skip.
Qed.

Lemma sortInsert_sorted (a : A) (l : list A) :
  StronglySorted (descending score) l ->
  StronglySorted (descending score) (sortInsert cmp a l).
Proof.
  induction 1 as [|b l Hl IH Hb]; simpl.
  - repeat constructor.
  - destruct (0 <? cmp a b)%Z eqn:E; unfold cmp in E.
    + constructor; [exact IH|].
      rewrite <- sortInsert_perm. constructor; [unfold descending; lia | exact Hb].
    + constructor; [now constructor|].
      constructor; [unfold descending; lia|].
      eapply Forall_impl; [|exact Hb]. unfold descending. intros; lia.
Qed.

Lemma sort_sorted (l : list A) : StronglySorted (descending score) (sort cmp l).
Proof.
  induction l as [|a l IH]; simpl; [constructor | now apply sortInsert_sorted].
Qed.

(** A sequence that is already in descending order is left as it is. *)
Lemma sort_of_sorted (l : list A) :
  StronglySorted (descending score) l -> sort cmp l = l.
Proof.
  induction 1 as [|a l Hl IH Ha]; simpl; [reflexivity|].
  rewrite IH. destruct l as [|b l]; [reflexivity|]. simpl.
  inversion Ha as [|? ? Hab _]; subst. unfold descending in Hab. unfold cmp.
  now replace (0 <? score b - score a)%Z with false by lia.
Qed.

Lemma sort_idempotent (l : list A) : sort cmp (sort cmp l) = sort cmp l.
Proof. apply sort_of_sorted, sort_sorted. Qed.

(** The sort is stable: records of equal score keep their order. *)
Lemma sortInsert_stable (k : Z) (a : A) (l : list A) :
  StronglySorted (descending score) l ->
  filter (fun x => (score x =? k)%Z) (sortInsert cmp a l)
  = filter (fun x => (score x =? k)%Z) (a :: l).
Proof.
  induction 1 as [|b l Hl IH Hb]; [reflexivity|].
  cbn [sortInsert]. destruct (0 <? cmp a b)%Z eqn:E; [|reflexivity].
  unfold cmp in E. cbn [filter] in *. rewrite IH.
  destruct (score a =? k)%Z eqn:Ea, (score b =? k)%Z eqn:Eb; try reflexivity.
  lia.
Qed.

Lemma sort_stable (k : Z) (l : list A) :
  filter (fun x => (score x =? k)%Z) (sort cmp l)
  = filter (fun x => (score x =? k)%Z) l.
Proof.
  induction l as [|a l IH]; [reflexivity|].
  cbn [sort]. rewrite sortInsert_stable by apply sort_sorted.
  cbn [filter]. now rewrite IH.
Qed.

(** Descending order and stability leave one possible outcome, so every
    stable sort with this comparator returns what [sort] returns. *)
Lemma stable_sorted_unique (l1 l2 : list A) :
  StronglySorted (descending score) l1 ->
  StronglySorted (descending score) l2 ->
  (forall k, filter (fun x => (score x =? k)%Z) l1
             = filter (fun x => (score x =? k)%Z) l2) ->
  l1 = l2.
Proof.
  intros H1; revert l2.
  induction H1 as [|a l1 Hl1 IH Ha]; intros l2 H2 Hf.
  - destruct l2 as [|b l2]; [reflexivity|].
    specialize (Hf (score b)). cbn [filter] in Hf.
    rewrite Z.eqb_refl in Hf. discriminate.
  - destruct H2 as [|b l2 Hl2 Hb].
    + specialize (Hf (score a)). cbn [filter] in Hf.
      rewrite Z.eqb_refl in Hf. discriminate.
    + assert (Hsame : score a = score b).
      { pose proof (Hf (score a)) as Fa. pose proof (Hf (score b)) as Fb.
        cbn [filter] in Fa, Fb. rewrite Z.eqb_refl in Fa, Fb.
        destruct (score b =? score a)%Z eqn:Eba; [lia|].
        destruct (score a =? score b)%Z eqn:Eab; [lia|].
        assert (Ina : In a (filter (fun x => (score x =? score a)%Z) l2))
          by (rewrite <- Fa; now left).
        assert (Inb : In b (filter (fun x => (score x =? score b)%Z) l1))
          by (rewrite Fb; now left).
        apply filter_In in Ina as [Ina _]. apply filter_In in Inb as [Inb _].
        rewrite Forall_forall in Ha, Hb.
        specialize (Ha _ Inb). specialize (Hb _ Ina).
        unfold descending in Ha, Hb. lia. }
      assert (a = b).
      { specialize (Hf (score a)). cbn [filter] in Hf.
        rewrite <- Hsame, Z.eqb_refl in Hf. now injection Hf. }
      subst b. f_equal. apply IH; [exact Hl2|].
      intros k. specialize (Hf k). cbn [filter] in Hf.
      destruct (score a =? k)%Z; [now injection Hf | exact Hf].
Qed.

End Ranking.

(** C8.  For every list of records, ranking it gives a permutation of the
    list, in non-increasing order of the importance score of the paths,
    and ranking the ranked list again changes nothing.  Local ingestion
    returns such a ranking: the output of [analyzeLocalFolder] is a
    permutation of the records its walk collected, is in non-increasing
    order of the score, and is left as it is by ranking it again. *)
Theorem ranking_sorted_permutation_idempotent :
  (forall files : list FileInfo,
     let ranked := sort byImportance files in
     Permutation files ranked /\
     StronglySorted
       (fun a b => (getFileImportanceScore (path b) <= getFileImportanceScore (path a))%Z)
       ranked /\
     sort byImportance ranked = ranked) /\
  (forall root : FsNode,
     let collected := walkDirectory 0 [] root [] in
     let ranked := analyzeLocalFolder root in
     Permutation collected ranked /\
     StronglySorted
       (fun a b => (getFileImportanceScore (path b) <= getFileImportanceScore (path a))%Z)
       ranked /\
     sort byImportance ranked = ranked).
Proof.
  cbv zeta. split; [intros files | intros root; unfold analyzeLocalFolder];
    (split; [|split]).
  - exact (sort_perm importance files).
  - exact (sort_sorted importance files).
  - exact (sort_idempotent importance files).
  - exact (sort_perm importance _).
  - exact (sort_sorted importance _).
  - exact (sort_idempotent importance _).
Qed.

(** ** The skip rule of local ingestion *)

(** Induction on what the file system shows, with the hypothesis
    available for every entry of a directory. *)
Lemma FsNode_entries_ind (P : FsNode -> Prop) :
  (forall size data, P (FsFile size data)) ->
  (forall items, Forall (fun entry => P (snd entry)) items -> P (FsDir (Ok items))) ->
  (forall e, P (FsDir (Throw e))) ->
  P FsOther ->
  (forall e, P (FsNoStat e)) ->
  forall node, P node.
Proof.
  intros Hfile Hdir Hnodir Hother Hnostat.
  fix IH 1. intros [size data | [items | e] | | e].
  - apply Hfile.
  - apply Hdir. induction items as [|[item child] rest IHrest].
    + constructor.
    + constructor; [exact (IH child) | exact IHrest].
  - apply Hnodir.
  - apply Hother.
  - apply Hnostat.
Qed.

(** What holds of every record the walk pushes holds of every record it
    returns.  [Q rel] is a property of the records found below [rel]. *)
Lemma walkDirectory_records (Q : jsstring -> FileInfo -> Prop) :
  (forall rel item size data content,
     shouldSkipPath (relativeTo rel item) = false ->
     shouldIncludeFile item size = true ->
     readFileContent data = Some content ->
     Q rel (mkFileInfo (relativeTo rel item) content (detectLanguage item) size)) ->
  (forall rel item r,
     shouldSkipPath (relativeTo rel item) = false ->
     Q (relativeTo rel item) r -> Q rel r) ->
  forall node depth rel files r,
    In r (walkDirectory depth rel node files) -> In r files \/ Q rel r.
Proof.
  intros Hpush Hdown.
  induction node as [size data | items IHitems | e | | e] using FsNode_entries_ind;
    intros depth rel files r Hin;
    try (destruct depth as [|[|[|[|[|[|[|[|[|[|[|d]]]]]]]]]]]; now left).
  cbn [walkDirectory] in Hin.
  destruct (10 <? depth)%nat; [now left|].
  revert files Hin.
  induction IHitems as [|[item child] rest IHchild _ IHrest]; intros files Hin.
  - now left.
  - cbn [snd] in IHchild.
    destruct (shouldSkipPath (relativeTo rel item)) eqn:Hskip; [exact (IHrest _ Hin)|].
    destruct child as [size data | listing | | e].
    + destruct (shouldIncludeFile item size) eqn:Hincl; [|exact (IHrest _ Hin)].
      destruct (readFileContent data) as [content|] eqn:Hread; [|exact (IHrest _ Hin)].
      destruct (IHrest _ Hin) as [Hold | HQ]; [|now right].
      apply in_app_or in Hold as [Hold | [<- | []]]; [now left|].
      right. exact (Hpush _ _ _ _ _ Hskip Hincl Hread).
    + destruct (IHrest _ Hin) as [Hold | HQ]; [|now right].
      destruct (IHchild _ _ _ _ Hold) as [Hfiles | HQ]; [now left|].
      right. exact (Hdown _ _ _ Hskip HQ).
    + exact (IHrest _ Hin).
    + now left.
Qed.

(** Every record of the walk lies on a chain of entries that the skip
    rule lets pass, its own path last. *)
Lemma walkDirectory_visited (node : FsNode) (depth : nat) (rel : jsstring)
    (files : list FileInfo) (r : FileInfo) :
  In r (walkDirectory depth rel node files) ->
  In r files \/ (Visited rel (path r) /\ shouldSkipPath (path r) = false).
Proof.
  apply (walkDirectory_records
           (fun rel r => Visited rel (path r) /\ shouldSkipPath (path r) = false)).
  - intros rel0 item size data content Hskip _ _. cbn [path].
    split; [now constructor | exact Hskip].
  - intros rel0 item r0 Hskip [Hv Hs]. split; [|exact Hs].
    now apply visited_below with item.
Qed.

Lemma some_exists {A : Type} (f : A -> bool) (l : list A) :
  some f l = true <-> exists x, In x l /\ f x = true.
Proof. apply existsb_exists. Qed.

Lemma shouldSkipPath_spec (relativePath : jsstring) :
  shouldSkipPath relativePath = true <->
  (exists fragment, In fragment skipPatterns /\ includes relativePath fragment = true)
  \/ (exists rest, relativePath = 46%N :: rest).
Proof.
  unfold shouldSkipPath. rewrite some_exists. split.
  - intros (pattern & Hin & H). apply orb_true_iff in H as [H | H].
    + left; eauto.
    + right. destruct relativePath as [|c rest]; [discriminate|].
      change (js ".") with [46%N] in H. cbn [startsWith] in H.
      apply andb_true_iff in H as [H _]. apply N.eqb_eq in H.
      subst c. eauto.
  - intros [(fragment & Hin & H) | (rest & ->)].
    + exists fragment. split; [exact Hin|]. now rewrite H.
    + exists (js "node_modules"). split; [now left|].
      apply orb_true_iff. right. reflexivity.
Qed.

(** C10.  [shouldSkipPath] holds of a relative path exactly when the path
    contains one of the deny-list fragments somewhere, or its first
    character is a dot.  Hence no record of local ingestion has a path
    containing a fragment (none for [template.ts], which contains [temp])
    and each is reached through entries that are not skipped, while
    [src/.hidden] is not skipped and a file below it is ingested. *)
Theorem skip_rule_is_substring_or_leading_dot :
  (forall relativePath,
     shouldSkipPath relativePath = true <->
     (exists fragment,
        In fragment skipPatterns /\ includes relativePath fragment = true)
     \/ (exists rest, relativePath = 46%N :: rest)) /\
  (forall root r,
     In r (analyzeLocalFolder root) ->
     Visited [] (path r) /\
     forall fragment, In fragment skipPatterns -> includes (path r) fragment = false) /\
  (forall size data,
     analyzeLocalFolder (FsDir (Ok [(js "template.ts", FsFile size data)])) = []) /\
  shouldSkipPath (js "src/.hidden") = false /\
  analyzeLocalFolder
    (FsDir (Ok [(js "src",
                 FsDir (Ok [(js ".hidden",
                             FsDir (Ok [(js "a.ts", FsFile 5 (Ok (js "let x")))]))]))]))
  = [mkFileInfo (js "src/.hidden/a.ts") (js "let x") (js "typescript") 5].
Proof.
  split; [exact shouldSkipPath_spec|]. split; [|split; [|split]].
  - intros root r Hin. unfold analyzeLocalFolder in Hin.
    apply (Permutation_in _ (Permutation_sym (sort_perm importance _))) in Hin.
    apply walkDirectory_visited in Hin as [[] | [Hvisited Hskip]].
    split; [exact Hvisited|]. intros fragment Hfrag.
    destruct (includes (path r) fragment) eqn:E; [|reflexivity].
    assert (shouldSkipPath (path r) = true) by (apply shouldSkipPath_spec; eauto).
    congruence.
  - reflexivity.
  - reflexivity.
  - reflexivity.
Qed.

(** ** Truncation and binary detection on the two ingestion paths *)

Lemma truncated_length (content : jsstring) :
  (JS.length (substring0 content truncateAt ++ truncationMarker) <= contentBound)%Z.
Proof.
  unfold contentBound, JS.length, substring0.
  rewrite length_app, length_firstn.
  change (List.length truncationMarker) with 16%nat.
  unfold truncateAt. lia.
Qed.

(** The comparison [count > length * 0.1] of the source is made on
    doubles.  On every length up to 200 it decides as the exact
    [10 * count > length] does. *)
Example binary_threshold_is_one_tenth :
  forallb (fun len =>
             forallb (fun count =>
                        Bool.eqb
                          (PrimFloat.ltb (toFloat (Z.of_nat len) * 0.1)%float
                                         (toFloat (Z.of_nat count)))
                          (Z.of_nat len <? 10 * Z.of_nat count)%Z)
                     (seq 0 (S len)))
          (seq 0 201) = true.
Proof. vm_compute. reflexivity. Qed.

(** Whatever the local path returns is within the bound. *)
Lemma readFileContent_bounded (read : Outcome jsstring) (content : jsstring) :
  readFileContent read = Some content ->
  (JS.length content <= contentBound)%Z.
Proof.
  unfold readFileContent. destruct read as [c|e]; [|discriminate].
  destruct (JS.length c >? truncateAt)%Z eqn:Hlen.
  - intros [= <-]. apply truncated_length.
  - destruct (isBinaryContent c); [discriminate|].
    intros [= <-]. unfold contentBound.
    change (JS.length truncationMarker) with 16%Z. lia.
Qed.

(** Whatever the remote path returns is within the bound, and comes from a
    decoded text that the heuristic does not classify as binary. *)
Lemma fetchGithubFileContent_sound
    (net : Network) (owner repo sha : jsstring) (pat : option jsstring)
    (content : jsstring) :
  fetchGithubFileContent net owner repo sha pat = Some content ->
  (JS.length content <= contentBound)%Z /\
  exists decoded,
    isBinaryContent decoded = false /\
    (content = decoded \/
     content = substring0 decoded truncateAt ++ truncationMarker).
Proof.
  unfold fetchGithubFileContent.
  destruct (fetchBlob net _ _) as [response|e]; [|discriminate].
  destruct (negb (ok (blob_status response))); [discriminate|].
  destruct (blob_data response) as [data|e]; [|discriminate].
  destruct (JS.eqb (encoding data) (js "base64")); [|discriminate].
  destruct (isBinaryContent (text data)) eqn:Hbin; [discriminate|].
  destruct (JS.length (text data) >? truncateAt)%Z eqn:Hlen; intros [= <-].
  - split; [apply truncated_length|]. exists (text data); auto.
  - split; [|exists (text data); auto].
    unfold contentBound. change (JS.length truncationMarker) with 16%Z. lia.
Qed.

(** On the local path the check is made only on texts that are not
    truncated. *)
Lemma readFileContent_short_not_binary (content result : jsstring) :
  (JS.length content <= truncateAt)%Z ->
  readFileContent (Ok content) = Some result ->
  result = content /\ isBinaryContent content = false.
Proof.
  unfold readFileContent. intros Hlen.
  replace (JS.length content >? truncateAt)%Z with false by lia.
  destruct (isBinaryContent content); [discriminate|].
  intros [= <-]; auto.
Qed.

(** The two paths agree on every decoded text that is short enough not
    to be truncated, and on every text that is not classified binary. *)
Lemma ingestion_paths_agree
    (treeResponse : TreeResponse) (owner repo sha : jsstring)
    (pat : option jsstring) (content : jsstring) :
  (JS.length content <= truncateAt)%Z \/ isBinaryContent content = false ->
  fetchGithubFileContent (serving treeResponse content) owner repo sha pat
  = readFileContent (Ok content).
Proof.
  unfold fetchGithubFileContent, readFileContent, serving.
  cbn [fetchBlob blob_status blob_data encoding text].
  change (negb (ok 200)) with false. change (JS.eqb (js "base64") (js "base64")) with true.
  cbv iota.
  intros [Hlen | Hbin].
  - replace (JS.length content >? truncateAt)%Z with false by lia.
    destruct (isBinaryContent content); reflexivity.
  - rewrite Hbin. reflexivity.
Qed.

(** A text longer than the bound is truncated by the local path without
    being tested. *)
Lemma readFileContent_long (content : jsstring) :
  (JS.length content >? truncateAt)%Z = true ->
  readFileContent (Ok content)
  = Some (substring0 content truncateAt ++ truncationMarker).
Proof. unfold readFileContent. now intros ->. Qed.

(** Local ingestion of a folder that holds one eligible file. *)
Lemma analyzeLocalFolder_single_file
    (item : jsstring) (size : Z) (data : Outcome jsstring) (content : jsstring) :
  shouldSkipPath item = false ->
  shouldIncludeFile item size = true ->
  readFileContent data = Some content ->
  analyzeLocalFolder (FsDir (Ok [(item, FsFile size data)]))
  = [mkFileInfo item content (detectLanguage item) size].
Proof.
  intros Hskip Hincl Hread. unfold analyzeLocalFolder.
  cbn [walkDirectory Nat.ltb Nat.leb relativeTo].
  rewrite Hskip, Hincl, Hread. reflexivity.
Qed.

(** Every record of local ingestion is within the bound, and is either a
    truncated text or a text not classified as binary. *)
Lemma analyzeLocalFolder_records (root : FsNode) (r : FileInfo) :
  In r (analyzeLocalFolder root) ->
  (JS.length (content r) <= contentBound)%Z /\
  ((exists original,
      (JS.length original >? truncateAt)%Z = true /\
      content r = substring0 original truncateAt ++ truncationMarker)
   \/ isBinaryContent (content r) = false).
Proof.
  unfold analyzeLocalFolder. intros Hin.
  apply (Permutation_in _ (Permutation_sym (sort_perm importance _))) in Hin.
  apply (walkDirectory_records
           (fun _ r =>
              (JS.length (content r) <= contentBound)%Z /\
              ((exists original,
                  (JS.length original >? truncateAt)%Z = true /\
                  content r = substring0 original truncateAt ++ truncationMarker)
               \/ isBinaryContent (content r) = false))) in Hin.
  - destruct Hin as [[] | H]; exact H.
  - intros rel item size data text _ _ Hread. cbn [content].
    split; [exact (readFileContent_bounded _ _ Hread)|].
    unfold readFileContent in Hread. destruct data as [c|e]; [|discriminate].
    destruct (JS.length c >? truncateAt)%Z eqn:Hlen.
    + injection Hread as <-. left. eauto.
    + destruct (isBinaryContent c) eqn:Hbin; [discriminate|].
      injection Hread as <-. now right.
  - intros rel item r0 _ H. exact H.
Qed.

Lemma nonNull_In {A : Type} (results : list (option A)) (a : A) :
  In a (nonNull results) <-> In (Some a) results.
Proof.
  induction results as [|[x|] rest IH]; cbn [nonNull In].
  - tauto.
  - rewrite IH. split; intros [H | H]; auto; [left; congruence | injection H; auto].
  - rewrite IH. split; [auto | intros [H | H]; [discriminate | auto]].
Qed.

(** Every record of remote ingestion is within the bound and comes from a
    decoded text that is not classified as binary. *)
Lemma analyzeGithubRepo_records
    (net : Network) (repoUrl : jsstring) (pat : option jsstring)
    (files : list FileInfo) (r : FileInfo) :
  analyzeGithubRepo net repoUrl pat = Ok files ->
  In r files ->
  (JS.length (content r) <= contentBound)%Z /\
  exists decoded,
    isBinaryContent decoded = false /\
    (content r = decoded \/
     content r = substring0 decoded truncateAt ++ truncationMarker).
Proof.
  unfold analyzeGithubRepo.
  destruct (matchRepoUrl repoUrl) as [[owner repo]|].
  2:{ cbn [message]. destruct (includes _ _); [discriminate|].
      destruct (_ || _); discriminate. }
  destruct (fetchGithubRepoContents _ _ _ _) as [fs|e] eqn:Hfetch.
  2:{ destruct (includes _ _); [discriminate|]. destruct (_ || _); discriminate. }
  intros [= <-] Hin. unfold fetchGithubRepoContents in Hfetch.
  destruct (fetchTree net _ _) as [response|e]; [|discriminate].
  destruct (negb (ok (tree_status response))); [discriminate|].
  destruct (tree response) as [items|e]; [|discriminate].
  injection Hfetch as <-.
  apply (Permutation_in _ (Permutation_sym (sort_perm importance _))) in Hin.
  apply nonNull_In, in_map_iff in Hin as (item & Hitem & _).
  destruct (fetchGithubFileContent net owner _ (item_sha item) pat) as [text|] eqn:Hget;
    [|discriminate].
  injection Hitem as <-. cbn [content].
  exact (fetchGithubFileContent_sound _ _ _ _ _ _ Hget).
Qed.

(** C1: the code at a file of 50,001 zero bytes.  The decoded text is
    classified binary, yet the local path truncates before it tests, and
    returns the first 50,000 characters with the marker; local ingestion
    of a folder holding that file yields a record with that content, which
    the heuristic again classifies as binary. *)
Theorem local_ingestion_keeps_long_binary :
  let kept := substring0 nulText truncateAt ++ truncationMarker in
  isBinaryContent nulText = true /\
  readFileContent (Ok nulText) = Some kept /\
  analyzeLocalFolder (FsDir (Ok [(js "dump.txt", FsFile 50001 (Ok nulText))]))
  = [mkFileInfo (js "dump.txt") kept (js "unknown") 50001] /\
  JS.length kept = 50016%Z /\
  JS.length (filter isControlUnit kept) = 50000%Z /\
  isBinaryContent kept = true.
Proof.
  assert (Hlong : (JS.length nulText >? truncateAt)%Z = true) by (vm_compute; reflexivity).
  cbv zeta. split; [vm_compute; reflexivity|].
  split; [exact (readFileContent_long _ Hlong)|].
  split; [|repeat split; vm_compute; reflexivity].
  change (js "unknown") with (detectLanguage (js "dump.txt")).
  apply analyzeLocalFolder_single_file;
    [vm_compute; reflexivity | vm_compute; reflexivity |].
  exact (readFileContent_long _ Hlong).
Qed.

(** C2: the code at the same text.  The remote path drops it as binary;
    the local path returns its truncated form. *)
Theorem ingestion_paths_differ_on_long_binary :
  fetchGithubFileContent (serving (emptyTree 200 []) nulText)
    (js "owner") (js "repo") (js "sha") None = None /\
  readFileContent (Ok nulText)
  = Some (substring0 nulText truncateAt ++ truncationMarker).
Proof.
  split; [vm_compute; reflexivity|].
  apply readFileContent_long. vm_compute; reflexivity.
Qed.

(** ** Classification of a failed tree listing *)

(** A pattern without the separating character occurs in [a sep b] only
    inside [a] or inside [b]. *)
Lemma startsWith_app_sep (sep : N) (p x b : jsstring) :
  existsb (N.eqb sep) p = false ->
  p <> [] ->
  startsWith (x ++ sep :: b) p = startsWith x p.
Proof.
  intros Hsep. revert x. induction p as [|q p IH]; intros x Hp; [congruence|].
  cbn [existsb] in Hsep. apply orb_false_iff in Hsep as [Hq Hrest].
  destruct x as [|c x]; cbn [app startsWith].
  - rewrite N.eqb_sym, Hq. reflexivity.
  - destruct p as [|q' p'].
    + now rewrite !startsWith_nil.
    + rewrite IH by (assumption || discriminate). reflexivity.
Qed.

Lemma includes_app_sep (sep : N) (p a b : jsstring) :
  existsb (N.eqb sep) p = false ->
  p <> [] ->
  includes (a ++ sep :: b) p = includes a p || includes b p.
Proof.
  intros Hsep Hp. induction a as [|c a IH].
  - cbn [app]. rewrite (includes_eq (sep :: b)), (includes_eq []).
    change (sep :: b) with ([] ++ sep :: b) at 1.
    rewrite startsWith_app_sep by assumption.
    destruct p; [congruence | reflexivity].
  - cbn [app]. rewrite (includes_eq (c :: a ++ sep :: b)), (includes_eq (c :: a)).
    change (c :: a ++ sep :: b) with ((c :: a) ++ sep :: b).
    rewrite startsWith_app_sep by assumption.
    rewrite IH. now rewrite orb_assoc.
Qed.

(** In the message of a failed listing a status code can only be found
    in the digits of the status or in the status text. *)
Lemma errorMessage_includes (status : Z) (statusText code : jsstring) :
  existsb (N.eqb 32) code = false ->
  code <> [] ->
  includes (js "GitHub API error:") code = false ->
  includes (js "GitHub API error: " ++ ofNumber status ++ js " " ++ statusText) code
  = includes (ofNumber status) code || includes statusText code.
Proof.
  intros Hsp Hne Hpre.
  change (js "GitHub API error: " ++ ofNumber status ++ js " " ++ statusText)
    with (js "GitHub API error:" ++ 32%N :: (ofNumber status ++ 32%N :: statusText)).
  rewrite !includes_app_sep by assumption. now rewrite Hpre.
Qed.

(** The digits of a three-digit status contain a three-digit code only
    when the status is that code. *)
Lemma status_digits (status : Z) :
  (100 <= status <= 999)%Z ->
  includes (ofNumber status) (js "404") = (status =? 404)%Z /\
  includes (ofNumber status) (js "401") = (status =? 401)%Z /\
  includes (ofNumber status) (js "403") = (status =? 403)%Z.
Proof.
  intros Hrange.
  assert (Hall :
    forallb (fun k =>
               let s := (100 + Z.of_nat k)%Z in
               Bool.eqb (includes (ofNumber s) (js "404")) (s =? 404)%Z
               && Bool.eqb (includes (ofNumber s) (js "401")) (s =? 401)%Z
               && Bool.eqb (includes (ofNumber s) (js "403")) (s =? 403)%Z)
            (seq 0 900) = true) by (vm_compute; reflexivity).
  rewrite forallb_forall in Hall.
  specialize (Hall (Z.to_nat (status - 100))).
  replace (100 + Z.of_nat (Z.to_nat (status - 100)))%Z with status in Hall by lia.
  cbv zeta in Hall.
  assert (Hin : In (Z.to_nat (status - 100)) (seq 0 900)) by (apply in_seq; lia).
  apply Hall in Hin. apply andb_true_iff in Hin as [Hin H3].
  apply andb_true_iff in Hin as [H1 H2].
  apply eqb_prop in H1, H2, H3. auto.
Qed.

(** C5, as amended.  When the tree listing is answered with a non-success
    status, [analyzeGithubRepo] fails and produces no records.  Status 404
    gives the not-found error.  For a three-digit status and a status text
    in which none of the codes 404, 401, 403 occurs: 401 and 403 give the
    authentication error, and any other status gives the error of the
    failed request, whose message carries the status. *)
Theorem listing_failure_classified
    (net : Network) (repoUrl : jsstring) (pat : option jsstring)
    (owner repo : jsstring) (response : TreeResponse) :
  matchRepoUrl repoUrl = Some (owner, repo) ->
  fetchTree net (treeUrl owner (replace repo (js ".git") [])) (requestHeaders pat)
  = Ok response ->
  ok (tree_status response) = false ->
  let status := tree_status response in
  let statusText := tree_statusText response in
  let outcome := analyzeGithubRepo net repoUrl pat in
  (exists error, outcome = Throw error) /\
  (status = 404%Z -> outcome = Throw notFoundError) /\
  ((100 <= status <= 999)%Z ->
   includes statusText (js "404") = false ->
   includes statusText (js "401") = false ->
   includes statusText (js "403") = false ->
   (status = 401%Z \/ status = 403%Z -> outcome = Throw authenticationError) /\
   (status <> 404%Z -> status <> 401%Z -> status <> 403%Z ->
    outcome = Throw (mkError (js "GitHub API error: " ++ ofNumber status
                              ++ js " " ++ statusText)))).
Proof.
  intros Hurl Hfetch Hok. cbv zeta.
  unfold analyzeGithubRepo.
  rewrite Hurl. unfold fetchGithubRepoContents. rewrite Hfetch, Hok.
  cbn [negb message].
  set (status := tree_status response). set (statusText := tree_statusText response).
  rewrite !errorMessage_includes by (reflexivity || discriminate).
  split; [|split].
  - destruct (_ || _); [eauto|]. destruct (_ || _); eauto.
  - intros ->. reflexivity.
  - intros Hrange H404 H401 H403.
    destruct (status_digits status Hrange) as (D404 & D401 & D403).
    rewrite D404, D401, D403, H404, H401, H403, !orb_false_r.
    split.
    + intros [-> | ->]; reflexivity.
    + intros N404 N401 N403.
      now replace (status =? 404)%Z with false by lia;
        replace (status =? 401)%Z with false by lia;
        replace (status =? 403)%Z with false by lia.
Qed.

Lemma listing_failure_classified_witness :
  let outcome :=
    analyzeGithubRepo (serving (emptyTree 500 (js "Internal Server Error")) [])
      (js "https://github.com/octocat/hello-world.git") None in
  (exists error, outcome = Throw error) /\
  (500%Z = 404%Z -> outcome = Throw notFoundError) /\
  ((100 <= 500 <= 999)%Z ->
   includes (js "Internal Server Error") (js "404") = false ->
   includes (js "Internal Server Error") (js "401") = false ->
   includes (js "Internal Server Error") (js "403") = false ->
   (500%Z = 401%Z \/ 500%Z = 403%Z -> outcome = Throw authenticationError) /\
   (500%Z <> 404%Z -> 500%Z <> 401%Z -> 500%Z <> 403%Z ->
    outcome = Throw (mkError (js "GitHub API error: 500 Internal Server Error")))).
Proof.
  apply (listing_failure_classified
           (serving (emptyTree 500 (js "Internal Server Error")) [])
           (js "https://github.com/octocat/hello-world.git") None
           (js "octocat") (js "hello-world.git")
           (emptyTree 500 (js "Internal Server Error")));
    reflexivity.
Defined.

(** C5 as stated fails for a forbidden listing: status 403 is reported
    with the authentication error, not with the not-found error. *)
Lemma forbidden_listing_is_authentication_error :
  let outcome :=
    analyzeGithubRepo (serving (emptyTree 403 (js "Forbidden")) [])
      (js "https://github.com/octocat/private") None in
  ok 403 = false /\
  outcome = Throw authenticationError /\
  outcome <> Throw notFoundError.
Proof.
  split; [reflexivity|]. split; [reflexivity|].
  vm_compute. intros H. discriminate H.
Qed.

(** ** The staged pipeline *)

Lemma tryCatch_rethrow {A : Type} (c : M A) (tr : Trace) :
  tryCatch c (fun error => throw error) tr = c tr.
Proof. unfold tryCatch, throw. destruct (c tr) as [tr' [a|e]]; reflexivity. Qed.

Lemma bind_ok {A B : Type} (c : M A) (k : A -> M B) (tr tr' : Trace) (a : A) :
  c tr = (tr', Ok a) -> bind c k tr = k a tr'.
Proof. unfold bind. now intros ->. Qed.

Lemma bind_assoc {A B C : Type} (c : M A) (k1 : A -> M B) (k2 : B -> M C)
    (tr : Trace) :
  bind (bind c k1) k2 tr = bind c (fun a => bind (k1 a) k2) tr.
Proof. unfold bind. destruct (c tr) as [tr' [a|e]]; reflexivity. Qed.

Lemma bind_ext {A B : Type} (c : M A) (k k' : A -> M B) (tr : Trace) :
  (forall a tr', k a tr' = k' a tr') -> bind c k tr = bind c k' tr.
Proof.
  intros H. unfold bind. destruct (c tr) as [tr' [a|e]]; [apply H | reflexivity].
Qed.

Lemma bind_left {A B : Type} (c c' : M A) (k : A -> M B) (tr : Trace) :
  c tr = c' tr -> bind c k tr = bind c' k tr.
Proof. unfold bind. now intros ->. Qed.

(** [sendDocumentation] never rejects and reports nothing to the progress
    callback: it resolves to [true] or [false]. *)
Lemma sendDocumentation_total (svc : EmailAgent.Services)
    (recipient projectName technical functional : jsstring)
    (meta : option Metadata) (tr : Trace) :
  exists sent,
    EmailAgent.sendDocumentation svc recipient projectName technical functional meta tr
    = (tr, Ok sent).
Proof.
  unfold EmailAgent.sendDocumentation, EmailAgent.generateEmailContent,
    EmailAgent.createAttachments, EmailAgent.sendEmailViaGraph,
    tryCatch, bind, await, ret, throw.
  destruct (EmailAgent.analyze svc projectName recipient meta) as [response|?];
    [destruct (EmailAgent.parseJson svc response) as [parsed|?]|];
    (destruct (EmailAgent.graphClient svc) as [post|];
     [destruct (post _) as [[]|?]|]); eauto.
Qed.

(** The coordinator awaits the delivery and drops what it resolves to. *)
Lemma sendDocumentation_discarded (svc : EmailAgent.Services)
    (recipient projectName technical functional : jsstring)
    (meta : option Metadata) (tr : Trace) :
  bind (EmailAgent.sendDocumentation svc recipient projectName technical functional meta)
       (fun _ => ret tt) tr
  = (tr, Ok tt).
Proof.
  destruct (sendDocumentation_total svc recipient projectName technical functional
              meta tr) as [sent Hsent].
  now rewrite (bind_ok _ _ _ _ _ Hsent).
Qed.

(** When the Graph client rejects the message, it resolves to [false]. *)
Lemma sendDocumentation_rejected (svc : EmailAgent.Services)
    (post : EmailAgent.EmailOptions -> Outcome unit)
    (recipient projectName technical functional : jsstring)
    (meta : option Metadata) (tr : Trace) :
  EmailAgent.graphClient svc = Some post ->
  (forall options, exists error, post options = Throw error) ->
  EmailAgent.sendDocumentation svc recipient projectName technical functional meta tr
  = (tr, Ok false).
Proof.
  intros Hclient Hpost.
  unfold EmailAgent.sendDocumentation, EmailAgent.generateEmailContent,
    EmailAgent.createAttachments, EmailAgent.sendEmailViaGraph,
    tryCatch, bind, await, ret, throw.
  rewrite Hclient.
  destruct (EmailAgent.analyze svc projectName recipient meta) as [response|?];
    [destruct (EmailAgent.parseJson svc response) as [parsed|?]|];
    match goal with
    | |- context [post ?o] => destruct (Hpost o) as [err ->]
    end; reflexivity.
Qed.

Lemma deliveryRequested_some (options : DocumentationOptions) (c : N) (t : jsstring) :
  sendEmail options = Some true ->
  recipientEmail options = Some (c :: t) ->
  deliveryRequested options = Some (c :: t).
Proof. unfold deliveryRequested. now intros -> ->. Qed.

(** One step of a run: a call of a callback that never throws, and an
    awaited call whose outcome is known. *)
Ltac notified Hcb :=
  match goal with
  | |- context [bind (notify ?cb ?stage ?p) _ ?tr] =>
      let t := fresh "t" in
      let E := fresh "E" in
      destruct (Hcb stage p tr) as [t E];
      rewrite (bind_ok _ _ _ _ _ E); clear E
  end.

Ltac awaited H :=
  match goal with
  | |- context [bind (await ?o) _ ?tr] =>
      erewrite (bind_ok (await o) _ tr tr) by (unfold await; rewrite H; reflexivity)
  end.

Ltac delivered :=
  match goal with
  | |- context [bind (EmailAgent.sendDocumentation ?svc ?r ?p ?t ?f ?m) _ ?tr] =>
      let sent := fresh "sent" in
      let E := fresh "E" in
      destruct (sendDocumentation_total svc r p t f m tr) as [sent E];
      rewrite (bind_ok _ _ _ _ _ E); clear E
  end.

(** A run whose four generation stages succeed returns what
    [parseSpecifications] makes of the generated text, whether or not a
    delivery is requested and whatever becomes of it. *)
Lemma generateDocumentation_completes
    (agents : Agents) (files : list FileInfo) (projectInfo : ProjectInfo)
    (options : DocumentationOptions) (onProgress : option Callback)
    (code doc enhanced specifications : jsstring) (tr : Trace) :
  neverThrows onProgress ->
  codeAnalyzer agents files = Ok code ->
  docAnalyzer agents files = Ok doc ->
  generateText agents reviewSystemPrompt (reviewPrompt code doc) = Ok enhanced ->
  specGenerator agents (codeAnalysis (parseReview enhanced code doc))
    (docAnalysis (parseReview enhanced code doc)) projectInfo = Ok specifications ->
  exists tr',
    generateDocumentation agents files projectInfo options onProgress tr
    = (tr', Ok (parseSpecifications specifications files)).
Proof.
  intros Hcb Hcode Hdoc Hrev Hspec.
  unfold generateDocumentation. rewrite tryCatch_rethrow.
  notified Hcb. awaited Hcode.
  notified Hcb. awaited Hdoc.
  notified Hcb.
  erewrite (bind_ok _ _ _ _ (parseReview enhanced code doc))
    by (unfold reviewAnalysis; awaited Hrev; reflexivity).
  notified Hcb. awaited Hspec.
  notified Hcb. cbv zeta.
  destruct (deliveryRequested options) as [recipient|].
  - rewrite bind_assoc. notified Hcb. rewrite bind_assoc. delivered.
    rewrite (bind_ok _ _ _ _ tt) by reflexivity.
    notified Hcb. eexists. reflexivity.
  - rewrite (bind_ok _ _ _ _ tt) by reflexivity.
    notified Hcb. eexists. reflexivity.
Qed.

(** C6, as amended.  In a run with [sendEmail = true] and a recipient,
    whose generation stages succeed and whose delivery is rejected by the
    Graph client, [sendDocumentation] resolves to [false] and
    [generateDocumentation] still returns normally, with both documents.
    The result is what [parseSpecifications] computed: its metadata holds
    the file count, the languages, the frameworks and the architecture
    label, and nothing about the delivery. *)
Theorem delivery_failure_is_not_fatal
    (agents : Agents) (files : list FileInfo) (projectInfo : ProjectInfo)
    (options : DocumentationOptions) (onProgress : option Callback)
    (post : EmailAgent.EmailOptions -> Outcome unit)
    (recipient code doc enhanced specifications : jsstring) (tr : Trace) :
  neverThrows onProgress ->
  sendEmail options = Some true ->
  recipientEmail options = Some recipient ->
  recipient <> [] ->
  EmailAgent.graphClient (emailAgent agents) = Some post ->
  (forall message, exists error, post message = Throw error) ->
  codeAnalyzer agents files = Ok code ->
  docAnalyzer agents files = Ok doc ->
  generateText agents reviewSystemPrompt (reviewPrompt code doc) = Ok enhanced ->
  specGenerator agents (codeAnalysis (parseReview enhanced code doc))
    (docAnalysis (parseReview enhanced code doc)) projectInfo = Ok specifications ->
  let result := parseSpecifications specifications files in
  deliveryRequested options = Some recipient /\
  (forall tr0,
     EmailAgent.sendDocumentation (emailAgent agents) recipient (name projectInfo)
       (technicalSpec result) (functionalSpec result) (Some (metadata result)) tr0
     = (tr0, Ok false)) /\
  (exists tr',
     generateDocumentation agents files projectInfo options onProgress tr
     = (tr', Ok result)) /\
  metadata result
  = mkMetadata (Z.of_nat (List.length files)) (codeLanguages (metadata result))
      (frameworks (metadata result)) (js "Multi-tier").
Proof.
  intros Hcb Hsend Hrcpt Hne Hclient Hpost Hcode Hdoc Hrev Hspec. cbv zeta.
  split; [|split; [|split]].
  - destruct recipient as [|c t]; [congruence|].
    now apply deliveryRequested_some.
  - intros tr0. now apply sendDocumentation_rejected with post.
  - now apply generateDocumentation_completes with code doc enhanced.
  - reflexivity.
Qed.

Lemma observer_neverThrows : neverThrows (Some observer).
Proof. intros stage progress tr. eexists. reflexivity. Qed.

Lemma delivery_failure_is_not_fatal_witness :
  let result := parseSpecifications demoSpecifications [] in
  deliveryRequested withDelivery = Some (js "team@example.com") /\
  (forall tr0,
     EmailAgent.sendDocumentation failingMail (js "team@example.com") (js "demo")
       (technicalSpec result) (functionalSpec result) (Some (metadata result)) tr0
     = (tr0, Ok false)) /\
  (exists tr', demoRun failingMail = (tr', Ok result)) /\
  metadata result
  = mkMetadata 0 (codeLanguages (metadata result)) (frameworks (metadata result))
      (js "Multi-tier").
Proof.
  apply (delivery_failure_is_not_fatal (answering failingMail) [] demoProject
           withDelivery (Some observer)
           (fun _ => Throw (mkError (js "Graph API: 503 Service Unavailable")))
           (js "team@example.com") (js "code analysis") (js "doc analysis")
           (js "CODE ANALYSIS: improved") demoSpecifications []).
  - exact observer_neverThrows.
  - reflexivity.
  - reflexivity.
  - discriminate.
  - reflexivity.
  - intros message. eexists. reflexivity.
  - reflexivity.
  - reflexivity.
  - reflexivity.
  - reflexivity.
Defined.

(** C6 as stated fails: the run whose delivery failed and the run whose
    delivery succeeded return the same result, so nothing in the metadata
    tells them apart. *)
Lemma delivery_outcome_is_not_recorded :
  exists failed delivered : AnalysisResult,
    (forall tr0,
       EmailAgent.sendDocumentation failingMail (js "team@example.com") (js "demo")
         (technicalSpec failed) (functionalSpec failed) (Some (metadata failed)) tr0
       = (tr0, Ok false)) /\
    snd (demoRun failingMail) = Ok failed /\
    snd (demoRun silentMail) = Ok delivered /\
    ~ exists deliverySucceeded : Metadata -> bool,
        deliverySucceeded (metadata failed) = false /\
        deliverySucceeded (metadata delivered) = true.
Proof.
  exists (parseSpecifications demoSpecifications []),
         (parseSpecifications demoSpecifications []).
  split; [reflexivity|]. split; [reflexivity|]. split; [reflexivity|].
  intros (f & Hfalse & Htrue). congruence.
Qed.

(** The result of a run does not depend on the e-mail service at all. *)
Lemma generateDocumentation_ignores_delivery
    (code doc : list FileInfo -> Outcome jsstring)
    (gen : jsstring -> jsstring -> Outcome jsstring)
    (spec : jsstring -> jsstring -> ProjectInfo -> Outcome jsstring)
    (mail mail' : EmailAgent.Services)
    (files : list FileInfo) (projectInfo : ProjectInfo)
    (options : DocumentationOptions) (onProgress : option Callback) (tr : Trace) :
  generateDocumentation (mkAgents code doc gen spec mail) files projectInfo
    options onProgress tr
  = generateDocumentation (mkAgents code doc gen spec mail') files projectInfo
      options onProgress tr.
Proof.
  unfold generateDocumentation. rewrite !tryCatch_rethrow.
  unfold reviewAnalysis.
  cbn [codeAnalyzer docAnalyzer generateText specGenerator emailAgent].
  repeat (apply bind_ext; intros).
  apply bind_left. destruct (deliveryRequested options) as [recipient|]; [|reflexivity].
  apply bind_ext; intros [] t6.
  match goal with
  | |- context [EmailAgent.sendDocumentation mail ?r ?p ?t ?f ?m] =>
      destruct (sendDocumentation_total mail r p t f m t6) as [sent Hsent];
      destruct (sendDocumentation_total mail' r p t f m t6) as [sent' Hsent']
  end.
  rewrite (bind_ok _ _ _ _ _ Hsent), (bind_ok _ _ _ _ _ Hsent'). reflexivity.
Qed.

(** ** Progress reports *)

Import TechDocsGenerator.

(** The percentage the caller sees for a percentage of the coordinator. *)
Lemma rescaled_observer (stage : jsstring) (progress : float) (tr : Trace) :
  rescaled (Some observer) stage progress tr
  = (tr ++ [(stage, (10 + progress * 0.9)%float)], Ok tt).
Proof. reflexivity. Qed.

(** In a run of the coordinator that completes, the caller's callback
    receives the rescaled waypoints, in order, and nothing else. *)
Lemma generateDocumentation_progress
    (agents : Agents) (files : list FileInfo) (projectInfo : ProjectInfo)
    (options : DocumentationOptions) (tr tr' : Trace) (result : AnalysisResult) :
  generateDocumentation agents files projectInfo options
    (Some (rescaled (Some observer))) tr = (tr', Ok result) ->
  percentages tr'
  = percentages tr
    ++ map (fun p => (10 + p * 0.9)%float)
         (waypoints (match deliveryRequested options with
                     | Some _ => true
                     | None => false
                     end)).
Proof.
  unfold generateDocumentation. rewrite tryCatch_rethrow.
  unfold reviewAnalysis, notify.
  rewrite (bind_ok _ _ _ _ _ (rescaled_observer _ _ _)).
  unfold bind at 1, await at 1.
  destruct (codeAnalyzer agents files) as [code|e]; [|discriminate].
  rewrite (bind_ok _ _ _ _ _ (rescaled_observer _ _ _)).
  unfold bind at 1, await at 1.
  destruct (docAnalyzer agents files) as [doc|e]; [|discriminate].
  rewrite (bind_ok _ _ _ _ _ (rescaled_observer _ _ _)).
  unfold bind at 1 2, await at 1, ret at 1.
  destruct (generateText agents _ _) as [enhanced|e]; [|discriminate].
  rewrite (bind_ok _ _ _ _ _ (rescaled_observer _ _ _)).
  unfold bind at 1, await at 1.
  destruct (specGenerator agents _ _ _) as [specifications|e]; [|discriminate].
  rewrite (bind_ok _ _ _ _ _ (rescaled_observer _ _ _)).
  cbv zeta.
  destruct (deliveryRequested options) as [recipient|].
  - erewrite (bind_ok _ _ _ _ tt).
    2:{ rewrite (bind_ok _ _ _ _ _ (rescaled_observer _ _ _)).
        apply sendDocumentation_discarded. }
    rewrite (bind_ok _ _ _ _ _ (rescaled_observer _ _ _)).
    intros [= <- _]. unfold percentages.
    rewrite !map_app, <- !app_assoc. reflexivity.
  - rewrite (bind_ok _ _ _ _ tt) by reflexivity.
    rewrite (bind_ok _ _ _ _ _ (rescaled_observer _ _ _)).
    intros [= <- _]. unfold percentages.
    rewrite !map_app, <- !app_assoc. reflexivity.
Qed.

Lemma reported_monotone (delivery : bool) :
  StronglySorted nonDecreasing (reported delivery) /\
  last (reported delivery) 0%float = 100%float.
Proof.
  destruct delivery; (split; [|reflexivity]);
    repeat (constructor; try reflexivity).
Qed.

Lemma generateFromLocal_progress
    (agents : Agents) (folder : FsNode) (projectName : jsstring)
    (description : option jsstring) (options : DocumentationOptions)
    (tr : Trace) (result : AnalysisResult) :
  generateFromLocal agents folder projectName description options
    (Some observer) [] = (tr, Ok result) ->
  percentages tr = reported (requested options).
Proof.
  unfold generateFromLocal. rewrite tryCatch_rethrow. unfold notify.
  rewrite (bind_ok _ _ [] [(js "Analyzing local files...", 5%float)] tt) by reflexivity.
  rewrite (bind_ok _ _ _ _ (analyzeLocalFolder folder) eq_refl).
  erewrite (bind_ok _ _ _ _ tt) by reflexivity.
  unfold bind at 1.
  destruct (generateDocumentation _ _ _ _ _ _) as [t [r|e]] eqn:Hrun; [|discriminate].
  intros [= <- _]. apply generateDocumentation_progress in Hrun.
  exact Hrun.
Qed.

Lemma generateFromGithub_progress
    (agents : Agents) (net : Network) (repoUrl : jsstring) (pat : option jsstring)
    (projectName : jsstring) (description : option jsstring)
    (options : DocumentationOptions) (tr : Trace) (result : AnalysisResult) :
  generateFromGithub agents net repoUrl pat projectName description options
    (Some observer) [] = (tr, Ok result) ->
  percentages tr = reported (requested options).
Proof.
  unfold generateFromGithub. rewrite tryCatch_rethrow. unfold notify.
  rewrite (bind_ok _ _ [] [(js "Cloning repository...", 5%float)] tt) by reflexivity.
  unfold bind at 1, await.
  destruct (analyzeGithubRepo net repoUrl pat) as [files|e]; [|discriminate].
  erewrite (bind_ok _ _ _ _ tt) by reflexivity.
  unfold bind at 1.
  destruct (generateDocumentation _ _ _ _ _ _) as [t [r|e]] eqn:Hrun; [|discriminate].
  intros [= <- _]. apply generateDocumentation_progress in Hrun.
  exact Hrun.
Qed.

(** C9.  In every run that completes, started from the form handler with
    a callback that records what it is sent, the percentages sent are in
    non-decreasing order and the last one is exactly 100. *)
Theorem progress_monotone_ending_at_100
    (world : WebInterface.World) (formData : WebInterface.FormData)
    (tr : Trace) (result : AnalysisResult) :
  WebInterface.handleFormSubmission world (Some observer) formData []
  = (tr, Ok result) ->
  StronglySorted nonDecreasing (percentages tr) /\
  last (percentages tr) 0%float = 100%float.
Proof.
  unfold WebInterface.handleFormSubmission. rewrite tryCatch_rethrow. cbv zeta.
  intros Hrun.
  assert (exists delivery, percentages tr = reported delivery) as [delivery ->].
  { destruct (WebInterface.sourceType formData).
    - destruct (WebInterface.repoUrl formData) as [[|c u]|]; try discriminate.
      eexists. eapply generateFromGithub_progress. exact Hrun.
    - destruct (WebInterface.repoUrl formData) as [[|c u]|];
        (destruct (WebInterface.localPath formData) as [[|c' l]|]; try discriminate);
        eexists; eapply generateFromLocal_progress; exact Hrun. }
  apply reported_monotone.
Qed.

Lemma progress_monotone_ending_at_100_witness :
  let run := WebInterface.handleFormSubmission demoWorld (Some observer) localForm [] in
  percentages (fst run)
  = [5; 10; 23.5; 37; 55; 73; 86.5; 95.5; 100]%float /\
  StronglySorted nonDecreasing (percentages (fst run)) /\
  last (percentages (fst run)) 0%float = 100%float.
Proof.
  split; [reflexivity|].
  apply (progress_monotone_ending_at_100 demoWorld localForm
           (fst (WebInterface.handleFormSubmission demoWorld (Some observer) localForm []))
           (parseSpecifications demoSpecifications
              [mkFileInfo (js "README.md") (js "# demo") (js "markdown") 7])).
  reflexivity.
Defined.

(* ================================================================== *)
(** * Further properties of the code *)
(* ================================================================== *)

(** ** Ingestion: the walk *)

Lemma walkDirectory_deep (depth : nat) (rel : jsstring) (node : FsNode)
    (files : list FileInfo) :
  (10 < depth)%nat -> walkDirectory depth rel node files = files.
Proof.
  intros H. destruct node; cbn [walkDirectory];
    replace (10 <? depth)%nat with true by (symmetry; apply Nat.ltb_lt; exact H);
    reflexivity.
Qed.

(** The [for] loop, one entry at a time. *)
Lemma walkDirectory_cons (depth : nat) (rel item : jsstring) (child : FsNode)
    (rest : list (jsstring * FsNode)) (files : list FileInfo) :
  (depth <= 10)%nat ->
  walkDirectory depth rel (FsDir (Ok ((item, child) :: rest))) files =
  if shouldSkipPath (relativeTo rel item)
  then walkDirectory depth rel (FsDir (Ok rest)) files
  else
    match child with
    | FsNoStat _ => files
    | FsDir _ =>
        walkDirectory depth rel (FsDir (Ok rest))
          (walkDirectory (S depth) (relativeTo rel item) child files)
    | FsFile size data =>
        if shouldIncludeFile item size then
          match readFileContent data with
          | Some content =>
              walkDirectory depth rel (FsDir (Ok rest))
                (files ++ [mkFileInfo (relativeTo rel item) content
                             (detectLanguage item) size])
          | None => walkDirectory depth rel (FsDir (Ok rest)) files
          end
        else walkDirectory depth rel (FsDir (Ok rest)) files
    | FsOther => walkDirectory depth rel (FsDir (Ok rest)) files
    end.
Proof.
  intros H. cbn [walkDirectory].
  replace (10 <? depth)%nat with false by (symmetry; apply Nat.ltb_ge; exact H).
  reflexivity.
Qed.

Lemma walkDirectory_nil (depth : nat) (rel : jsstring) (files : list FileInfo) :
  walkDirectory depth rel (FsDir (Ok [])) files = files.
Proof. cbn [walkDirectory]. destruct (10 <? depth)%nat; reflexivity. Qed.

Lemma walkDirectory_appends_from (node : FsNode) :
  forall depth rel files,
    walkDirectory depth rel node files = files ++ walkDirectory depth rel node [].
Proof.
  induction node as [size data | items IHitems | e | | e] using FsNode_entries_ind;
    intros depth rel files;
    try (cbn [walkDirectory]; destruct (10 <? depth)%nat; now rewrite app_nil_r).
  destruct (Nat.le_gt_cases depth 10) as [Hd | Hd].
  2:{ rewrite !walkDirectory_deep by exact Hd. now rewrite app_nil_r. }
  revert files.
  induction IHitems as [|[item child] rest IHchild _ IHrest]; intros files.
  - rewrite !walkDirectory_nil. now rewrite app_nil_r.
  - cbn [snd] in IHchild. rewrite !walkDirectory_cons by exact Hd.
    destruct (shouldSkipPath (relativeTo rel item)); [apply IHrest|].
    destruct child as [size data | listing | | e].
    + destruct (shouldIncludeFile item size); [|apply IHrest].
      destruct (readFileContent data) as [content|]; [|apply IHrest].
      rewrite IHrest. rewrite (IHrest ([] ++ _)). now rewrite <- !app_assoc.
    + rewrite IHrest. rewrite (IHrest (walkDirectory _ _ _ [])).
      rewrite (IHchild _ _ files). now rewrite <- app_assoc.
    + apply IHrest.
    + now rewrite app_nil_r.
Qed.

(** X1.  The walk only appends: the records already collected are kept,
    in order, in front of what the walk finds. *)
Theorem walkDirectory_appends (depth : nat) (rel : jsstring) (node : FsNode)
    (files : list FileInfo) :
  walkDirectory depth rel node files = files ++ walkDirectory depth rel node [].
Proof. apply walkDirectory_appends_from. Qed.

Lemma walkDirectory_same_suffix (depth : nat) (rel : jsstring)
    (rest1 rest2 : list (jsstring * FsNode)) :
  (forall files, walkDirectory depth rel (FsDir (Ok rest1)) files
                 = walkDirectory depth rel (FsDir (Ok rest2)) files) ->
  forall before files,
    walkDirectory depth rel (FsDir (Ok (before ++ rest1))) files
    = walkDirectory depth rel (FsDir (Ok (before ++ rest2))) files.
Proof.
  intros Hrest.
  destruct (Nat.le_gt_cases depth 10) as [Hd | Hd].
  2:{ intros. now rewrite !walkDirectory_deep by exact Hd. }
  induction before as [|[item child] before IH]; intros files; [apply Hrest|].
  cbn [app]. rewrite !walkDirectory_cons by exact Hd.
  destruct (shouldSkipPath (relativeTo rel item)); [apply IH|].
  destruct child as [size data | listing | | e]; try apply IH; [|reflexivity].
  destruct (shouldIncludeFile item size); [|apply IH].
  destruct (readFileContent data); apply IH.
Qed.

(** X2.  An entry that yields nothing (an unreadable or binary file, a
    directory that cannot be listed, a socket) costs only itself: the
    walk of the directory is the walk of the directory without it. *)
Theorem unreadable_entry_costs_only_itself
    (depth : nat) (rel item : jsstring) (child : FsNode)
    (before after : list (jsstring * FsNode)) (files : list FileInfo) :
  yieldsNothing child = true ->
  walkDirectory depth rel (FsDir (Ok (before ++ (item, child) :: after))) files
  = walkDirectory depth rel (FsDir (Ok (before ++ after))) files.
Proof.
  intros Hchild. apply walkDirectory_same_suffix. clear files. intros files.
  destruct (Nat.le_gt_cases depth 10) as [Hd | Hd].
  2:{ now rewrite !walkDirectory_deep by exact Hd. }
  rewrite walkDirectory_cons by exact Hd.
  destruct (shouldSkipPath (relativeTo rel item)); [reflexivity|].
  destruct child as [size data | [items | e] | | e]; cbn in Hchild;
    try discriminate; try reflexivity.
  - destruct (readFileContent data); [discriminate|].
    destruct (shouldIncludeFile item size); reflexivity.
  - cbn [walkDirectory]. destruct (10 <? S depth)%nat; reflexivity.
Qed.

Lemma unreadable_entry_costs_only_itself_witness :
  analyzeLocalFolder sampleFolder
  = analyzeLocalFolder
      (FsDir (Ok [(js "src",
                   FsDir (Ok [(js "main.ts", FsFile 12 (Ok (js "let x = 1;")));
                              (js "broken.ts", FsFile 9 (Throw (mkError (js "EACCES"))))]));
                  (js "README.md", FsFile 7 (Ok (js "# demo")))])).
Proof.
  unfold analyzeLocalFolder. apply (f_equal (sort byImportance)).
  apply (unreadable_entry_costs_only_itself 0 [] (js "locked")
           (FsDir (Throw (mkError (js "EACCES"))))
           [(js "src",
             FsDir (Ok [(js "main.ts", FsFile 12 (Ok (js "let x = 1;")));
                        (js "broken.ts", FsFile 9 (Throw (mkError (js "EACCES"))))]))]
           [(js "README.md", FsFile 7 (Ok (js "# demo")))] []).
  reflexivity.
Defined.

(** X3.  An entry on which [fs.stat] fails ends the walk of its
    directory: the entries listed after it are not looked at.  (The
    directories above go on with their next entry.) *)
Theorem stat_failure_ends_the_directory
    (depth : nat) (rel item : jsstring) (e : Error)
    (before after : list (jsstring * FsNode)) (files : list FileInfo) :
  shouldSkipPath (relativeTo rel item) = false ->
  walkDirectory depth rel (FsDir (Ok (before ++ (item, FsNoStat e) :: after))) files
  = walkDirectory depth rel (FsDir (Ok before)) files.
Proof.
  intros Hskip. rewrite <- (app_nil_r before) at 2.
  apply walkDirectory_same_suffix. clear files. intros files.
  destruct (Nat.le_gt_cases depth 10) as [Hd | Hd].
  2:{ now rewrite !walkDirectory_deep by exact Hd. }
  rewrite walkDirectory_cons by exact Hd. rewrite Hskip.
  now rewrite walkDirectory_nil.
Qed.

Lemma stat_failure_ends_the_directory_witness :
  analyzeLocalFolder
    (FsDir (Ok [(js "a.ts", FsFile 1 (Ok (js "a")));
                (js "dangling", FsNoStat (mkError (js "ENOENT")));
                (js "README.md", FsFile 7 (Ok (js "# demo")))]))
  = analyzeLocalFolder (FsDir (Ok [(js "a.ts", FsFile 1 (Ok (js "a")))])).
Proof.
  unfold analyzeLocalFolder. apply (f_equal (sort byImportance)).
  apply (stat_failure_ends_the_directory 0 [] (js "dangling")
           (mkError (js "ENOENT")) [(js "a.ts", FsFile 1 (Ok (js "a")))]
           [(js "README.md", FsFile 7 (Ok (js "# demo")))] []).
  reflexivity.
Defined.

Lemma entryAt_later (entry : jsstring * FsNode) (rest : list (jsstring * FsNode))
    (names : list jsstring) (target : FsNode) :
  entryAt (FsDir (Ok rest)) names target ->
  entryAt (FsDir (Ok (entry :: rest))) names target.
Proof.
  intros H. inversion H; subst.
  - apply entry_here. now right.
  - eapply entry_below; [right; eassumption | assumption].
Qed.

(** Every record of a walk that starts at [depth] comes from a regular
    file of the tree, reached by a chain of entries that, counted from
    [depth], does not go beyond the eleventh level. *)
Lemma walkDirectory_chain (node : FsNode) :
  forall depth rel files r,
    In r (walkDirectory depth rel node files) ->
    In r files \/
    exists names data,
      (1 <= List.length names)%nat /\
      (List.length names + depth <= 11)%nat /\
      entryAt node names (FsFile (size r) data) /\
      path r = fold_left relativeTo names rel /\
      readFileContent data = Some (content r).
Proof.
  induction node as [size data | items IHitems | e | | e] using FsNode_entries_ind;
    intros depth rel files r Hin;
    try (cbn [walkDirectory] in Hin; destruct (10 <? depth)%nat; now left).
  destruct (Nat.le_gt_cases depth 10) as [Hd | Hd].
  2:{ rewrite walkDirectory_deep in Hin by exact Hd. now left. }
  revert files Hin.
  induction IHitems as [|[item child] rest IHchild _ IHrest]; intros files Hin.
  - rewrite walkDirectory_nil in Hin. now left.
  - cbn [snd] in IHchild. rewrite walkDirectory_cons in Hin by exact Hd.
    assert (Hlater : forall files',
               In r (walkDirectory depth rel (FsDir (Ok rest)) files') ->
               In r files' \/
               exists names data,
                 (1 <= List.length names)%nat /\
                 (List.length names + depth <= 11)%nat /\
                 entryAt (FsDir (Ok ((item, child) :: rest))) names
                   (FsFile (size r) data) /\
                 path r = fold_left relativeTo names rel /\
                 readFileContent data = Some (content r)).
    { intros files' H. destruct (IHrest _ H) as [Hold | (names & data & H1 & H2 & H3 & H4)];
        [now left|].
      right. exists names, data. repeat split; try tauto.
      now apply entryAt_later. }
    destruct (shouldSkipPath (relativeTo rel item)) eqn:Hskip; [exact (Hlater _ Hin)|].
    destruct child as [sz dat | listing | | e].
    + destruct (shouldIncludeFile item sz) eqn:Hincl; [|exact (Hlater _ Hin)].
      destruct (readFileContent dat) as [text|] eqn:Hread; [|exact (Hlater _ Hin)].
      destruct (Hlater _ Hin) as [Hold | Hnew]; [|now right].
      apply in_app_or in Hold as [Hold | [<- | []]]; [now left|].
      right. exists [item], dat. cbn [List.length fold_left path size content].
      repeat split; try lia; [|exact Hread].
      apply entry_here. now left.
    + destruct (Hlater _ Hin) as [Hold | Hnew]; [|now right].
      destruct (IHchild _ _ _ _ Hold)
        as [Hfiles | (names & data & H1 & H2 & H3 & H4 & H5)]; [now left|].
      right. exists (item :: names), data. cbn [List.length fold_left].
      repeat split; try lia; [|exact H4|exact H5].
      eapply entry_below; [now left | exact H3].
    + exact (Hlater _ Hin).
    + now left.
Qed.

(** X4.  The walk stops descending below the eleventh level: every
    record of local ingestion is a regular file of the folder that lies
    at most eleven entries below the root, its path is made of the names
    of those entries, and reading it gave the content. *)
Theorem local_records_at_most_eleven_levels (root : FsNode) (r : FileInfo) :
  In r (analyzeLocalFolder root) ->
  exists names data,
    (1 <= List.length names <= 11)%nat /\
    entryAt root names (FsFile (size r) data) /\
    path r = fold_left relativeTo names [] /\
    readFileContent data = Some (content r).
Proof.
  unfold analyzeLocalFolder. intros Hin.
  apply (Permutation_in _ (Permutation_sym (sort_perm importance _))) in Hin.
  apply walkDirectory_chain in Hin.
  destruct Hin as [[] | (names & data & H1 & H2 & H3 & H4 & H5)].
  exists names, data. repeat split; try assumption; lia.
Qed.

Lemma local_records_at_most_eleven_levels_witness :
  exists names data,
    (1 <= List.length names <= 11)%nat /\
    entryAt sampleFolder names (FsFile 12 data) /\
    js "src/main.ts" = fold_left relativeTo names [] /\
    readFileContent data = Some (js "let x = 1;").
Proof.
  apply (local_records_at_most_eleven_levels sampleFolder
           (mkFileInfo (js "src/main.ts") (js "let x = 1;") (js "typescript") 12)).
  vm_compute. tauto.
Defined.

(** The bound is met and not exceeded: a file eleven entries below the
    root is recorded, a file twelve entries below it is not. *)
Example eleventh_level_is_recorded :
  map path (analyzeLocalFolder (nested 11)) = [js "d/d/d/d/d/d/d/d/d/d/main.ts"].
Proof. vm_compute. reflexivity. Qed.

Example twelfth_level_is_not_recorded : analyzeLocalFolder (nested 12) = [].
Proof. vm_compute. reflexivity. Qed.

(** ** Ingestion: the remote listing *)

Lemma eqb_eq (a b : jsstring) : JS.eqb a b = true <-> a = b.
Proof.
  revert b; induction a as [|x a IH]; intros [|y b]; cbn [JS.eqb];
    try (split; [discriminate | congruence]); [tauto|].
  rewrite andb_true_iff, N.eqb_eq, IH. split; [intros [-> ->] | intros [= -> ->]]; auto.
Qed.

Lemma In_firstn {A : Type} (n : nat) (l : list A) (x : A) :
  In x (firstn n l) -> In x l.
Proof.
  intros H. rewrite <- (firstn_skipn n l). apply in_or_app. now left.
Qed.

(** What [analyzeGithubRepo] returns when it returns records. *)
Lemma analyzeGithubRepo_ok
    (net : Network) (repoUrl : jsstring) (pat : option jsstring)
    (files : list FileInfo) :
  analyzeGithubRepo net repoUrl pat = Ok files ->
  exists owner repo response items,
    matchRepoUrl repoUrl = Some (owner, repo) /\
    fetchTree net (treeUrl owner (replace repo (js ".git") [])) (requestHeaders pat)
    = Ok response /\
    ok (tree_status response) = true /\
    tree response = Ok items /\
    files = sort byImportance
              (nonNull (map (recordOf net owner (replace repo (js ".git") []) pat)
                            (selected items))).
Proof.
  unfold analyzeGithubRepo.
  destruct (matchRepoUrl repoUrl) as [[owner repo]|].
  2:{ cbn [message]. destruct (includes _ _); [discriminate|].
      destruct (_ || _); discriminate. }
  destruct (fetchGithubRepoContents _ _ _ _) as [fs|e] eqn:Hfetch.
  2:{ destruct (includes _ _); [discriminate|]. destruct (_ || _); discriminate. }
  intros [= <-]. unfold fetchGithubRepoContents in Hfetch.
  destruct (fetchTree net _ _) as [response|e] eqn:Htree; [|discriminate].
  destruct (ok (tree_status response)) eqn:Hok; [|discriminate].
  destruct (tree response) as [items|e] eqn:Hitems; [|discriminate].
  injection Hfetch as <-.
  exists owner, repo, response, items. repeat split; try assumption; reflexivity.
Qed.

(** Where a record of remote ingestion comes from. *)
Lemma remote_record_origin
    (net : Network) (repoUrl : jsstring) (pat : option jsstring)
    (files : list FileInfo) (r : FileInfo) :
  analyzeGithubRepo net repoUrl pat = Ok files ->
  In r files ->
  exists owner repo response items item content,
    matchRepoUrl repoUrl = Some (owner, repo) /\
    fetchTree net (treeUrl owner (replace repo (js ".git") [])) (requestHeaders pat)
    = Ok response /\
    tree response = Ok items /\
    In item items /\
    item_type item = js "blob" /\
    shouldIncludeGithubFile (item_path item) (numOr (item_size item) 0) = true /\
    fetchGithubFileContent net owner (replace repo (js ".git") []) (item_sha item) pat
    = Some content /\
    r = mkFileInfo (item_path item) content (detectLanguage (item_path item))
          (numOr (item_size item) (JS.length content)).
Proof.
  intros Hok Hin.
  destruct (analyzeGithubRepo_ok _ _ _ _ Hok)
    as (owner & repo & response & items & Hurl & Htree & _ & Hitems & ->).
  apply (Permutation_in _ (Permutation_sym (sort_perm importance _))) in Hin.
  apply nonNull_In, in_map_iff in Hin as (item & Hitem & Hsel).
  apply (In_firstn 100), filter_In in Hsel as [Hsel Hkeep].
  apply andb_true_iff in Hkeep as [Hblob Hincl]. apply eqb_eq in Hblob.
  unfold recordOf in Hitem.
  destruct (fetchGithubFileContent net owner _ (item_sha item) pat) as [text|] eqn:Hget;
    [|discriminate].
  injection Hitem as <-.
  exists owner, repo, response, items, item, text. repeat split; assumption.
Qed.

(** X5.  Every record, from either source, has a size of at most
    1 MiB. *)
Theorem ingested_size_at_most_one_mebibyte
    (source : Source) (files : list FileInfo) (r : FileInfo) :
  ingest source = Ok files ->
  In r files ->
  (size r <= 1048576)%Z.
Proof.
  destruct source as [root | net repoUrl pat]; cbn [ingest].
  - intros [= <-] Hin. unfold analyzeLocalFolder in Hin.
    apply (Permutation_in _ (Permutation_sym (sort_perm importance _))) in Hin.
    apply (walkDirectory_records (fun _ r => (size r <= 1048576)%Z)) in Hin.
    + destruct Hin as [[] | H]; exact H.
    + intros rel item sz data content _ Hincl _. cbn [size].
      unfold shouldIncludeFile in Hincl.
      destruct (sz >? maxFileSize)%Z eqn:Hsz; [discriminate|].
      unfold maxFileSize in Hsz. lia.
    + intros rel item r0 _ H. exact H.
  - intros Hok Hin.
    destruct (remote_record_origin _ _ _ _ _ Hok Hin)
      as (owner & repo & response & items & item & content
          & _ & _ & _ & _ & _ & Hincl & Hget & ->).
    cbn [size]. unfold shouldIncludeGithubFile in Hincl.
    destruct (numOr (item_size item) 0 >? maxFileSize)%Z eqn:Hsz; [discriminate|].
    unfold maxFileSize in Hsz.
    pose proof (proj1 (fetchGithubFileContent_sound _ _ _ _ _ _ Hget)) as Hlen.
    unfold contentBound, truncateAt in Hlen.
    change (JS.length truncationMarker) with 16%Z in Hlen.
    destruct (item_size item) as [[|p|p]|]; cbn [numOr] in *; lia.
Qed.

Lemma ingested_size_at_most_one_mebibyte_witness :
  (11 <= 1048576)%Z.
Proof.
  apply (ingested_size_at_most_one_mebibyte
           (FromGithub sampleNetwork sampleUrl None)
           [mkFileInfo (js "README.md") (js "content") (js "markdown") 7;
            mkFileInfo (js "src/app.ts") (js "content") (js "typescript") 11]
           (mkFileInfo (js "src/app.ts") (js "content") (js "typescript") 11)).
  - reflexivity.
  - right. left. reflexivity.
Defined.

Lemma nonNull_length {A : Type} (results : list (option A)) :
  (List.length (nonNull results) <= List.length results)%nat.
Proof.
  induction results as [|[a|] rest IH]; cbn [nonNull List.length]; lia.
Qed.

(** X6.  Remote ingestion returns at most 100 records, whatever the
    size of the listing. *)
Theorem remote_ingestion_at_most_100_records
    (net : Network) (repoUrl : jsstring) (pat : option jsstring)
    (files : list FileInfo) :
  analyzeGithubRepo net repoUrl pat = Ok files ->
  (List.length files <= 100)%nat.
Proof.
  intros Hok.
  destruct (analyzeGithubRepo_ok _ _ _ _ Hok)
    as (owner & repo & response & items & _ & _ & _ & _ & ->).
  rewrite <- (Permutation_length (sort_perm importance _)).
  eapply Nat.le_trans; [apply nonNull_length|].
  rewrite length_map. exact (firstn_le_length 100 _).
Qed.

Lemma remote_ingestion_at_most_100_records_witness :
  (List.length (filesOf (analyzeGithubRepo wideNetwork sampleUrl None)) <= 100)%nat.
Proof.
  apply (remote_ingestion_at_most_100_records wideNetwork sampleUrl None
           (filesOf (analyzeGithubRepo wideNetwork sampleUrl None))).
  vm_compute. reflexivity.
Defined.

(** X7.  Once the listing is obtained, no blob request can fail the run:
    remote ingestion returns, and its records are exactly those of the
    selected entries whose content was obtained. *)
Theorem blob_failures_are_not_fatal
    (net : Network) (repoUrl : jsstring) (pat : option jsstring)
    (owner repo : jsstring) (response : TreeResponse) (items : list TreeItem) :
  matchRepoUrl repoUrl = Some (owner, repo) ->
  fetchTree net (treeUrl owner (replace repo (js ".git") [])) (requestHeaders pat)
  = Ok response ->
  ok (tree_status response) = true ->
  tree response = Ok items ->
  exists files,
    analyzeGithubRepo net repoUrl pat = Ok files /\
    Permutation files
      (nonNull (map (recordOf net owner (replace repo (js ".git") []) pat)
                    (selected items))).
Proof.
  intros Hurl Htree Hok Hitems.
  unfold analyzeGithubRepo. rewrite Hurl.
  unfold fetchGithubRepoContents. rewrite Htree, Hok, Hitems. cbn [negb].
  eexists. split; [reflexivity|].
  apply Permutation_sym. exact (sort_perm importance _).
Qed.

Lemma blob_failures_are_not_fatal_witness :
  exists files,
    analyzeGithubRepo sampleNetwork sampleUrl None = Ok files /\
    Permutation files
      [mkFileInfo (js "src/app.ts") (js "content") (js "typescript") 11;
       mkFileInfo (js "README.md") (js "content") (js "markdown") 7].
Proof.
  apply (blob_failures_are_not_fatal sampleNetwork sampleUrl None
           (js "octocat") (js "demo")
           (mkTreeResponse 200 (js "OK") (Ok sampleListing)) sampleListing);
    reflexivity.
Defined.

(** X8.  A repository URL in which the pattern [github.com/owner/repo]
    does not occur is refused with the format error, whatever the
    network would answer. *)
Theorem malformed_url_is_refused
    (net : Network) (repoUrl : jsstring) (pat : option jsstring) :
  matchRepoUrl repoUrl = None ->
  analyzeGithubRepo net repoUrl pat
  = Throw (mkError (js "Invalid GitHub repository URL format")).
Proof.
  intros Hurl. unfold analyzeGithubRepo. rewrite Hurl. reflexivity.
Qed.

Lemma malformed_url_is_refused_witness :
  analyzeGithubRepo sampleNetwork (js "https://gitlab.com/octocat/demo") None
  = Throw (mkError (js "Invalid GitHub repository URL format")).
Proof.
  apply (malformed_url_is_refused sampleNetwork
           (js "https://gitlab.com/octocat/demo") None).
  reflexivity.
Defined.

(** Texts without a slash. *)
Lemma upToSlash_app (a b : jsstring) :
  forallb (fun c => negb (N.eqb c Path.slash)) a = true ->
  Path.upToSlash (a ++ Path.slash :: b) = a.
Proof.
  induction a as [|c a IH]; cbn [forallb app Path.upToSlash]; intros H.
  - now rewrite N.eqb_refl.
  - apply andb_true_iff in H as [Hc Ha]. apply negb_true_iff in Hc.
    now rewrite Hc, (IH Ha).
Qed.

Lemma upToSlash_whole (a : jsstring) :
  forallb (fun c => negb (N.eqb c Path.slash)) a = true ->
  Path.upToSlash a = a.
Proof.
  induction a as [|c a IH]; cbn [forallb Path.upToSlash]; intros H; [reflexivity|].
  apply andb_true_iff in H as [Hc Ha]. apply negb_true_iff in Hc.
  now rewrite Hc, (IH Ha).
Qed.

Lemma matchRepoUrl_eq (s : jsstring) :
  matchRepoUrl s =
  match
    (if startsWith s (js "github.com/") then
       let rest := skipn 11 s in
       let owner := Path.upToSlash rest in
       match owner, skipn (List.length owner) rest with
       | _ :: _, _ :: afterSlash =>
           match Path.upToSlash afterSlash with
           | [] => None
           | repo => Some (owner, repo)
           end
       | _, _ => None
       end
     else None), s
  with
  | Some m, _ => Some m
  | None, [] => None
  | None, _ :: s' => matchRepoUrl s'
  end.
Proof. destruct s; reflexivity. Qed.

Lemma matchRepoUrl_step (c : N) (s : jsstring) :
  N.eqb 103 c = false -> matchRepoUrl (c :: s) = matchRepoUrl s.
Proof.
  intros H. rewrite matchRepoUrl_eq.
  change (js "github.com/") with (103%N :: js "ithub.com/").
  cbn [startsWith]. rewrite H. reflexivity.
Qed.

(** X9.  The owner and the repository name are read back from a URL of
    the usual form, with or without further path segments. *)
Theorem matchRepoUrl_reads_owner_and_repo (owner repo rest : jsstring) :
  owner <> [] ->
  repo <> [] ->
  forallb (fun c => negb (N.eqb c Path.slash)) owner = true ->
  forallb (fun c => negb (N.eqb c Path.slash)) repo = true ->
  rest = [] \/ (exists t, rest = Path.slash :: t) ->
  matchRepoUrl (js "https://github.com/" ++ owner ++ js "/" ++ repo ++ rest)
  = Some (owner, repo).
Proof.
  intros Ho Hr So Sr Hrest.
  set (tail := owner ++ Path.slash :: repo ++ rest).
  change (js "https://github.com/" ++ owner ++ js "/" ++ repo ++ rest)
    with (104 :: 116 :: 116 :: 112 :: 115 :: 58 :: 47 :: 47
          :: js "github.com/" ++ tail)%N.
  rewrite !matchRepoUrl_step by reflexivity.
  rewrite matchRepoUrl_eq.
  replace (startsWith (js "github.com/" ++ tail) (js "github.com/")) with true
    by (symmetry; apply startsWith_app).
  change (skipn 11 (js "github.com/" ++ tail)) with tail.
  assert (E1 : Path.upToSlash tail = owner) by (apply upToSlash_app; exact So).
  assert (E2 : skipn (List.length owner) tail = Path.slash :: repo ++ rest).
  { unfold tail. now rewrite skipn_app, skipn_all, Nat.sub_diag. }
  assert (Hrepo : Path.upToSlash (repo ++ rest) = repo).
  { destruct Hrest as [-> | (t & ->)].
    - rewrite app_nil_r. now apply upToSlash_whole.
    - now apply upToSlash_app. }
  cbv zeta. rewrite !E1. clearbody tail.
  destruct owner as [|o owner']; [congruence|]. rewrite E2, Hrepo.
  destruct repo as [|p repo']; [congruence|]. reflexivity.
Qed.

Lemma matchRepoUrl_reads_owner_and_repo_witness :
  matchRepoUrl (js "https://github.com/octocat/demo/tree/main")
  = Some (js "octocat", js "demo").
Proof.
  apply (matchRepoUrl_reads_owner_and_repo (js "octocat") (js "demo")
           (js "/tree/main"));
    try discriminate; try reflexivity.
  right. exists (js "tree/main"). reflexivity.
Defined.

(** ** File names: inclusion, language and importance *)

(** Lists are read two code units at a time by [codePoints]. *)
Lemma list_pair_ind {A : Type} (P : list A -> Prop) :
  P [] -> (forall a, P [a]) ->
  (forall a b l, P l -> P (b :: l) -> P (a :: b :: l)) ->
  forall l, P l.
Proof.
  intros Hnil Hone Hstep l.
  assert (H : P l /\ forall a, P (a :: l)); [|exact (proj1 H)].
  induction l as [|b l [IH1 IH2]]; split; auto.
Qed.

Lemma Forall2_rev {A B : Type} (R : A -> B -> Prop) (l : list A) (l' : list B) :
  Forall2 R l l' -> Forall2 R (rev l) (rev l').
Proof.
  induction 1 as [|x y l l' Hxy _ IH]; [constructor|].
  cbn [rev]. apply Forall2_app; [exact IH | now repeat constructor].
Qed.

(** The Latin letters are cased, not case-ignorable, and the capitals
    are mapped to the small letters. *)
Lemma latin_letter (c : N) :
  (65 <= c <= 90 \/ 97 <= c <= 122)%N ->
  Unicode.cased c = true /\ Unicode.caseIgnorable c = false /\
  Unicode.simpleLower c = (if c <=? 90 then c + 32 else c)%N.
Proof.
  intros Hc.
  assert (Hall : forallb (fun c => Unicode.cased c && negb (Unicode.caseIgnorable c)
                            && (Unicode.simpleLower c =? (if c <=? 90 then c + 32 else c))%N)
                   (map N.of_nat (seq 65 26 ++ seq 97 26)) = true)
    by (vm_compute; reflexivity).
  rewrite forallb_forall in Hall. specialize (Hall c).
  assert (Hin : In c (map N.of_nat (seq 65 26 ++ seq 97 26))).
  { apply in_map_iff. exists (N.to_nat c). split; [apply N2Nat.id|].
    rewrite in_app_iff, !in_seq. lia. }
  apply Hall in Hin. apply andb_true_iff in Hin as [Hin H3].
  apply andb_true_iff in Hin as [H1 H2]. apply negb_true_iff in H2.
  apply N.eqb_eq in H3. auto.
Qed.

Lemma sameLetter_refl (x : N) : sameLetter x x = true.
Proof. unfold sameLetter. now rewrite N.eqb_refl. Qed.

Lemma sameLetter_cases (x y : N) :
  sameLetter x y = true ->
  x = y \/ (65 <= x <= 90 /\ y = x + 32)%N \/ (65 <= y <= 90 /\ x = y + 32)%N.
Proof.
  unfold sameLetter. rewrite !orb_true_iff, !andb_true_iff.
  rewrite !N.eqb_eq, !N.leb_le. tauto.
Qed.

(** What the lowering looks at is the same for the two forms of a letter. *)
Lemma sameLetter_case (x y : N) :
  sameLetter x y = true ->
  Unicode.simpleLower x = Unicode.simpleLower y /\
  Unicode.cased x = Unicode.cased y /\
  Unicode.caseIgnorable x = Unicode.caseIgnorable y.
Proof.
  intros H. destruct (sameLetter_cases _ _ H) as [-> | [[Hx ->] | [Hy ->]]]; [tauto| |].
  - destruct (latin_letter x) as (C1 & I1 & L1); [lia|].
    destruct (latin_letter (x + 32)) as (C2 & I2 & L2); [lia|].
    rewrite C1, C2, I1, I2, L1, L2.
    replace (x <=? 90)%N with true by (symmetry; apply N.leb_le; lia).
    replace (x + 32 <=? 90)%N with false by (symmetry; apply N.leb_gt; lia).
    tauto.
  - destruct (latin_letter y) as (C1 & I1 & L1); [lia|].
    destruct (latin_letter (y + 32)) as (C2 & I2 & L2); [lia|].
    rewrite C1, C2, I1, I2, L1, L2.
    replace (y <=? 90)%N with true by (symmetry; apply N.leb_le; lia).
    replace (y + 32 <=? 90)%N with false by (symmetry; apply N.leb_gt; lia).
    tauto.
Qed.

(** A code unit that is not a Latin letter is told from both forms of a
    letter alike. *)
Lemma sameLetter_eqb (x y k : N) :
  sameLetter x y = true -> (k < 65 \/ 122 < k)%N -> N.eqb x k = N.eqb y k.
Proof.
  intros H Hk. destruct (sameLetter_cases _ _ H) as [-> | [[Hx ->] | [Hy ->]]];
    [reflexivity| |];
    match goal with
    | |- N.eqb ?a k = N.eqb ?b k =>
        destruct (N.eqb_spec a k), (N.eqb_spec b k); try reflexivity; lia
    end.
Qed.

Lemma sameLetter_surrogate (x y : N) :
  sameLetter x y = true ->
  isLeadSurrogate x = true \/ isTrailSurrogate x = true -> x = y.
Proof.
  intros H Hs. unfold isLeadSurrogate, isTrailSurrogate in Hs.
  rewrite !andb_true_iff, !N.leb_le in Hs.
  destruct (sameLetter_cases _ _ H) as [-> | [[Hx ->] | [Hy ->]]]; [reflexivity| |]; lia.
Qed.

Lemma sameLetter_surrogates (x y : N) :
  sameLetter x y = true ->
  isLeadSurrogate x = isLeadSurrogate y /\ isTrailSurrogate x = isTrailSurrogate y.
Proof.
  intros H. unfold isLeadSurrogate, isTrailSurrogate.
  destruct (sameLetter_cases _ _ H) as [-> | [[Hx ->] | [Hy ->]]]; [tauto| |];
    split;
    match goal with
    | |- (?a && ?b = ?c && ?d)%bool =>
        destruct a eqn:?, b eqn:?, c eqn:?, d eqn:?; try reflexivity;
        rewrite ?N.leb_le, ?N.leb_gt in *; lia
    end.
Qed.

Lemma sameLetters_Forall2 (a b : jsstring) :
  sameLetters a b = true <-> Forall2 (fun x y => sameLetter x y = true) a b.
Proof.
  split.
  - revert b; induction a as [|x a IH]; intros [|y b] H; try discriminate;
      [constructor|].
    cbn [sameLetters] in H. apply andb_true_iff in H as [H1 H2].
    constructor; [exact H1 | exact (IH _ H2)].
  - induction 1 as [|x y a b Hxy _ IH]; [reflexivity|].
    cbn [sameLetters]. now rewrite Hxy, IH.
Qed.

Section SameLetters.

Let R (x y : N) : Prop := sameLetter x y = true.

Lemma codePoints_sameLetters (a : jsstring) :
  forall b, Forall2 R a b -> Forall2 R (codePoints a) (codePoints b).
Proof.
  induction a as [|x|x1 x2 a IH1 IH2] using list_pair_ind; intros b H.
  - inversion H; subst. constructor.
  - inversion H as [|? y ? b' Hxy Hrest]; subst. inversion Hrest; subst.
    cbn [codePoints]. now repeat constructor.
  - inversion H as [|? y1 ? b1 H1 Hrest]; subst.
    inversion Hrest as [|? y2 ? b2 H2 Hrest']; subst.
    cbn [codePoints].
    destruct (sameLetter_surrogates _ _ H1) as [<- _].
    destruct (sameLetter_surrogates _ _ H2) as [_ <-].
    destruct (isLeadSurrogate x1 && isTrailSurrogate x2) eqn:E.
    + apply andb_true_iff in E as [E1 E2].
      rewrite <- (sameLetter_surrogate _ _ H1 (or_introl E1)).
      rewrite <- (sameLetter_surrogate _ _ H2 (or_intror E2)).
      constructor; [apply sameLetter_refl | exact (IH1 _ Hrest')].
    + constructor; [exact H1 | exact (IH2 _ Hrest)].
Qed.

Lemma meetsCased_sameLetters (l l' : list N) :
  Forall2 R l l' -> meetsCased l = meetsCased l'.
Proof.
  induction 1 as [|x y l l' Hxy _ IH]; [reflexivity|].
  cbn [meetsCased]. destruct (sameLetter_case _ _ Hxy) as (_ & -> & ->).
  now rewrite IH.
Qed.

Lemma lowerFrom_sameLetters (cps cps' : list N) :
  Forall2 R cps cps' ->
  forall before before', Forall2 R before before' ->
    lowerFrom before cps = lowerFrom before' cps'.
Proof.
  induction 1 as [|x y cps cps' Hxy Hrest IH]; intros before before' Hb;
    [reflexivity|].
  cbn [lowerFrom]. rewrite (IH (x :: before) (y :: before')) by now constructor.
  f_equal. unfold lowerMapping, finalSigma.
  rewrite (meetsCased_sameLetters _ _ Hb), (meetsCased_sameLetters _ _ Hrest).
  rewrite (sameLetter_eqb _ _ 931 Hxy), (sameLetter_eqb _ _ 304 Hxy) by lia.
  now destruct (sameLetter_case _ _ Hxy) as (-> & _).
Qed.

(** Names that differ in the case of Latin letters have the same lower
    case. *)
Lemma toLowerCase_sameLetters (a b : jsstring) :
  Forall2 R a b -> toLowerCase a = toLowerCase b.
Proof.
  intros H. unfold toLowerCase.
  rewrite (lowerFrom_sameLetters _ _ (codePoints_sameLetters _ _ H) [] []);
    [reflexivity | constructor].
Qed.

Lemma dropSlashes_sameLetters (a b : jsstring) :
  Forall2 R a b -> Forall2 R (Path.dropSlashes a) (Path.dropSlashes b).
Proof.
  induction 1 as [|x y a b Hxy Hrest IH]; [constructor|].
  cbn [Path.dropSlashes]. unfold Path.slash.
  rewrite (sameLetter_eqb _ _ 47 Hxy) by lia.
  destruct (N.eqb y 47); [exact IH | now constructor].
Qed.

Lemma upToSlash_sameLetters (a b : jsstring) :
  Forall2 R a b -> Forall2 R (Path.upToSlash a) (Path.upToSlash b).
Proof.
  induction 1 as [|x y a b Hxy Hrest IH]; [constructor|].
  cbn [Path.upToSlash]. unfold Path.slash.
  rewrite (sameLetter_eqb _ _ 47 Hxy) by lia.
  destruct (N.eqb y 47); now constructor.
Qed.

Lemma basename_sameLetters (a b : jsstring) :
  Forall2 R a b -> Forall2 R (Path.basename a) (Path.basename b).
Proof.
  intros H. unfold Path.basename.
  now apply Forall2_rev, upToSlash_sameLetters, dropSlashes_sameLetters, Forall2_rev.
Qed.

Lemma fromLastDot_sameLetters (r r' : jsstring) :
  Forall2 R r r' ->
  forall acc acc', Forall2 R acc acc' ->
    match Path.fromLastDot r acc, Path.fromLastDot r' acc' with
    | Some (stem, ext), Some (stem', ext') => Forall2 R stem stem' /\ Forall2 R ext ext'
    | None, None => True
    | _, _ => False
    end.
Proof.
  induction 1 as [|x y r r' Hxy Hrest IH]; intros acc acc' Hacc; [exact I|].
  cbn [Path.fromLastDot]. unfold Path.dot.
  rewrite (sameLetter_eqb _ _ 46 Hxy) by lia.
  destruct (N.eqb y 46).
  - split; [now apply Forall2_rev | now constructor].
  - apply IH. now constructor.
Qed.

Lemma eqb_dots_sameLetters (a b : jsstring) :
  Forall2 R a b -> JS.eqb a [Path.dot; Path.dot] = JS.eqb b [Path.dot; Path.dot].
Proof.
  unfold Path.dot. intros H.
  destruct H as [|x y a b Hx H]; [reflexivity|].
  destruct H as [|x' y' a b Hx' H];
    cbn [JS.eqb]; rewrite (sameLetter_eqb _ _ 46 Hx) by lia; [reflexivity|].
  rewrite (sameLetter_eqb _ _ 46 Hx') by lia.
  destruct H; reflexivity.
Qed.

Lemma extname_sameLetters (a b : jsstring) :
  Forall2 R a b -> Forall2 R (Path.extname a) (Path.extname b).
Proof.
  intros H. unfold Path.extname.
  pose proof (basename_sameLetters _ _ H) as Hbase.
  pose proof (fromLastDot_sameLetters _ _ (Forall2_rev _ _ _ Hbase) [] []
                (Forall2_nil _)) as Hdot.
  rewrite (eqb_dots_sameLetters _ _ Hbase).
  destruct (Path.fromLastDot (rev (Path.basename a)) []) as [[stem ext]|],
           (Path.fromLastDot (rev (Path.basename b)) []) as [[stem' ext']|];
    try contradiction; [|constructor].
  destruct Hdot as [Hstem Hext].
  destruct Hstem; [constructor|].
  destruct (JS.eqb (Path.basename b) [Path.dot; Path.dot]); [constructor | exact Hext].
Qed.

End SameLetters.

(** X10.  The tests on file names do not depend on the case of the
    Latin letters: two names that differ only in the case of letters
    [A] to [Z] have the same importance, are included alike, and have the
    same language. *)
Theorem file_name_tests_ignore_case (name name' : jsstring) (size : Z) :
  sameLetters name name' = true ->
  getFileImportanceScore name = getFileImportanceScore name' /\
  shouldIncludeFile name size = shouldIncludeFile name' size /\
  detectLanguage name = detectLanguage name'.
Proof.
  intros H. apply sameLetters_Forall2 in H.
  pose proof (toLowerCase_sameLetters _ _ H) as Hname.
  pose proof (toLowerCase_sameLetters _ _ (basename_sameLetters _ _ H)) as Hbase.
  pose proof (toLowerCase_sameLetters _ _ (extname_sameLetters _ _ H)) as Hext.
  unfold getFileImportanceScore, shouldIncludeFile, detectLanguage.
  now rewrite Hname, Hbase, Hext.
Qed.

Lemma file_name_tests_ignore_case_witness :
  getFileImportanceScore (js "src/Index.TS") = getFileImportanceScore (js "src/index.ts") /\
  shouldIncludeFile (js "src/Index.TS") 2048 = shouldIncludeFile (js "src/index.ts") 2048 /\
  detectLanguage (js "src/Index.TS") = detectLanguage (js "src/index.ts").
Proof.
  apply (file_name_tests_ignore_case (js "src/Index.TS") (js "src/index.ts") 2048).
  reflexivity.
Defined.

(** The lowering is that of the Unicode tables, beyond the Latin
    letters: the Kelvin sign is lowered to [k], so that [.KT] written
    with it is still the Kotlin extension; capital sigma is lowered to
    the final sigma at the end of a word only; [U+0130] is lowered to two
    code points; a letter outside the Basic Multilingual Plane is
    lowered as one code point. *)
Example detectLanguage_kelvin_sign :
  detectLanguage (js "a." ++ [0x212A; 0x54]%N) = js "kotlin".
Proof. vm_compute. reflexivity. Qed.

Example toLowerCase_final_sigma :
  toLowerCase [0x39F; 0x394; 0x39F; 0x3A3]%N = [0x3BF; 0x3B4; 0x3BF; 0x3C2]%N /\
  toLowerCase [0x3A3; 0x39F; 0x3A3; 0x2E; 0x41]%N = [0x3C3; 0x3BF; 0x3C3; 0x2E; 0x61]%N.
Proof. vm_compute. split; reflexivity. Qed.

Example toLowerCase_dotted_capital_i :
  toLowerCase [0x130]%N = [0x69; 0x307]%N.
Proof. vm_compute. reflexivity. Qed.

Example toLowerCase_surrogate_pair :
  toLowerCase [0xD801; 0xDC00; 0xD801]%N = [0xD801; 0xDC28; 0xD801]%N.
Proof. vm_compute. reflexivity. Qed.

Lemma slashFree_rev (s : jsstring) : slashFree s = true -> slashFree (rev s) = true.
Proof.
  unfold slashFree. rewrite !forallb_forall. intros H c Hc.
  apply H. now apply in_rev.
Qed.

Lemma dropSlashes_slashFree (s t : jsstring) :
  s <> [] -> slashFree s = true -> Path.dropSlashes (s ++ t) = s ++ t.
Proof.
  destruct s as [|c s]; [congruence|]. intros _ H.
  cbn [slashFree forallb] in H. apply andb_true_iff in H as [Hc _].
  apply negb_true_iff in Hc. cbn [app Path.dropSlashes]. now rewrite Hc.
Qed.

Lemma basename_of_joined (dir name : jsstring) :
  name <> [] -> slashFree name = true ->
  Path.basename (dir ++ Path.slash :: name) = name /\ Path.basename name = name.
Proof.
  intros Hne Hfree.
  assert (Hrev : rev name <> []).
  { intros E. apply Hne. rewrite <- (rev_involutive name), E. reflexivity. }
  pose proof (slashFree_rev _ Hfree) as Hfree'.
  unfold Path.basename. split.
  - rewrite rev_app_distr. cbn [rev]. rewrite <- app_assoc. cbn [app].
    rewrite dropSlashes_slashFree by assumption.
    rewrite (upToSlash_app _ _ Hfree'). apply rev_involutive.
  - rewrite <- (app_nil_r (rev name)).
    rewrite dropSlashes_slashFree by assumption. rewrite app_nil_r.
    rewrite (upToSlash_whole _ Hfree'). apply rev_involutive.
Qed.

(** X11.  The directory of a file has no part in its importance or in
    its language: both are those of the file name alone. *)
Theorem importance_and_language_of_the_name (dir name : jsstring) :
  name <> [] ->
  slashFree name = true ->
  getFileImportanceScore (dir ++ js "/" ++ name) = getFileImportanceScore name /\
  detectLanguage (dir ++ js "/" ++ name) = detectLanguage name.
Proof.
  intros Hne Hfree.
  destruct (basename_of_joined dir name Hne Hfree) as [Hjoined Hname].
  change (dir ++ js "/" ++ name) with (dir ++ Path.slash :: name).
  unfold getFileImportanceScore, detectLanguage, Path.extname.
  now rewrite Hjoined, Hname.
Qed.

Lemma importance_and_language_of_the_name_witness :
  getFileImportanceScore (js "docs/.config/README.md") = 100%Z /\
  detectLanguage (js "docs/.config/README.md") = js "markdown".
Proof.
  apply (importance_and_language_of_the_name (js "docs/.config") (js "README.md"));
    [discriminate | reflexivity].
Defined.

Lemma importance_at_most_100 (p : jsstring) : (getFileImportanceScore p <= 100)%Z.
Proof.
  unfold getFileImportanceScore.
  repeat match goal with
         | |- context [if ?b then _ else _] => destruct b
         end; lia.
Qed.

Lemma importance_100_is_readme (f : FileInfo) :
  importance f = 100%Z <-> isReadme f = true.
Proof.
  unfold importance, isReadme, getFileImportanceScore.
  destruct (includes (toLowerCase (Path.basename (path f))) (js "readme")).
  - tauto.
  - split; [|discriminate].
    repeat match goal with
           | |- context [if ?b then _ else _] => destruct b
           end; lia.
Qed.

(** X12.  In a ranked sequence no other file stands before a README:
    the records whose name contains [readme] come first. *)
Theorem readme_files_come_first
    (files before after : list FileInfo) (a b : FileInfo) :
  sort byImportance files = before ++ a :: after ->
  In b after ->
  isReadme b = true ->
  isReadme a = true.
Proof.
  intros Hsplit Hin Hb.
  pose proof (sort_sorted importance files) as Hsorted.
  change (sort (fun a b => (importance b - importance a)%Z) files)
    with (sort byImportance files) in Hsorted.
  rewrite Hsplit in Hsorted.
  assert (Htail : StronglySorted (descending importance) (a :: after)).
  { clear Hsplit. induction before as [|x before IH]; [exact Hsorted|].
    apply IH. now inversion Hsorted. }
  apply StronglySorted_inv in Htail as [_ Hall].
  rewrite Forall_forall in Hall. specialize (Hall b Hin). unfold descending in Hall.
  apply importance_100_is_readme in Hb.
  apply importance_100_is_readme.
  pose proof (importance_at_most_100 (path a)). unfold importance in *. lia.
Qed.

Lemma readme_files_come_first_witness :
  isReadme (mkFileInfo (js "README.md") (js "# demo") (js "markdown") 7) = true.
Proof.
  apply (readme_files_come_first
           [mkFileInfo (js "src/main.ts") (js "x") (js "typescript") 1;
            mkFileInfo (js "README.md") (js "# demo") (js "markdown") 7;
            mkFileInfo (js "docs/readme.txt") (js "y") (js "unknown") 1]
           []
           [mkFileInfo (js "docs/readme.txt") (js "y") (js "unknown") 1;
            mkFileInfo (js "src/main.ts") (js "x") (js "typescript") 1]
           (mkFileInfo (js "README.md") (js "# demo") (js "markdown") 7)
           (mkFileInfo (js "docs/readme.txt") (js "y") (js "unknown") 1)).
  - reflexivity.
  - left. reflexivity.
  - reflexivity.
Defined.

Lemma lookup_In (m : list (jsstring * jsstring)) (k v : jsstring) :
  lookup m k = Some v -> In (k, v) m.
Proof.
  induction m as [|[k' v'] m IH]; cbn [lookup]; [discriminate|].
  destruct (JS.eqb k k') eqn:E.
  - intros [= ->]. apply eqb_eq in E. subst k'. now left.
  - intros H. right. now apply IH.
Qed.

(** X13.  Every file for which a language is detected passes the
    extension filter: a file of at most 1 MiB whose language is not
    [unknown] is included. *)
Theorem detected_language_means_included (filename : jsstring) (size : Z) :
  (size <= 1048576)%Z ->
  detectLanguage filename <> js "unknown" ->
  shouldIncludeFile filename size = true.
Proof.
  intros Hsize Hlang. unfold shouldIncludeFile.
  replace (size >? maxFileSize)%Z with false by (unfold maxFileSize; lia).
  unfold detectLanguage in Hlang.
  destruct (lookup languageMap (toLowerCase (Path.extname filename))) as [l|] eqn:Hl.
  2:{ exfalso. apply Hlang. reflexivity. }
  apply lookup_In in Hl.
  assert (Hall : forallb (fun kv => has supportedExtensions (fst kv)) languageMap = true)
    by (vm_compute; reflexivity).
  rewrite forallb_forall in Hall. specialize (Hall _ Hl). cbn [fst] in Hall.
  now rewrite Hall.
Qed.

Lemma detected_language_means_included_witness :
  shouldIncludeFile (js "Main.JAVA") 2048 = true.
Proof.
  apply (detected_language_means_included (js "Main.JAVA") 2048).
  - discriminate.
  - vm_compute. discriminate.
Defined.

(** X14.  The remote inclusion rule is the local one applied to the
    last portion of the path, after the skip rule on the whole path. *)
Theorem remote_inclusion_is_local_inclusion (filePath : jsstring) (size : Z) :
  shouldIncludeGithubFile filePath size
  = negb (shouldSkipPath filePath) && shouldIncludeFile (Path.basename filePath) size.
Proof.
  unfold shouldIncludeGithubFile, shouldIncludeFile.
  destruct (size >? maxFileSize)%Z; [now rewrite andb_false_r|].
  destruct (shouldSkipPath filePath); reflexivity.
Qed.

Lemma controlFree_not_binary (content : jsstring) :
  controlFree content = true -> isBinaryContent content = false.
Proof.
  intros H. unfold isBinaryContent.
  replace (filter isControlUnit content) with (@nil N); [reflexivity|].
  symmetry. induction content as [|c s IH]; [reflexivity|].
  cbn [controlFree forallb] in H. apply andb_true_iff in H as [Hc Hs].
  apply negb_true_iff in Hc. cbn [filter]. rewrite Hc. now apply IH.
Qed.

(** X15.  A text without control characters is never dropped: both
    paths return it, whole when it has at most 50,000 characters and
    truncated with the marker otherwise. *)
Theorem plain_text_is_never_dropped
    (treeResponse : TreeResponse) (owner repo sha : jsstring)
    (pat : option jsstring) (content : jsstring) :
  controlFree content = true ->
  let kept :=
    if (JS.length content >? 50000)%Z
    then substring0 content 50000 ++ truncationMarker
    else content in
  readFileContent (Ok content) = Some kept /\
  fetchGithubFileContent (serving treeResponse content) owner repo sha pat = Some kept.
Proof.
  intros Hplain. cbv zeta. apply controlFree_not_binary in Hplain.
  assert (Hlocal :
    readFileContent (Ok content)
    = Some (if (JS.length content >? 50000)%Z
            then substring0 content 50000 ++ truncationMarker
            else content)).
  { unfold readFileContent. change truncateAt with 50000%Z. rewrite Hplain.
    destruct (JS.length content >? 50000)%Z; reflexivity. }
  split; [exact Hlocal|].
  rewrite (ingestion_paths_agree treeResponse owner repo sha pat content)
    by (right; exact Hplain).
  exact Hlocal.
Qed.

Lemma plain_text_is_never_dropped_witness :
  readFileContent (Ok (js "let x = 1;")) = Some (js "let x = 1;") /\
  fetchGithubFileContent (serving (emptyTree 200 []) (js "let x = 1;"))
    (js "octocat") (js "demo") (js "b1") None = Some (js "let x = 1;").
Proof.
  apply (plain_text_is_never_dropped (emptyTree 200 []) (js "octocat") (js "demo")
           (js "b1") None (js "let x = 1;")).
  reflexivity.
Defined.

(** ** The coordinator *)

(** X16.  The coordinator fails fast: when a stage throws, the run
    rejects with that very error, and the callback has been sent the
    waypoints of the stages started so far and nothing after them. *)
Theorem stage_failure_is_fatal
    (agents : Agents) (files : list FileInfo) (projectInfo : ProjectInfo)
    (options : DocumentationOptions) (tr : Trace) (started : nat) (e : Error) :
  FailsAt agents files projectInfo started e ->
  exists tr',
    generateDocumentation agents files projectInfo options (Some observer) tr
    = (tr', Throw e) /\
    percentages tr' = percentages tr ++ firstn started [15; 30; 50; 70]%float.
Proof.
  intros Hfail. unfold generateDocumentation. rewrite tryCatch_rethrow.
  unfold reviewAnalysis, notify, observer, bind, await, ret, percentages.
  destruct Hfail as [e0 H1 | c e0 H1 H2 | c d e0 H1 H2 H3 | c d enh e0 H1 H2 H3 H4];
    rewrite ?H1, ?H2, ?H3, ?H4; eexists; (split; [reflexivity|]);
    rewrite !map_app, <- ?app_assoc; reflexivity.
Qed.

Lemma stage_failure_is_fatal_witness :
  exists tr',
    generateDocumentation failingDocAnalysis [] demoProject withDelivery
      (Some observer) []
    = (tr', Throw (mkError (js "rate limit exceeded"))) /\
    percentages tr' = [15; 30]%float.
Proof.
  apply (stage_failure_is_fatal failingDocAnalysis [] demoProject withDelivery []
           2 (mkError (js "rate limit exceeded"))).
  apply fails_in_doc_analysis with (js "code analysis"); reflexivity.
Defined.

Lemma distinct_In (l seen : list jsstring) (x : jsstring) :
  In x (distinct seen l) <-> In x l /\ ~ In x seen.
Proof.
  revert seen; induction l as [|y l IH]; intros seen; cbn [distinct In]; [tauto|].
  destruct (existsb (JS.eqb y) seen) eqn:E.
  - apply existsb_exists in E as (z & Hz & Hyz). apply eqb_eq in Hyz. subst z.
    rewrite IH. split; [tauto|]. intros [[-> | H] Hn]; [contradiction | tauto].
  - assert (Hy : ~ In y seen).
    { intros Hy.
      assert (existsb (JS.eqb y) seen = true); [|congruence].
      apply existsb_exists. exists y. split; [exact Hy | now apply eqb_eq]. }
    cbn [In]. rewrite IH. cbn [In].
    split.
    + intros [<- | [H1 H2]]; [tauto | tauto].
    + intros [[<- | H1] H2]; [tauto|].
      destruct (list_eq_dec N.eq_dec y x) as [-> | Hne]; [tauto|]. right. tauto.
Qed.

Lemma distinct_NoDup (l seen : list jsstring) : NoDup (distinct seen l).
Proof.
  revert seen; induction l as [|y l IH]; intros seen; cbn [distinct]; [constructor|].
  destruct (existsb (JS.eqb y) seen); [apply IH|].
  constructor; [|apply IH].
  rewrite distinct_In. cbn [In]. tauto.
Qed.

(** X17.  The languages reported in the metadata are exactly the
    language tags of the ingested files other than [unknown], each
    listed once. *)
Theorem codeLanguages_are_the_known_tags
    (specifications : jsstring) (files : list FileInfo) :
  let languages := codeLanguages (metadata (parseSpecifications specifications files)) in
  NoDup languages /\
  forall tag,
    In tag languages <->
    tag <> js "unknown" /\ exists f, In f files /\ language f = tag.
Proof.
  cbv zeta. unfold parseSpecifications. cbn [metadata codeLanguages].
  split; [apply distinct_NoDup|]. intros tag.
  rewrite distinct_In, filter_In, in_map_iff, negb_true_iff. cbn [In].
  split.
  - intros [[(f & Hf & Hin) Hne] _]. split; [|eauto].
    intros ->. rewrite (proj2 (eqb_eq _ _) eq_refl) in Hne. discriminate.
  - intros [Hne (f & Hin & Hf)]. split; [|tauto]. split; [eauto|].
    destruct (JS.eqb tag (js "unknown")) eqn:E; [|reflexivity].
    apply eqb_eq in E. contradiction.
Qed.

Lemma startsWith_app_l (a b p : jsstring) :
  startsWith a p = true -> startsWith (a ++ b) p = true.
Proof.
  revert a; induction p as [|q p IH]; intros a H; [apply startsWith_nil|].
  destruct a as [|c a]; [discriminate|]. cbn [app startsWith] in *.
  apply andb_true_iff in H as [H1 H2]. now rewrite H1, (IH _ H2).
Qed.

Lemma includes_app_l (a b p : jsstring) :
  includes a p = true -> includes (a ++ b) p = true.
Proof.
  induction a as [|c a IH]; intros H; rewrite includes_eq in H.
  - rewrite orb_false_r in H. rewrite includes_eq.
    now rewrite (startsWith_app_l [] b p H).
  - apply orb_true_iff in H as [H | H].
    + rewrite includes_eq. now rewrite (startsWith_app_l _ b p H).
    + cbn [app]. rewrite includes_eq. rewrite (IH H). apply orb_true_r.
Qed.

(** What follows the first list in the joined text, when anything does,
    starts with the separating space. *)
Lemma join_app_prefix (l1 l2 : list jsstring) :
  exists t, join (l1 ++ l2) = join l1 ++ t /\
            (l1 = [] \/ t = [] \/ exists t', t = 32%N :: t').
Proof.
  induction l1 as [|p l1 IH]; [exists (join l2); auto|].
  destruct IH as (t & Ht & Hshape). destruct l1 as [|q l1].
  - cbn [app join]. destruct l2 as [|r l2].
    + exists []. rewrite app_nil_r. auto.
    + exists (js " " ++ join (r :: l2)). split; [reflexivity|].
      right; right. now exists (join (r :: l2)).
  - exists t. split.
    + change (join ((p :: q :: l1) ++ l2))
        with (p ++ js " " ++ join ((q :: l1) ++ l2)).
      rewrite Ht. change (join (p :: q :: l1)) with (p ++ js " " ++ join (q :: l1)).
      now rewrite <- !app_assoc.
    + destruct Hshape as [E | Hshape]; [discriminate | now right].
Qed.

(** A code unit that is not a trail surrogate starts a code point of its
    own. *)
Lemma codePoints_app (c : N) (x y : jsstring) :
  isTrailSurrogate c = false ->
  codePoints (x ++ c :: y) = codePoints x ++ codePoints (c :: y).
Proof.
  intros Hc. induction x as [|a|a b x IH1 IH2] using list_pair_ind.
  - reflexivity.
  - change (codePoints ([a] ++ c :: y))
      with (if isLeadSurrogate a && isTrailSurrogate c
            then (0x10000 + (a - 0xD800) * 0x400 + (c - 0xDC00))%N :: codePoints y
            else a :: codePoints (c :: y)).
    now rewrite Hc, andb_false_r.
  - change (codePoints ((a :: b :: x) ++ c :: y))
      with (if isLeadSurrogate a && isTrailSurrogate b
            then (0x10000 + (a - 0xD800) * 0x400 + (b - 0xDC00))%N
                 :: codePoints (x ++ c :: y)
            else a :: codePoints ((b :: x) ++ c :: y)).
    change (codePoints (a :: b :: x))
      with (if isLeadSurrogate a && isTrailSurrogate b
            then (0x10000 + (a - 0xD800) * 0x400 + (b - 0xDC00))%N :: codePoints x
            else a :: codePoints (b :: x)).
    rewrite IH1, IH2. now destruct (isLeadSurrogate a && isTrailSurrogate b).
Qed.

(** A character that is neither cased nor case-ignorable ends the
    context of a sigma. *)
Lemma meetsCased_app (c : N) (u v : list N) :
  Unicode.caseIgnorable c = false -> Unicode.cased c = false ->
  meetsCased (u ++ c :: v) = meetsCased u.
Proof.
  intros Hi Hc. induction u as [|a u IH]; cbn [app meetsCased].
  - now rewrite Hi, Hc.
  - now rewrite IH.
Qed.

Lemma lowerFrom_app (c : N) (u v : list N) :
  Unicode.caseIgnorable c = false -> Unicode.cased c = false ->
  forall before,
    lowerFrom before (u ++ c :: v)
    = lowerFrom before u ++ lowerFrom (rev u ++ before) (c :: v).
Proof.
  intros Hi Hc. induction u as [|a u IH]; intros before; [reflexivity|].
  cbn [app lowerFrom rev]. rewrite IH, <- !app_assoc.
  unfold lowerMapping, finalSigma. now rewrite (meetsCased_app c u v Hi Hc).
Qed.

(** The lower case of a text is not changed by what follows it after a
    space. *)
Lemma toLowerCase_app_space (x y : jsstring) :
  exists u, toLowerCase (x ++ 32%N :: y) = toLowerCase x ++ u.
Proof.
  unfold toLowerCase. rewrite (codePoints_app 32 x y eq_refl).
  assert (E : exists v, codePoints (32%N :: y) = 32%N :: v).
  { destruct y as [|b y]; [now exists []|]. now exists (codePoints (b :: y)). }
  destruct E as [v ->].
  rewrite (lowerFrom_app 32 _ v) by (vm_compute; reflexivity).
  rewrite flat_map_app. eauto.
Qed.

(** X18.  Framework detection is monotone: a framework found in the
    files is still found when more files are ingested after them. *)
Theorem frameworks_survive_more_files
    (files more : list FileInfo) (framework : jsstring) :
  In framework (extractFrameworks files) ->
  In framework (extractFrameworks (files ++ more)).
Proof.
  unfold extractFrameworks. rewrite !distinct_In. cbn [In].
  intros [H _]. split; [|tauto].
  apply in_map_iff in H as ([keyword label] & <- & Hin).
  apply filter_In in Hin as [Htable Hfound]. cbn [fst] in Hfound.
  apply in_map_iff. exists (keyword, label). split; [reflexivity|].
  apply filter_In. split; [exact Htable|]. cbn [fst].
  rewrite map_app. destruct (join_app_prefix (map content files) (map content more))
    as (t & -> & [Hnil | [-> | [t' ->]]]).
  - apply map_eq_nil in Hnil. subst files. cbn [map join app] in *.
    change (toLowerCase []) with (@nil N) in Hfound.
    rewrite includes_eq in Hfound. rewrite orb_false_r in Hfound.
    destruct keyword; [|discriminate]. now destruct (toLowerCase t).
  - now rewrite app_nil_r.
  - destruct (toLowerCase_app_space (join (map content files)) t') as [u ->].
    now apply includes_app_l.
Qed.

Lemma frameworks_survive_more_files_witness :
  In (js "Express.js")
     (extractFrameworks
        ([mkFileInfo (js "server.js") (js "const app = require('express')();")
            (js "javascript") 33]
         ++ [mkFileInfo (js "README.md") (js "# demo") (js "markdown") 7])).
Proof.
  apply (frameworks_survive_more_files
           [mkFileInfo (js "server.js") (js "const app = require('express')();")
              (js "javascript") 33]
           [mkFileInfo (js "README.md") (js "# demo") (js "markdown") 7]
           (js "Express.js")).
  vm_compute. left. reflexivity.
Defined.

Lemma includes_after (x y p : jsstring) :
  overlapFree x p = true -> includes (x ++ y) p = includes y p.
Proof.
  induction x as [|c x IH]; intros H; [reflexivity|].
  cbn [overlapFree] in H.
  apply andb_true_iff in H as [H Hrest]. apply andb_true_iff in H as [H1 H2].
  apply negb_true_iff in H1, H2.
  cbn [app]. rewrite includes_eq. rewrite (IH Hrest).
  destruct (startsWith (c :: x ++ y) p) eqn:E; [|reflexivity].
  exfalso. change (c :: x ++ y) with ((c :: x) ++ y) in E.
  destruct (startsWith_app_inv _ _ _ E) as [Hin | (p2 & -> & _)]; [congruence|].
  rewrite startsWith_app in H2. discriminate.
Qed.

Lemma replace_leading (pat s : jsstring) : replace (pat ++ s) pat [] = s.
Proof.
  unfold replace. rewrite breakOn_eq, startsWith_app.
  now rewrite skipn_app, skipn_all, Nat.sub_diag.
Qed.

(** X19.  A response of the reviewer in the requested shape is taken
    apart into its two parts: from [CODE ANALYSIS: c DOCUMENTATION
    ANALYSIS: d], with [c] and [d] not blank and free of the second label,
    the review returns [trim(c)] and [trim(d)]. *)
Theorem structured_review_is_read_back
    (agents : Agents) (code doc c d : jsstring) (tr : Trace) :
  generateText agents reviewSystemPrompt (reviewPrompt code doc)
  = Ok (codeLabel ++ c ++ documentationLabel ++ d) ->
  includes c documentationLabel = false ->
  includes d documentationLabel = false ->
  trim c <> [] ->
  trim d <> [] ->
  reviewAnalysis agents code doc tr = (tr, Ok (mkReviewed (trim c) (trim d))).
Proof.
  intros Hgen Hc Hd Tc Td.
  unfold reviewAnalysis, bind, await, ret. rewrite Hgen. unfold parseReview.
  rewrite (app_assoc codeLabel c).
  assert (Hsplit :
    split ((codeLabel ++ c) ++ documentationLabel ++ d) documentationLabel
    = [codeLabel ++ c; d]).
  { change documentationLabel with (68%N :: tl documentationLabel).
    apply split_around; [reflexivity | | exact Hd].
    change (68%N :: tl documentationLabel) with documentationLabel.
    rewrite includes_after by reflexivity. exact Hc. }
  rewrite Hsplit. cbn [nth_error option_map]. rewrite replace_leading.
  now rewrite !orElse_some.
Qed.

Lemma structured_review_is_read_back_witness :
  reviewAnalysis structuredReviewer (js "code analysis") (js "doc analysis") []
  = ([], Ok (mkReviewed (js "better code") (js "better docs"))).
Proof.
  apply (structured_review_is_read_back structuredReviewer
           (js "code analysis") (js "doc analysis")
           (js " better code ") (js " better docs ") []);
    try reflexivity; vm_compute; discriminate.
Defined.

Lemma orElse_not_empty (v : option jsstring) (d : jsstring) :
  d <> [] -> orElse v d <> [].
Proof. destruct v as [[|c t]|]; cbn [orElse]; congruence. Qed.

(** X20.  The functional document is never empty, and the technical
    document is empty only when the generated text is empty. *)
Theorem documents_are_not_empty (specifications : jsstring) (files : list FileInfo) :
  let result := parseSpecifications specifications files in
  functionalSpec result <> [] /\
  (technicalSpec result = [] <-> specifications = []).
Proof.
  cbv zeta. unfold parseSpecifications. cbn [functionalSpec technicalSpec].
  split; [apply orElse_not_empty; discriminate|].
  split.
  - intros H. destruct specifications as [|c s]; [reflexivity|].
    exfalso. revert H. apply orElse_not_empty. discriminate.
  - intros ->. reflexivity.
Qed.

(** ** The e-mail agent *)

Lemma sanitize_all_safe (s : jsstring) : forallb safeUnit (EmailAgent.sanitize s) = true.
Proof.
  induction s as [|c s IH]; [reflexivity|].
  cbn [EmailAgent.sanitize map forallb]. fold (EmailAgent.sanitize s). rewrite IH.
  unfold safeUnit. destruct (EmailAgent.isAlphaNumeric c) eqn:E.
  - now rewrite E.
  - reflexivity.
Qed.

(** X21.  Whatever the project name, the e-mail carries two
    attachments, the technical document as Markdown and the functional
    one as HTML, and their file names are made of ASCII letters, digits,
    underscores and dots only, the project name keeping its length. *)
Theorem attachments_have_safe_names
    (projectName technicalSpec functionalSpec : jsstring) (tr : Trace) :
  exists technical functional,
    EmailAgent.createAttachments projectName technicalSpec functionalSpec tr
    = (tr, Ok [technical; functional]) /\
    EmailAgent.attachment_content technical = technicalSpec /\
    EmailAgent.attachment_content functional = functionalSpec /\
    EmailAgent.contentType technical = js "text/markdown" /\
    EmailAgent.contentType functional = js "text/html" /\
    forallb safeUnit (EmailAgent.filename technical) = true /\
    forallb safeUnit (EmailAgent.filename functional) = true /\
    JS.length (EmailAgent.filename technical)
    = (JS.length projectName + 18)%Z /\
    JS.length (EmailAgent.filename functional)
    = (JS.length projectName + 21)%Z.
Proof.
  unfold EmailAgent.createAttachments, ret. eexists. eexists.
  split; [reflexivity|].
  cbn [EmailAgent.attachment_content EmailAgent.contentType EmailAgent.filename].
  repeat split.
  - rewrite forallb_app, sanitize_all_safe. reflexivity.
  - rewrite forallb_app, sanitize_all_safe. reflexivity.
  - unfold JS.length, EmailAgent.sanitize. rewrite length_app, length_map.
    change (List.length (js "_technical_spec.md")) with 18%nat. lia.
  - unfold JS.length, EmailAgent.sanitize. rewrite length_app, length_map.
    change (List.length (js "_functional_spec.html")) with 21%nat. lia.
Qed.

(** X22.  The e-mail content never fails to be produced: the reading of
    the model's answer is used when there is one, and the fixed fallback
    e-mail, with the project name in its subject, when the model fails or
    its answer is not the expected JSON. *)
Theorem email_content_falls_back
    (svc : EmailAgent.Services) (projectName recipientEmail : jsstring)
    (meta : option Metadata) (tr : Trace) :
  exists emailContent,
    EmailAgent.generateEmailContent svc projectName recipientEmail meta tr
    = (tr, Ok emailContent) /\
    (forall response parsed,
       EmailAgent.analyze svc projectName recipientEmail meta = Ok response ->
       EmailAgent.parseJson svc response = Ok parsed ->
       emailContent = parsed) /\
    ((forall response,
        EmailAgent.analyze svc projectName recipientEmail meta = Ok response ->
        exists e, EmailAgent.parseJson svc response = Throw e) ->
     emailContent = EmailAgent.createFallbackEmailContent projectName /\
     EmailAgent.content_subject emailContent
     = js "Technical Documentation - " ++ projectName).
Proof.
  unfold EmailAgent.generateEmailContent, tryCatch, bind, await, ret.
  destruct (EmailAgent.analyze svc projectName recipientEmail meta) as [response|e].
  - destruct (EmailAgent.parseJson svc response) as [parsed|e] eqn:Hparse.
    + exists parsed. split; [reflexivity|]. split.
      * intros r p [= <-] Hp. congruence.
      * intros H. destruct (H response eq_refl) as [e He]. congruence.
    + eexists. split; [reflexivity|]. split.
      * intros r p [= <-] Hp. congruence.
      * intros _. split; reflexivity.
  - eexists. split; [reflexivity|]. split.
    + intros r p Hr. discriminate.
    + intros _. split; reflexivity.
Qed.

(** X23.  Sending never rejects and sends nothing to the progress
    callback.  It resolves to [true] exactly when the Graph client is
    set up and accepts the message, which is addressed to the recipient
    and carries the two documents. *)
Theorem sendDocumentation_reports_the_post
    (svc : EmailAgent.Services)
    (recipient projectName technical functional : jsstring)
    (meta : option Metadata) (tr : Trace) :
  exists message,
    EmailAgent.to message = recipient /\
    map EmailAgent.attachment_content (EmailAgent.attachments message)
    = [technical; functional] /\
    EmailAgent.sendDocumentation svc recipient projectName technical functional meta tr
    = (tr, Ok match EmailAgent.graphClient svc with
               | Some post =>
                   match post message with
                   | Ok _ => true
                   | Throw _ => false
                   end
               | None => false
               end).
Proof.
  destruct (email_content_falls_back svc projectName recipient meta tr)
    as (emailContent & Hcontent & _).
  exists (EmailAgent.mkEmailOptions recipient
            (EmailAgent.content_subject emailContent)
            (EmailAgent.content_html emailContent)
            (EmailAgent.content_text emailContent)
            [EmailAgent.mkEmailAttachment
               (EmailAgent.sanitize projectName ++ js "_technical_spec.md")
               technical (js "text/markdown");
             EmailAgent.mkEmailAttachment
               (EmailAgent.sanitize projectName ++ js "_functional_spec.html")
               functional (js "text/html")]).
  split; [reflexivity|].
  unfold EmailAgent.sendDocumentation, tryCatch.
  rewrite (bind_ok _ _ _ _ _ Hcontent).
  unfold EmailAgent.createAttachments, EmailAgent.sendEmailViaGraph,
    bind, await, ret, throw.
  split; [reflexivity|].
  destruct (EmailAgent.graphClient svc) as [post|]; [|reflexivity].
  destruct (post _) as [[]|e]; reflexivity.
Qed.

Import EmailConnection.

(** X24.  The connection test never rejects, at any of the layers that
    pass it on.  It resolves to [true] exactly when a non-empty access
    token is obtained, the Graph client is set up, and the sender's
    profile is fetched. *)
Theorem connection_test_resolves (conn : Connection) (tr : Trace) :
  exists connected,
    webTestEmailConnection conn tr = (tr, Ok connected) /\
    testConnection conn tr = (tr, Ok connected) /\
    (connected = true <->
     exists c t,
       acquireTokenByClientCredential conn = Ok (Some (c :: t)) /\
       profile conn = Some (Ok tt)).
Proof.
  unfold webTestEmailConnection, generatorTestEmailConnection, testEmailConnection,
    testConnection, getAccessToken, tryCatch, bind, await, ret, throw.
  destruct (acquireTokenByClientCredential conn) as [[[|c t]|]|e];
    cbn [orElse];
    try (exists false; repeat split; try reflexivity;
         [discriminate | intros (c' & t' & H & _); discriminate]).
  destruct (profile conn) as [[[]|e]|].
  - exists true. repeat split; eauto.
  - exists false. repeat split; try reflexivity; [discriminate|].
    intros (c' & t' & _ & H); discriminate.
  - exists false. repeat split; try reflexivity; [discriminate|].
    intros (c' & t' & _ & H); discriminate.
Qed.

(** ** The form handler *)

(** X25.  A form that names no place to read from is refused with
    [Invalid form data], before anything is reported or read. *)
Theorem form_without_locator_is_refused
    (world : WebInterface.World) (onProgress : option Callback)
    (formData : WebInterface.FormData) (tr : Trace) :
  lacksLocator formData = true ->
  WebInterface.handleFormSubmission world onProgress formData tr
  = (tr, Throw (mkError (js "Invalid form data"))).
Proof.
  unfold lacksLocator, WebInterface.handleFormSubmission. rewrite tryCatch_rethrow.
  cbv zeta.
  destruct (WebInterface.sourceType formData);
    [destruct (WebInterface.repoUrl formData) as [[|c u]|]
    |destruct (WebInterface.repoUrl formData) as [[|c u]|];
     destruct (WebInterface.localPath formData) as [[|c' l]|]];
    intros H; try discriminate; reflexivity.
Qed.

Lemma form_without_locator_is_refused_witness :
  WebInterface.handleFormSubmission demoWorld (Some observer)
    (WebInterface.mkFormData WebInterface.github (Some []) None
       (Some (js "/work/demo")) (js "demo") None None None) []
  = ([], Throw (mkError (js "Invalid form data"))).
Proof.
  apply (form_without_locator_is_refused demoWorld (Some observer)
           (WebInterface.mkFormData WebInterface.github (Some []) None
              (Some (js "/work/demo")) (js "demo") None None None) []).
  reflexivity.
Defined.

(** X26.  When remote ingestion fails, the run rejects with the error
    of the ingestion after the single report of 5 percent: no stage of
    the coordinator is started and no document is returned. *)
Theorem failed_ingestion_ends_the_run
    (world : WebInterface.World) (formData : WebInterface.FormData)
    (c : N) (url : jsstring) (e : Error) :
  WebInterface.sourceType formData = WebInterface.github ->
  WebInterface.repoUrl formData = Some (c :: url) ->
  analyzeGithubRepo (WebInterface.network world) (c :: url) (WebInterface.pat formData)
  = Throw e ->
  WebInterface.handleFormSubmission world (Some observer) formData []
  = ([(js "Cloning repository...", 5%float)], Throw e).
Proof.
  intros Hsource Hurl Hfail.
  unfold WebInterface.handleFormSubmission. rewrite tryCatch_rethrow. cbv zeta.
  rewrite Hsource, Hurl. unfold generateFromGithub. rewrite tryCatch_rethrow.
  unfold notify, observer, bind, await. rewrite Hfail. reflexivity.
Qed.

Lemma failed_ingestion_ends_the_run_witness :
  WebInterface.handleFormSubmission notFoundWorld (Some observer) githubForm []
  = ([(js "Cloning repository...", 5%float)], Throw notFoundError).
Proof.
  apply (failed_ingestion_ends_the_run notFoundWorld githubForm 104%N
           (js "ttps://github.com/octocat/private") notFoundError);
    reflexivity.
Defined.

(** X27.  A local path that cannot be listed is not an error: local
    ingestion returns no record for it. *)
Theorem unlistable_folder_gives_no_records (root : FsNode) :
  (forall items, root <> FsDir (Ok items)) ->
  ingest (FromFolder root) = Ok [].
Proof.
  intros H. cbn [ingest]. unfold analyzeLocalFolder.
  destruct root as [size data | [items | e] | | e]; try reflexivity.
  now destruct (H items).
Qed.

Lemma unlistable_folder_gives_no_records_witness :
  ingest (FromFolder (FsDir (Throw (mkError (js "ENOENT"))))) = Ok [].
Proof.
  apply (unlistable_folder_gives_no_records (FsDir (Throw (mkError (js "ENOENT"))))).
  intros items H. discriminate H.
Defined.

(** ** The prompts *)

Lemma includes_app_r (a b p : jsstring) :
  includes b p = true -> includes (a ++ b) p = true.
Proof.
  intros H. induction a as [|c a IH]; [exact H|].
  cbn [app]. rewrite includes_eq, IH. apply orb_true_r.
Qed.

(** X28.  The prompts ask for the very separators the parsers look
    for: the generation prompt contains the marker on which
    [parseSpecifications] splits, and the review prompt contains the two
    labels that [reviewAnalysis] reads, whatever the analyses are. *)
Theorem prompts_name_the_separators
    (code doc : jsstring) (projectInfo : ProjectInfo) :
  includes (Prompts.specificationFormatInput code doc projectInfo)
    functionalSpecMarker = true /\
  includes (reviewPrompt code doc) codeLabel = true /\
  includes (reviewPrompt code doc) documentationLabel = true.
Proof.
  split; [|split].
  - unfold Prompts.specificationFormatInput.
    repeat apply includes_app_r. vm_compute. reflexivity.
  - unfold reviewPrompt. apply includes_app_l. vm_compute. reflexivity.
  - unfold reviewPrompt. do 2 apply includes_app_r. apply includes_app_l.
    vm_compute. reflexivity.
Qed.

Lemma addFile_length (input : jsstring) (file : FileInfo) :
  JS.length (Prompts.addFile input file) = (JS.length input + fileShare file)%Z.
Proof.
  unfold Prompts.addFile, fileShare, JS.length, substring0, Prompts.contentLimit.
  cbv zeta. rewrite !length_app, length_firstn.
  change (List.length (js "--- ")) with 4%nat.
  change (List.length (js " (")) with 2%nat.
  change (List.length (js ") ---")) with 5%nat.
  cbn [List.length]. lia.
Qed.

Lemma fold_addFile_length (files : list FileInfo) (input : jsstring) :
  JS.length (fold_left Prompts.addFile files input)
  = (JS.length input + totalShare files)%Z.
Proof.
  revert input. induction files as [|f files IH]; intros input;
    cbn [fold_left totalShare fold_right]; [lia|].
  rewrite IH, addFile_length. unfold totalShare. lia.
Qed.

(** X29.  The prompt of the code analyzer grows with each file by the
    lengths of its path and language, 14 characters of framing, and at
    most 2,000 characters of its content; without files it has 94
    characters. *)
Theorem code_prompt_length (files : list FileInfo) :
  JS.length (Prompts.codeAnalyzerFormatInput files) = (94 + totalShare files)%Z.
Proof.
  unfold Prompts.codeAnalyzerFormatInput. cbv zeta.
  unfold JS.length at 1. rewrite length_app.
  change (List.length ([10%N] ++ js "Provide a comprehensive technical analysis of this codebase."))
    with 61%nat.
  pose proof (fold_addFile_length files (js "Analyze the following codebase:" ++ [10%N; 10%N]))
    as H.
  unfold JS.length at 1 2 in H.
  change (List.length (js "Analyze the following codebase:" ++ [10%N; 10%N]))
    with 33%nat in H.
  lia.
Qed.

(** ** The configuration *)

(** X30.  The configuration is accepted exactly when the five required
    variables are set to non-empty values; otherwise its construction
    throws, naming the fields that are missing. *)
Theorem configuration_needs_the_required_variables (env : ConfigManager.Env) :
  (forallb (isSet env) requiredVariables = true ->
   ConfigManager.construct env = Ok (ConfigManager.loadConfig env)) /\
  (forallb (isSet env) requiredVariables = false ->
   exists missing,
     missing <> [] /\
     incl missing
       (map fst (ConfigManager.requiredFields (ConfigManager.loadConfig env))) /\
     ConfigManager.construct env
     = Throw (mkError (js "Missing required environment variables: "
                       ++ ConfigManager.joinWith (js ", ") missing))).
Proof.
  unfold ConfigManager.construct, ConfigManager.validateConfig.
  cbv zeta.
  set (missing :=
         map fst
           (filter (fun field => match snd field with [] => true | _ :: _ => false end)
              (ConfigManager.requiredFields (ConfigManager.loadConfig env)))).
  assert (Hincl :
    incl missing (map fst (ConfigManager.requiredFields (ConfigManager.loadConfig env)))).
  { unfold missing. intros x Hx. apply in_map_iff in Hx as (f & <- & Hf).
    apply filter_In in Hf as [Hf _]. now apply in_map. }
  assert (Hset : forallb (isSet env) requiredVariables = true <-> missing = []).
  { unfold missing, ConfigManager.requiredFields, ConfigManager.loadConfig.
    cbn [ConfigManager.openai ConfigManager.email ConfigManager.apiKey
         ConfigManager.microsoftClientId ConfigManager.microsoftClientSecret
         ConfigManager.microsoftTenantId ConfigManager.fromEmail filter snd].
    change requiredVariables
      with [js "OPENAI_API_KEY"; js "MICROSOFT_CLIENT_ID"; js "MICROSOFT_CLIENT_SECRET";
            js "MICROSOFT_TENANT_ID"; js "EMAIL_FROM"].
    cbn [forallb]. unfold isSet.
    destruct (env (js "OPENAI_API_KEY")) as [[|? ?]|];
      destruct (env (js "MICROSOFT_CLIENT_ID")) as [[|? ?]|];
      destruct (env (js "MICROSOFT_CLIENT_SECRET")) as [[|? ?]|];
      destruct (env (js "MICROSOFT_TENANT_ID")) as [[|? ?]|];
      destruct (env (js "EMAIL_FROM")) as [[|? ?]|];
      cbn [orElse andb map fst]; split; (reflexivity || discriminate). }
  split.
  - intros H. apply Hset in H. rewrite H. reflexivity.
  - intros H. exists missing. destruct missing as [|m ms] eqn:E.
    + rewrite (proj2 Hset eq_refl) in H. discriminate.
    + split; [discriminate|]. split; [exact Hincl | reflexivity].
Qed.

Lemma configuration_needs_the_required_variables_witness :
  ConfigManager.construct minimalEnv = Ok (ConfigManager.loadConfig minimalEnv) /\
  ConfigManager.maxCompletionTokens
    (ConfigManager.openai (ConfigManager.loadConfig minimalEnv)) = Some 4000%Z.
Proof.
  split; [|reflexivity].
  apply (proj1 (configuration_needs_the_required_variables minimalEnv)).
  reflexivity.
Defined.
